(** * S-SAFE: the risk-assessment pipeline and its self-learning knowledge base

    A shallow embedding of the Python sources under [backend/] and [s_safe/]
    (extraction, research, salary, decision and TOON learning agents, and the
    TOON manager), followed by the properties stated about them.

    Part I holds the embedding, one module per Python module, each function
    under the name it has in the source.  Part II holds the properties, and
    Part III further properties of the same functions, of the functions they
    call and of their callers: the pattern agent, the rest of the research
    agent, and the end of the analysis in [backend/core.py]. *)

From Stdlib Require Import ZArith List String Ascii Bool Lia QArith Qabs Lqa Floats.
Import ListNotations.

Local Open Scope string_scope.
Local Open Scope list_scope.
Local Open Scope Z_scope.
Set Warnings "-register-all".

(* ===================================================================== *)
(** * Part I.  The embedding                                              *)
(* ===================================================================== *)

(** ** Python values

    The agents exchange JSON-like dictionaries.  A dictionary is kept as an
    association list in insertion order (the order [json.dump] writes); keys
    are strings, which is all the sources use.  Fallible operations return
    [res]: [Raise] carries the class of the Python exception. *)

Module Py.

Inductive exc : Type :=
| AttributeError
| TypeError
| KeyError
| ValueError
| OverflowError
| ZeroDivisionError
| OSError
| PermissionError
| JSONDecodeError
| Unmodelled.

(** [Unmodelled] is no exception of Python: it marks an input outside the
    fragment of the language a definition below covers. *)

Inductive res (A : Type) : Type :=
| Ok (a : A)
| Raise (e : exc).

Arguments Ok {A} a.
Arguments Raise {A} e.

Definition bind {A B : Type} (c : res A) (k : A -> res B) : res B :=
  match c with
  | Ok a => k a
  | Raise e => Raise e
  end.

Inductive value : Type :=
| VNone
| VBool (b : bool)
| VInt (z : Z)
| VFloat (f : float)
| VStr (s : string)
| VList (l : list value)
| VDict (d : list (string * value)).

Definition dict : Type := list (string * value).

(** [d.get(k)] on the entries of a dict. *)
Fixpoint lookup (k : string) (d : dict) : option value :=
  match d with
  | [] => None
  | (k', v) :: d' => if String.eqb k k' then Some v else lookup k d'
  end.

(** [d[k] = v]: an existing key keeps its place, a new one goes last. *)
Fixpoint store (k : string) (v : value) (d : dict) : dict :=
  match d with
  | [] => [(k, v)]
  | (k', v') :: d' =>
      if String.eqb k k' then (k', v) :: d' else (k', v') :: store k v d'
  end.

(** [d.update(other)] *)
Definition update (d other : dict) : dict :=
  fold_left (fun acc kv => store (fst kv) (snd kv) acc) other d.

(** [x.get(k, default)]; only a dict has the method. *)
Definition get (x : value) (k : string) (default : value) : res value :=
  match x with
  | VDict d => Ok (match lookup k d with Some v => v | None => default end)
  | _ => Raise AttributeError
  end.

(** [x[k]] for a string key. *)
Definition item (x : value) (k : string) : res value :=
  match x with
  | VDict d => match lookup k d with Some v => Ok v | None => Raise KeyError end
  | _ => Raise TypeError
  end.

(** [bool(x)]. *)
Definition truthy (x : value) : bool :=
  match x with
  | VNone => false
  | VBool b => b
  | VInt z => negb (z =? 0)
  | VFloat f => negb (PrimFloat.eqb f 0%float)
  | VStr s => negb (String.eqb s "")
  | VList l => match l with [] => false | _ => true end
  | VDict d => match d with [] => false | _ => true end
  end.

(** [len(x)]. *)
Definition len (x : value) : res Z :=
  match x with
  | VStr s => Ok (Z.of_nat (String.length s))
  | VList l => Ok (Z.of_nat (List.length l))
  | VDict d => Ok (Z.of_nat (List.length d))
  | _ => Raise TypeError
  end.

(** [x == s] for a string literal [s]: only an equal string is equal to it. *)
Definition eq_str (x : value) (s : string) : bool :=
  match x with
  | VStr t => String.eqb t s
  | _ => false
  end.

(** [x in [s1, s2, ...]] for a list of string literals. *)
Definition in_strs (x : value) (l : list string) : bool :=
  existsb (eq_str x) l.

(** [sep.join(l)] on strings. *)
Fixpoint join (sep : string) (l : list string) : string :=
  match l with
  | [] => ""
  | [s] => s
  | s :: l' => (s ++ sep ++ join sep l')%string
  end.

(** The items [for x in v] visits: the elements of a list, the characters of
    a string, the keys of a dict. *)
Definition iter (x : value) : res (list value) :=
  match x with
  | VList l => Ok l
  | VStr s => Ok (map (fun c => VStr (String c EmptyString)) (list_ascii_of_string s))
  | VDict d => Ok (map (fun kv => VStr (fst kv)) d)
  | _ => Raise TypeError
  end.

(** The strings of a list of values, as [str.join] demands them. *)
Fixpoint strs (l : list value) : res (list string) :=
  match l with
  | [] => Ok []
  | VStr s :: l' => bind (strs l') (fun r => Ok (s :: r))
  | _ :: _ => Raise TypeError
  end.

(** [x[:n]] on a list or a string. *)
Definition slice_to (n : nat) (x : value) : res value :=
  match x with
  | VList l => Ok (VList (firstn n l))
  | VStr s => Ok (VStr (String.substring 0 n s))
  | _ => Raise TypeError
  end.

(** [res]-valued map, left to right, stopping at the first exception. *)
Fixpoint mapM {A B : Type} (f : A -> res B) (l : list A) : res (list B) :=
  match l with
  | [] => Ok []
  | a :: l' => bind (f a) (fun b => bind (mapM f l') (fun r => Ok (b :: r)))
  end.

Definition strlist (l : list string) : value := VList (map VStr l).

End Py.

Export Py.

Declare Scope py_scope.
Delimit Scope py_scope with py.
Notation "x <- c ;; k" := (Py.bind c (fun x => k))
  (at level 61, c at next level, right associativity) : py_scope.
Local Open Scope py_scope.

(** ** backend/agents/decision_agent.py *)

Module decision_agent.

(** The lines [handle] appends to [positive_indicators]. *)
Inductive indicator : Type :=
| VerifiableOnlinePresence
| EmailDomainMatches
| ProfessionalEmailDomain
| LegitimateIndicators
| StrongOnlinePresence.

(** The sections [handle] appends to [explanation_parts], in the order of the
    source.  The fixed wording of each section is left out; what the section
    interpolates is kept. *)
Inductive part : Type :=
| RedFlagsDetected (shown : string)
| UpfrontPaymentRequired (fee_types : string)
| ScamReportsFound
| PersonalEmailDomain
| LimitedOnlinePresence (company_name : value)
| SalaryConcern (assessment : value)
| PositiveIndicators
| Indicator (i : indicator)
| PatternAnalysis (reasoning : value)
| ResearchFindings (summary : value)
| Recommendation (category : string).

(** [decision_data], the ["data"] entry of the response. *)
Record decision_data : Type := {
  result : string;
  explanation : list part;
  red_flags : value;
  positive_indicators : list indicator;
  company_name : value;
  trust_level : value;
  research_summary : value;
  internal_risk_score : Z
}.

Definition handle (payload : value) : res decision_data :=
  (* Get all agent outputs *)
  extraction <- get payload "extraction" (VDict []) ;;
  research <- get payload "research" (VDict []) ;;
  pattern_out <- get payload "pattern_out" (VDict []) ;;
  salary_out <- get payload "salary_out" (VDict []) ;;
  (* 1. Extraction Analysis *)
  red_flags <- get extraction "red_flags" (VList []) ;;
  fees <- get extraction "fees" (VList []) ;;
  n_fees <- len fees ;;
  let fees_mentioned := 0 <? n_fees in
  behaviors <- get extraction "behaviors" (VList []) ;;
  (* 2. Research Analysis *)
  trust_level <- get research "trust_assessment" (VStr "unknown") ;;
  scam_reports_d <- get research "scam_reports" (VDict []) ;;
  scam_reports <- get scam_reports_d "found" (VBool false) ;;
  email_verification <- get research "email_verification" (VDict []) ;;
  salary_verification <- get research "salary_verification" (VDict []) ;;
  company_verification <- get research "company_verification" (VDict []) ;;
  company_presence <- get company_verification "online_presence" (VStr "none") ;;
  (* 3. Pattern Analysis (TOON) *)
  scam_matches <- get pattern_out "scam_matches" VNone ;;
  let has_scam_patterns := truthy scam_matches in
  positive_matches <- get pattern_out "positive_matches" VNone ;;
  let has_positive_patterns := truthy positive_matches in
  (* 4. Salary Analysis *)
  salary_risk <- get salary_out "combined_risk" (VStr "LOW") ;;
  (* --- Calculate Risk Score (Internal) --- *)
  let risk_score := 0 in
  (* Extraction signals *)
  n_red_flags <- len red_flags ;;
  let risk_score := risk_score + n_red_flags * 2 in
  let risk_score := risk_score + (if fees_mentioned then 5 else 0) in
  n_behaviors <- len behaviors ;;
  let risk_score := risk_score + n_behaviors in
  (* Research signals *)
  let risk_score :=
    if eq_str trust_level "high_risk" then risk_score + 10
    else if eq_str trust_level "low_trust" then risk_score + 5
    else if eq_str trust_level "high_trust" then risk_score - 5
    else risk_score in
  let risk_score := if truthy scam_reports then risk_score + 8 else risk_score in
  personal_emails <- get email_verification "personal_emails" VNone ;;
  let risk_score := if truthy personal_emails then risk_score + 3 else risk_score in
  (* Pattern signals *)
  let risk_score := if has_scam_patterns then risk_score + 5 else risk_score in
  let risk_score := if has_positive_patterns then risk_score - 3 else risk_score in
  (* Salary signals *)
  let risk_score :=
    if eq_str salary_risk "HIGH" then risk_score + 4
    else if eq_str salary_risk "MEDIUM" then risk_score + 2
    else risk_score in
  (* --- Determine Category --- *)
  let category :=
    if 10 <=? risk_score then "Contains Warning Signs"
    else if risk_score <=? 2 then "Looks Safe"
    else "Needs Verification" in
  (* --- Build Comprehensive Explanation --- *)
  let explanation_parts := [] in
  (* Detailed Explanation - Red Flags *)
  explanation_parts <-
    (if truthy red_flags then
       first3 <- slice_to 3 red_flags ;;
       items <- iter first3 ;;
       ss <- strs items ;;
       Ok (explanation_parts ++ [RedFlagsDetected (join ", " ss)])
     else Ok explanation_parts) ;;
  explanation_parts <-
    (if fees_mentioned then
       fees <- get extraction "fees" (VList []) ;;
       items <- iter fees ;;
       fee_types <- mapM (fun f => get f "type" (VStr "unknown")) items ;;
       ss <- strs fee_types ;;
       Ok (explanation_parts ++ [UpfrontPaymentRequired (join ", " ss)])
     else Ok explanation_parts) ;;
  let explanation_parts :=
    if truthy scam_reports then explanation_parts ++ [ScamReportsFound]
    else explanation_parts in
  let explanation_parts :=
    if truthy personal_emails then explanation_parts ++ [PersonalEmailDomain]
    else explanation_parts in
  explanation_parts <-
    (if eq_str company_presence "weak" || eq_str company_presence "none" then
       company_name <- get extraction "company_name" (VStr "Unknown") ;;
       Ok (explanation_parts ++ [LimitedOnlinePresence company_name])
     else Ok explanation_parts) ;;
  (* Salary Reality Check *)
  salary_real <- get salary_verification "realistic" (VStr "unknown") ;;
  explanation_parts <-
    (if in_strs salary_real ["suspiciously_low"; "suspiciously_high"] then
       assessment <- get salary_verification "assessment" (VStr "") ;;
       Ok (explanation_parts ++ [SalaryConcern assessment])
     else Ok explanation_parts) ;;
  (* Positive Indicators *)
  let positive_indicators := [] in
  let positive_indicators :=
    if in_strs trust_level ["high_trust"; "moderate_trust"]
    then positive_indicators ++ [VerifiableOnlinePresence]
    else positive_indicators in
  domain_matches <- get email_verification "domain_matches" VNone ;;
  let positive_indicators :=
    if truthy domain_matches then positive_indicators ++ [EmailDomainMatches]
    else positive_indicators in
  professional_emails <- get email_verification "professional_emails" VNone ;;
  let positive_indicators :=
    if truthy professional_emails
    then positive_indicators ++ [ProfessionalEmailDomain]
    else positive_indicators in
  let positive_indicators :=
    if has_positive_patterns then positive_indicators ++ [LegitimateIndicators]
    else positive_indicators in
  let positive_indicators :=
    if eq_str company_presence "strong"
    then positive_indicators ++ [StrongOnlinePresence]
    else positive_indicators in
  (* Add positive indicators to explanation *)
  let explanation_parts :=
    match positive_indicators with
    | [] => explanation_parts
    | _ => explanation_parts ++ [PositiveIndicators] ++ map Indicator positive_indicators
    end in
  (* Pattern Reasoning *)
  reasoning <- get pattern_out "reasoning" VNone ;;
  let explanation_parts :=
    if truthy reasoning then explanation_parts ++ [PatternAnalysis reasoning]
    else explanation_parts in
  (* Research Summary *)
  summary <- get research "summary" VNone ;;
  let explanation_parts :=
    if truthy summary then explanation_parts ++ [ResearchFindings summary]
    else explanation_parts in
  (* Advisory Message *)
  let explanation_parts := explanation_parts ++ [Recommendation category] in
  (* --- Build Response --- *)
  company_name <- get extraction "company_name" (VStr "Unknown") ;;
  research_summary <- get research "summary" (VStr "") ;;
  Ok {| result := category;
        explanation := explanation_parts;
        red_flags := red_flags;
        positive_indicators := positive_indicators;
        company_name := company_name;
        trust_level := trust_level;
        research_summary := research_summary;
        internal_risk_score := risk_score |}.

End decision_agent.

(** ** The data model

    Typed views of the dictionaries the stages hand to each other, and the
    dictionary each one stands for ([py_of_...]), key by key as the producing
    stage builds it. *)

Module DataModel.

(** An entry of [fees], built by [ExtractionAgent._extract_fees]. *)
Record Fee : Type := {
  fee_amount : Z;
  fee_context : string;
  fee_type : string
}.

Definition py_of_fee (f : Fee) : value :=
  VDict [("amount", VInt (fee_amount f));
         ("context", VStr (fee_context f));
         ("type", VStr (fee_type f))].

(** The [salary] entry, built by [ExtractionAgent._extract_salary]. *)
Inductive SalaryInfo : Type :=
| NotMentioned
| Mentioned (amount : Z) (currency period : string).

Definition py_of_salary (s : SalaryInfo) : value :=
  match s with
  | NotMentioned =>
      VDict [("mentioned", VBool false); ("amount", VNone); ("currency", VNone)]
  | Mentioned amount currency period =>
      VDict [("mentioned", VBool true); ("amount", VInt amount);
             ("currency", VStr currency); ("period", VStr period)]
  end.

(** The response data of [ExtractionAgent.handle]. *)
Record ExtractionResult : Type := {
  x_company_name : string;
  x_emails : list string;
  x_domains : list string;
  x_phones : list string;
  x_urls : list string;
  x_salary : SalaryInfo;
  x_fees : list Fee;
  x_whatsapp : list string;
  x_telegram : list string;
  x_red_flags : list string;
  x_behaviors : list string;
  x_raw_text : string
}.

Definition py_of_extraction (x : ExtractionResult) : value :=
  VDict [("company_name", VStr (x_company_name x));
         ("emails", strlist (x_emails x));
         ("domains", strlist (x_domains x));
         ("phones", strlist (x_phones x));
         ("urls", strlist (x_urls x));
         ("salary", py_of_salary (x_salary x));
         ("fees", VList (map py_of_fee (x_fees x)));
         ("messaging_ids",
          VDict [("whatsapp", strlist (x_whatsapp x));
                 ("telegram", strlist (x_telegram x))]);
         ("red_flags", strlist (x_red_flags x));
         ("behaviors", strlist (x_behaviors x));
         ("raw_text", VStr (x_raw_text x))].

(** The response data of [OnlineResearchAgent.handle]. *)
Record ReputationResult : Type := {
  (* company_verification *)
  r_found : bool;
  r_online_presence : string;
  r_sources : list string;
  r_description : string;
  (* email_verification *)
  r_emails_found : Z;
  r_domain_matches : list string;
  r_suspicious_domains : list string;
  r_personal_emails : list string;
  r_professional_emails : list string;
  (* salary_verification; [monthly_equivalent] is there only with a salary *)
  r_realistic : string;
  r_monthly_equivalent : option value;
  r_assessment : string;
  r_market_range : option string;
  (* scam_reports *)
  r_scam_found : bool;
  r_scam_sources : list string;
  r_scam_summary : string;
  (* domain_analysis *)
  r_total_domains : Z;
  r_trusted : list string;
  r_suspicious : list string;
  r_unknown : list string;
  r_trust_assessment : string;
  r_summary : string
}.

Definition py_of_company_verification (r : ReputationResult) : value :=
  VDict [("found", VBool (r_found r));
         ("online_presence", VStr (r_online_presence r));
         ("sources", strlist (r_sources r));
         ("description", VStr (r_description r))].

Definition py_of_email_verification (r : ReputationResult) : value :=
  VDict [("emails_found", VInt (r_emails_found r));
         ("domain_matches", strlist (r_domain_matches r));
         ("suspicious_domains", strlist (r_suspicious_domains r));
         ("personal_emails", strlist (r_personal_emails r));
         ("professional_emails", strlist (r_professional_emails r))].

Definition py_of_salary_verification (r : ReputationResult) : value :=
  let market := match r_market_range r with Some m => VStr m | None => VNone end in
  match r_monthly_equivalent r with
  | None =>
      VDict [("realistic", VStr (r_realistic r));
             ("market_range", market);
             ("assessment", VStr (r_assessment r))]
  | Some m =>
      VDict [("realistic", VStr (r_realistic r));
             ("monthly_equivalent", m);
             ("assessment", VStr (r_assessment r));
             ("market_range", market)]
  end.

Definition py_of_scam_reports (r : ReputationResult) : value :=
  VDict [("found", VBool (r_scam_found r));
         ("sources", strlist (r_scam_sources r));
         ("summary", VStr (r_scam_summary r))].

Definition py_of_domain_analysis (r : ReputationResult) : value :=
  VDict [("total_domains", VInt (r_total_domains r));
         ("trusted", strlist (r_trusted r));
         ("suspicious", strlist (r_suspicious r));
         ("unknown", strlist (r_unknown r))].

Definition py_of_reputation (r : ReputationResult) : value :=
  VDict [("company_verification", py_of_company_verification r);
         ("email_verification", py_of_email_verification r);
         ("salary_verification", py_of_salary_verification r);
         ("scam_reports", py_of_scam_reports r);
         ("domain_analysis", py_of_domain_analysis r);
         ("trust_assessment", VStr (r_trust_assessment r));
         ("summary", VStr (r_summary r))].

(** The response data of [PatternMatchingAgent.handle].  [_check_matches]
    records a category only with the keywords found for it, at least one:
    the first keyword found and the ones after it. *)
Definition hits : Type := string * (string * list string).

Record PatternMatchResult : Type := {
  p_scam_matches : list hits;
  p_positive_matches : list hits;
  p_reasoning : string
}.

Definition py_of_matches (m : list hits) : value :=
  VDict (map (fun kv => (fst kv, strlist (fst (snd kv) :: snd (snd kv)))) m).

Definition py_of_pattern (p : PatternMatchResult) : value :=
  VDict [("scam_matches", py_of_matches (p_scam_matches p));
         ("positive_matches", py_of_matches (p_positive_matches p));
         ("pattern_matches", py_of_matches (p_scam_matches p));
         ("reasoning", VStr (p_reasoning p))].

(** The response data of [SalaryInterviewAgent.handle]. *)
Record SalaryResult : Type := {
  s_salary_assessment : value;
  s_interview_analysis : value;
  s_combined_risk : string
}.

Definition py_of_salary_result (s : SalaryResult) : value :=
  VDict [("salary_assessment", s_salary_assessment s);
         ("interview_analysis", s_interview_analysis s);
         ("combined_risk", VStr (s_combined_risk s))].

(** The proposal of [TOONLearningAgent._propose_update]. *)
Record LearningProposal : Type := {
  new_scam_keywords : list string;
  new_scam_domains : list string;
  new_scam_behaviors : list string;
  new_safe_keywords : list string;
  new_safe_domains : list string;
  confidence : float;
  should_apply : bool
}.

Definition py_of_proposal (p : LearningProposal) : value :=
  VDict [("new_scam_keywords", strlist (new_scam_keywords p));
         ("new_scam_domains", strlist (new_scam_domains p));
         ("new_scam_behaviors", strlist (new_scam_behaviors p));
         ("new_safe_keywords", strlist (new_safe_keywords p));
         ("new_safe_domains", strlist (new_safe_domains p));
         ("confidence", VFloat (confidence p));
         ("should_apply", VBool (should_apply p))].

(** The payload of the [propose_update] request of [run_full_analysis]. *)
Definition propose_update_payload (extraction research : value) : value :=
  VDict [("action", VStr "propose_update");
         ("extraction", extraction);
         ("research", research)].

(** The payload of an [apply_update] request. *)
Definition apply_update_payload (p : LearningProposal) : value :=
  VDict [("action", VStr "apply_update"); ("proposals", py_of_proposal p)].

(** What a stage contributes to the payload of the decision agent:
    [run_full_analysis] passes the stage's data, or [{}] when the stage
    failed; a caller may also leave the key out. *)
Inductive stage (A : Type) : Type :=
| Absent
| Failed
| Data (a : A).

Arguments Absent {A}.
Arguments Failed {A}.
Arguments Data {A} a.

Definition entry {A : Type} (k : string) (f : A -> value) (o : stage A) : dict :=
  match o with
  | Absent => []
  | Failed => [(k, VDict [])]
  | Data a => [(k, f a)]
  end.

(** [decision_payload] of [run_full_analysis]. *)
Definition decision_payload (clean_text : string)
    (extraction : stage ExtractionResult) (research : stage ReputationResult)
    (pattern_out : stage PatternMatchResult) (salary_out : stage SalaryResult)
    (toon_proposal : value) : value :=
  VDict ([("clean_text", VStr clean_text)]
         ++ entry "extraction" py_of_extraction extraction
         ++ entry "research" py_of_reputation research
         ++ entry "pattern_out" py_of_pattern pattern_out
         ++ entry "salary_out" py_of_salary_result salary_out
         ++ [("toon_proposal", toon_proposal)]).

End DataModel.

(** ** backend/agents/research_agent.py *)

Module research_agent.

(** *** Numbers

    The salary amount is an int; its twelfth is a double.  A finite double
    is a whole number of units of [2^-1074], its smallest positive value,
    and is kept as that number of units: comparisons are then exact, as
    Python's comparisons of a float with an int are. *)
Inductive number : Type :=
| Int (z : Z)
| Float (units : Z).

(** The units in one. *)
Definition unit : Z := 2 ^ 1074.

(** The doubles end below [2^1024], that is [2^2098] units. *)
Definition double_max_units : Z := 2 ^ 2098.

(** The double of so many units, as a primitive float. *)
Definition to_float (units : Z) : float :=
  let m := Z.abs units in
  let j := Z.max 0 (Z.log2 m - 52) in
  let f := Z.ldexp (PrimFloat.of_uint63 (Uint63.of_Z (m / 2 ^ j))) (j - 1074) in
  if units <? 0 then (- f)%float else f.

(** The whole number nearest to [num / den], the even one of two that are
    equally near. *)
Definition round_half_even (num den : Z) : Z :=
  let q := num / den in
  let r := num mod den in
  if (den <? 2 * r) || ((den =? 2 * r) && Z.odd q) then q + 1 else q.

(** The double nearest to [a / b], in units, for [0 <= a] and [0 < b]: the
    quotient in units is rounded to a multiple of [2^j], where [j] leaves it
    53 binary digits (and is 0 for a quotient of fewer digits). *)
Definition nearest_double (a b : Z) : Z :=
  let num := a * unit in
  let j := Z.max 0 (Z.log2 (num / b) - 52) in
  round_half_even num (b * 2 ^ j) * 2 ^ j.

(** [a / b] on two ints: the double nearest to the quotient;
    [OverflowError] when that is beyond the doubles. *)
Definition true_divide (a b : Z) : res number :=
  if b =? 0 then Raise ZeroDivisionError
  else
    let n := nearest_double (Z.abs a) (Z.abs b) in
    if double_max_units <=? n then Raise OverflowError
    else Ok (Float (Z.sgn a * Z.sgn b * n)).

(** [x < k] and [x > k] for a number [x] and an int [k]. *)
Definition lt_int (x : number) (k : Z) : bool :=
  match x with
  | Int z => z <? k
  | Float units => units <? k * unit
  end.

Definition gt_int (x : number) (k : Z) : bool :=
  match x with
  | Int z => k <? z
  | Float units => k * unit <? units
  end.

(** The int a Python value is; the extractor hands over no other number. *)
Definition int_of (x : value) : res Z :=
  match x with
  | VInt z => Ok z
  | VBool b => Ok (if b then 1 else 0)
  | VFloat _ => Raise Unmodelled
  | _ => Raise TypeError
  end.

(** The dict [_verify_salary] returns. *)
Record salary_verification : Type := {
  realistic : string;
  monthly_equivalent : option number;
  assessment : string;
  market_range : option string
}.

Definition _verify_salary (company : string) (salary : value)
  : res salary_verification :=
  mentioned <- get salary "mentioned" VNone ;;
  if negb (truthy mentioned) then
    Ok {| realistic := "unknown";
          monthly_equivalent := None;
          assessment := "No salary information provided";
          market_range := None |}
  else
    amount <- get salary "amount" (VInt 0) ;;
    period <- get salary "period" (VStr "month") ;;
    amount <- int_of amount ;;
    (* Convert to monthly if needed *)
    monthly_amount <-
      (if eq_str period "month" then Ok (Int amount) else true_divide amount 12) ;;
    (* Basic reality checks for Indian market (internships) *)
    let assessment := "realistic" in
    let reason := "Salary appears within normal range" in
    let '(assessment, reason) :=
      if lt_int monthly_amount 5000 then
        ("suspiciously_low",
         "Salary is unusually low for any legitimate internship")
      else if gt_int monthly_amount 100000 then
        ("suspiciously_high",
         "Salary is unusually high for an internship without experience")
      else if gt_int monthly_amount 50000 then
        ("verify_required", "Salary is high; verify company legitimacy")
      else (assessment, reason) in
    Ok {| realistic := assessment;
          monthly_equivalent := Some monthly_amount;
          assessment := reason;
          market_range := Some "₹10,000 - ₹30,000/month for internships" |}.

Definition _assess_trust (research : value) : res string :=
  let score := 0 in
  (* Company verification *)
  company_verification <- item research "company_verification" ;;
  company_presence <- get company_verification "online_presence" (VStr "none") ;;
  let score :=
    if eq_str company_presence "strong" then score + 3
    else if eq_str company_presence "moderate" then score + 1
    else if eq_str company_presence "weak" then score - 1
    else score in
  (* Email verification *)
  email_ver <- item research "email_verification" ;;
  professional_emails <- item email_ver "professional_emails" ;;
  let score := if truthy professional_emails then score + 2 else score in
  personal_emails <- item email_ver "personal_emails" ;;
  let score := if truthy personal_emails then score - 1 else score in
  domain_matches <- item email_ver "domain_matches" ;;
  let score := if truthy domain_matches then score + 2 else score in
  (* Scam reports *)
  scam_reports <- item research "scam_reports" ;;
  found <- item scam_reports "found" ;;
  let score := if truthy found then score - 5 else score in
  (* Domain analysis *)
  domain_analysis <- item research "domain_analysis" ;;
  trusted <- item domain_analysis "trusted" ;;
  let score := if truthy trusted then score + 3 else score in
  suspicious <- item domain_analysis "suspicious" ;;
  let score := if truthy suspicious then score - 2 else score in
  (* Salary verification *)
  salary_verification <- item research "salary_verification" ;;
  salary_check <- get salary_verification "realistic" (VStr "unknown") ;;
  let score :=
    if eq_str salary_check "realistic" then score + 1
    else if in_strs salary_check ["suspiciously_low"; "suspiciously_high"]
    then score - 2
    else score in
  (* Determine trust level *)
  if 5 <=? score then Ok "high_trust"
  else if 2 <=? score then Ok "moderate_trust"
  else if 0 <=? score then Ok "low_trust"
  else Ok "high_risk".

End research_agent.

(** ** Text

    A Python [str] is modelled as a Rocq [string] whose characters are the
    code points below 256.  The rupee sign (U+20B9), which the patterns of
    the extraction agent name, is no such character: the alternative that
    asks for it never matches a text of the model. *)

Module Text.

Definition code (c : ascii) : nat := nat_of_ascii c.

Definition in_range (lo hi : nat) (c : ascii) : bool :=
  (lo <=? code c)%nat && (code c <=? hi)%nat.

(** [c.isspace()], which is also the class [\s]: the ASCII blanks, the
    separators U+001C to U+001F, NEL and the no-break space. *)
Definition is_space (c : ascii) : bool :=
  in_range 9 13 c || in_range 28 32 c
  || (code c =? 133)%nat || (code c =? 160)%nat.

(** The class [\d]; below 256 the only decimal digits are 0 to 9. *)
Definition is_digit (c : ascii) : bool := in_range 48 57 c.

(** [c.lower()]: the capitals A to Z, and the capitals of Latin-1 (U+00C0 to
    U+00DE, the multiplication sign apart), move up by 32. *)
Definition lower_char (c : ascii) : ascii :=
  if in_range 65 90 c
     || (in_range 192 222 c && negb (code c =? 215)%nat)
  then ascii_of_nat (code c + 32)
  else c.

(** [s.lower()]. *)
Fixpoint lower (s : string) : string :=
  match s with
  | EmptyString => EmptyString
  | String c s' => String (lower_char c) (lower s')
  end.

(** [sub in s]: [sub] occurs in [s]. *)
Fixpoint contains (sub s : string) : bool :=
  String.prefix sub s
  || match s with
     | EmptyString => false
     | String _ s' => contains sub s'
     end.

(** [s.count(c)] for a character [c]. *)
Fixpoint count (c : ascii) (s : string) : nat :=
  match s with
  | EmptyString => O
  | String c' s' => ((if Ascii.eqb c c' then 1 else 0) + count c s')%nat
  end.

(** [s[i:j]] for [0 <= i] and [j <= len(s)]. *)
Definition slice (i j : nat) (s : string) : string :=
  String.substring i (j - i) s.

(** [s.replace(c, '')] for a character [c]. *)
Fixpoint remove (c : ascii) (s : string) : string :=
  match s with
  | EmptyString => EmptyString
  | String c' s' =>
      if Ascii.eqb c c' then remove c s' else String c' (remove c s')
  end.

(** [s.split(c)[0]]: what comes before the first [c]. *)
Fixpoint before (c : ascii) (s : string) : string :=
  match s with
  | EmptyString => EmptyString
  | String c' s' => if Ascii.eqb c c' then EmptyString else String c' (before c s')
  end.

Fixpoint lstrip (s : string) : string :=
  match s with
  | EmptyString => EmptyString
  | String c s' => if is_space c then lstrip s' else s
  end.

(** The string without its trailing blanks. *)
Fixpoint rstrip (s : string) : string :=
  match s with
  | EmptyString => EmptyString
  | String c s' =>
      match rstrip s' with
      | EmptyString => if is_space c then EmptyString else String c EmptyString
      | r => String c r
      end
  end.

(** [s.strip()]. *)
Definition strip (s : string) : string := rstrip (lstrip s).

(** The value of a string of decimal digits, most significant first. *)
Fixpoint digits_value (acc : Z) (s : string) : option Z :=
  match s with
  | EmptyString => Some acc
  | String c s' =>
      if is_digit c
      then digits_value (10 * acc + Z.of_nat (code c - 48)) s'
      else None
  end.

(** [sys.get_int_max_str_digits()], as the interpreter starts: the longest
    string of digits [int] converts. *)
Definition int_max_str_digits : Z := 4300.

(** [int(s)] on what the patterns hand to it: digits, and characters that
    are none.  A string of digits is its value, when it has no more than
    [int_max_str_digits] digits (leading zeros count); a longer one, the
    empty string and a string with another character raise [ValueError].
    (Signs, blanks and underscores, which [int] also reads, never reach it
    here.) *)
Definition int_of_str (s : string) : res Z :=
  match s with
  | EmptyString => Raise ValueError
  | _ => match digits_value 0 s with
         | Some z =>
             if int_max_str_digits <? Z.of_nat (String.length s)
             then Raise ValueError
             else Ok z
         | None => Raise ValueError
         end
  end.

End Text.

(** ** Regular expressions

    The fragment of Python's [re] the sources use, with its matching order:
    alternatives are tried left to right and repetitions are greedy, giving
    back one iteration at a time.  The patterns of the sources repeat only
    expressions that consume a character. *)

Module re.

Import Text.

Inductive regex : Type :=
| Eps
| Class (p : ascii -> bool)
| Seq (r1 r2 : regex)
| Alt (r1 r2 : regex)
| Star (r : regex)
| Group (i : nat) (r : regex).

(** Where each group last matched: its start and its end. *)
Definition captures : Type := list (nat * (nat * nat)).

Fixpoint group_span (i : nat) (c : captures) : option (nat * nat) :=
  match c with
  | [] => None
  | (j, span) :: c' => if (i =? j)%nat then Some span else group_span i c'
  end.

Definition outcome : Type := option (nat * captures).

(** The loop of a greedy repetition: one more round of [step] when that
    leads to a match, else go on with [k].  A round that consumes nothing
    ends the loop; [fuel] bounds the rounds by the length of the text. *)
Fixpoint star
    (step : list ascii -> nat -> captures ->
            (list ascii -> nat -> captures -> outcome) -> outcome)
    (k : list ascii -> nat -> captures -> outcome)
    (fuel : nat) (s : list ascii) (pos : nat) (c : captures) : outcome :=
  match fuel with
  | O => k s pos c
  | S fuel' =>
      match step s pos c
              (fun s' pos' c' =>
                 if (pos <? pos')%nat then star step k fuel' s' pos' c'
                 else None) with
      | Some o => Some o
      | None => k s pos c
      end
  end.

(** [run r s pos c k]: match [r] on [s], the text from position [pos] on,
    then go on with [k]; the first way that lets [k] succeed is the match. *)
Fixpoint run (r : regex) (s : list ascii) (pos : nat) (c : captures)
    (k : list ascii -> nat -> captures -> outcome) {struct r} : outcome :=
  match r with
  | Eps => k s pos c
  | Class p =>
      match s with
      | a :: s' => if p a then k s' (S pos) c else None
      | [] => None
      end
  | Seq r1 r2 => run r1 s pos c (fun s' pos' c' => run r2 s' pos' c' k)
  | Alt r1 r2 =>
      match run r1 s pos c k with
      | Some o => Some o
      | None => run r2 s pos c k
      end
  | Star r' => star (run r') k (S (List.length s)) s pos c
  | Group i r' =>
      run r' s pos c (fun s' pos' c' => k s' pos' ((i, (pos, pos')) :: c'))
  end.

(** A match of the pattern that starts at [pos]: where it ends, and the
    groups. *)
Definition match_at (r : regex) (s : list ascii) (pos : nat) : outcome :=
  run r s pos [] (fun _ pos' c => Some (pos', c)).

Record match_object : Type := {
  m_start : nat;
  m_end : nat;
  m_groups : captures
}.

(** The matches from left to right, none overlapping another: after a match
    the scan resumes where it ended ([skip] counts the characters still to
    pass). *)
Fixpoint scan (r : regex) (s : list ascii) (pos skip : nat) : list match_object :=
  match skip with
  | S skip' =>
      match s with
      | [] => []
      | _ :: s' => scan r s' (S pos) skip'
      end
  | O =>
      match match_at r s pos with
      | Some (e, c) =>
          {| m_start := pos; m_end := e; m_groups := c |}
          :: match s with
             | [] => []
             | _ :: s' => scan r s' (S pos) (e - pos - 1)
             end
      | None =>
          match s with
          | [] => []
          | _ :: s' => scan r s' (S pos) 0
          end
      end
  end.

(** [finditer] on the compiled pattern. *)
Definition finditer (r : regex) (text : string) : list match_object :=
  scan r (list_ascii_of_string text) 0 0.

(** [m.group(i)]; a group that took no part in the match reads as the empty
    string, as [findall] reports it. *)
Definition group (text : string) (m : match_object) (i : nat) : string :=
  match group_span i (m_groups m) with
  | Some (b, e) => slice b e text
  | None => ""
  end.

(** [re.search(pattern, text)] as a truth value. *)
Fixpoint search_from (r : regex) (s : list ascii) (pos : nat) : bool :=
  match match_at r s pos with
  | Some _ => true
  | None =>
      match s with
      | [] => false
      | _ :: s' => search_from r s' (S pos)
      end
  end.

Definition search (r : regex) (text : string) : bool :=
  search_from r (list_ascii_of_string text) 0.

(** *** Writing patterns *)

(** One given character. *)
Definition chr (a : ascii) : regex := Class (Ascii.eqb a).

(** One given character under [re.IGNORECASE]. *)
Definition chr_i (a : ascii) : regex :=
  Class (fun c => Ascii.eqb (lower_char c) (lower_char a)).

Definition seqs (l : list regex) : regex := fold_right Seq Eps l.

(** [r1|r2|...]; the empty alternation matches nothing. *)
Fixpoint alts (l : list regex) : regex :=
  match l with
  | [] => Class (fun _ => false)
  | [r] => r
  | r :: l' => Alt r (alts l')
  end.

(** A literal string, and the same under [re.IGNORECASE]. *)
Definition lit (s : string) : regex := seqs (map chr (list_ascii_of_string s)).
Definition lit_i (s : string) : regex := seqs (map chr_i (list_ascii_of_string s)).

(** [r?], [r+], [r{n}] and [r{lo,hi}] with [hi = lo + more], all greedy. *)
Definition opt (r : regex) : regex := Alt r Eps.
Definition plus (r : regex) : regex := Seq r (Star r).

Fixpoint rep (n : nat) (r : regex) : regex :=
  match n with
  | O => Eps
  | S n' => Seq r (rep n' r)
  end.

Fixpoint upto (n : nat) (r : regex) : regex :=
  match n with
  | O => Eps
  | S n' => opt (Seq r (upto n' r))
  end.

Definition rep_range (lo more : nat) (r : regex) : regex :=
  Seq (rep lo r) (upto more r).

(** A pattern as the source writes it, and as [re.compile] reads it. *)
Record pattern : Type := {
  source : string;
  compiled : regex
}.

Definition digit : regex := Class is_digit.       (* \d and [0-9] *)
Definition space : regex := Class is_space.       (* \s *)
Definition any : regex :=                          (* . *)
  Class (fun c => negb (Ascii.eqb c "010"%char)).
Definition nothing : regex := Class (fun _ => false).

End re.

(** ** backend/agents/extraction_agent.py *)

Module extraction_agent.

Import Text re DataModel.

(** The rupee sign of the patterns: no character of the model. *)
Definition rupee : regex := nothing.

(** [self.salary_pattern], compiled with [re.IGNORECASE]. *)
Definition salary_pattern : pattern := {|
  source :=
    "(?:₹|Rs\.?|INR|USD|\$)\s*(\d+(?:,\d{3})*(?:\.\d{2})?)\s*(?:per|/)?(?:month|year|annum|pm|pa)?";
  compiled :=
  seqs [alts [rupee; Seq (lit_i "Rs") (opt (chr_i ".")); lit_i "INR";
              lit_i "USD"; chr_i "$"];
        Star space;
        Group 1 (seqs [plus digit;
                       Star (Seq (chr_i ",") (rep 3 digit));
                       opt (Seq (chr_i ".") (rep 2 digit))]);
        Star space;
        opt (alts [lit_i "per"; chr_i "/"]);
        opt (alts [lit_i "month"; lit_i "year"; lit_i "annum"; lit_i "pm";
                   lit_i "pa"])]
|}.

(** [self.fee_pattern], compiled with [re.IGNORECASE]. *)
Definition fee_pattern : pattern := {|
  source :=
    "(?:fee|deposit|payment|charge|cost)\s*(?:of|:)?\s*(?:₹|Rs\.?|INR|\$)?\s*(\d+(?:,\d{3})*)";
  compiled :=
  seqs [alts [lit_i "fee"; lit_i "deposit"; lit_i "payment"; lit_i "charge";
              lit_i "cost"];
        Star space;
        opt (alts [lit_i "of"; chr_i ":"]);
        Star space;
        opt (alts [rupee; Seq (lit_i "Rs") (opt (chr_i ".")); lit_i "INR";
                   chr_i "$"]);
        Star space;
        Group 1 (seqs [plus digit; Star (Seq (chr_i ",") (rep 3 digit))])]
|}.

(** [self.red_flags] *)
Definition red_flags : list string :=
  ["training fee"; "registration fee"; "refundable deposit"; "security deposit";
   "laptop fee"; "equipment fee"; "processing fee"; "onboarding fee";
   "wire transfer"; "western union"; "cash app"; "crypto payment"; "bitcoin";
   "no interview"; "immediate hiring"; "urgent hiring"; "quick earnings";
   "work from home guaranteed"; "no experience needed"; "earn from home";
   "whatsapp job"; "telegram job"; "kindly"; "dear candidate";
   "congratulations you are selected"; "limited slots"; "act fast"].

(** [pattern.findall(text)] for a pattern with one group. *)
Definition findall (p : pattern) (text : string) : list string :=
  map (fun m => group text m 1) (finditer (compiled p) text).

(** [any(word in s for word in words)] *)
Definition any_in (words : list string) (s : string) : bool :=
  existsb (fun word => contains word s) words.

Definition _extract_salary (text : string) : res SalaryInfo :=
  let matches := findall salary_pattern text in
  match matches with
  | [] => Ok NotMentioned
  | amount_str :: _ =>
      (* Get the first match *)
      amount <- int_of_str (remove "," amount_str) ;;
      (* Detect currency *)
      let currency := "INR" in
      let currency :=
        if contains "$" text || contains "USD" text then "USD" else currency in
      (* Detect period *)
      let period := "month" in
      let period :=
        if any_in ["year"; "annum"; "pa"] (lower text) then "year" else period in
      Ok (Mentioned amount currency period)
  end.

Definition _classify_fee (context : string) : string :=
  let context_lower := lower context in
  if contains "training" context_lower then "training_fee"
  else if contains "registration" context_lower then "registration_fee"
  else if contains "deposit" context_lower then "deposit"
  else if contains "refund" context_lower then "refundable_deposit"
  else "other_fee".

Definition _extract_fees (text : string) : res (list Fee) :=
  let matches := finditer (compiled fee_pattern) text in
  mapM (fun m =>
          let fee_context :=
            slice (Nat.max 0 (m_start m - 30))
                  (Nat.min (String.length text) (m_end m + 30)) text in
          let amount_str := group text m 1 in
          amount <- int_of_str (remove "," amount_str) ;;
          Ok {| fee_amount := amount;
                fee_context := strip fee_context;
                fee_type := _classify_fee fee_context |})
       matches.

Definition _detect_red_flags (text : string) : list string :=
  let text_lower := lower text in
  filter (fun flag => contains flag text_lower) red_flags.

Definition _detect_behaviors (text : string) : list string :=
  let text_lower := lower text in
  let detected := [] in
  (* Check for each behavior *)
  let detected :=
    if negb (contains "interview" text_lower)
    then detected ++ ["no interview mentioned"] else detected in
  let detected :=
    if any_in ["fee"; "deposit"; "payment"; "charge"] text_lower
    then detected ++ ["upfront payment required"] else detected in
  (* Check for poor grammar indicators *)
  let detected :=
    if (3 <? count "!" text)%nat || (3 <? count "?" text)%nat
    then detected ++ ["excessive punctuation"] else detected in
  let detected :=
    if contains "kindly" text_lower || contains "dear candidate" text_lower
    then detected ++ ["unprofessional language"] else detected in
  (* Check for urgency *)
  let detected :=
    if any_in ["urgent"; "immediate"; "limited"; "act fast"; "hurry"] text_lower
    then detected ++ ["pressure to act fast"] else detected in
  (* Check for vague description *)
  let detected :=
    if (String.length text <? 100)%nat
    then detected ++ ["vague job description"] else detected in
  detected.

(** [self.phone_pattern]; [separator] is the class [[-.\s]]. *)
Definition separator : regex :=
  Class (fun c => Ascii.eqb c "-" || Ascii.eqb c "." || is_space c).

Definition phone_pattern : pattern := {|
  source := "(\+?\d{1,3}[-.\s]?)?\(?\d{3}\)?[-.\s]?\d{3}[-.\s]?\d{4}";
  compiled :=
  seqs [opt (Group 1 (seqs [opt (chr "+"); rep_range 1 2 digit; opt separator]));
        opt (chr "(");
        rep 3 digit;
        opt (chr ")");
        opt separator;
        rep 3 digit;
        opt separator;
        rep 4 digit]
|}.

(** [findall] on a pattern with one group lists, for every match, what the
    group took: every [p] is a string, and is kept as it is. *)
Definition _extract_phones (text : string) : list string :=
  let phones := findall phone_pattern text in
  phones.

(** The patterns of [_extract_messaging_ids], compiled with
    [re.IGNORECASE]; [word] is the class [[A-Za-z0-9_]]. *)
Definition word : regex :=
  Class (fun c => in_range 65 90 c || in_range 97 122 c || is_digit c
                  || Ascii.eqb c "_").

Definition whatsapp_pattern : pattern := {|
  source := "(?:whatsapp|wa)[\s:]+(\+?\d{10,15})";
  compiled :=
  seqs [alts [lit_i "whatsapp"; lit_i "wa"];
        plus (Class (fun c => is_space c || Ascii.eqb c ":"));
        Group 1 (seqs [opt (chr_i "+"); rep_range 10 5 digit])]
|}.

Definition telegram_pattern : pattern := {|
  source := "(?:telegram|t\.me)/([A-Za-z0-9_]{5,32})";
  compiled :=
  seqs [alts [lit_i "telegram"; lit_i "t.me"];
        chr_i "/";
        Group 1 (rep_range 5 27 word)]
|}.

Definition _extract_messaging_ids (text : string) : value :=
  let messaging := [("whatsapp", VList []); ("telegram", VList [])] in
  (* WhatsApp patterns *)
  let messaging :=
    store "whatsapp" (strlist (findall whatsapp_pattern text)) messaging in
  (* Telegram patterns *)
  let messaging :=
    store "telegram" (strlist (findall telegram_pattern text)) messaging in
  VDict messaging.

End extraction_agent.

(** ** s_safe/tools/salary_tool.py *)

Module salary_tool.

Import Text re.

(** The pattern of [extract_salary]. *)
Definition salary_regex : pattern := {|
  source := "\$?\s?([0-9]{2,6}(?:[,\.][0-9]{3})?)(?:\s?(k|K))?";
  compiled :=
  seqs [opt (chr "$");
        opt space;
        Group 1 (seqs [rep_range 2 4 digit;
                       opt (Seq (alts [chr ","; chr "."]) (rep 3 digit))]);
        opt (Seq (opt space) (Group 2 (alts [chr "k"; chr "K"])))]
|}.

Definition extract_salary (text : string) : res value :=
  let m := finditer (compiled salary_regex) text in
  match m with
  | [] => Ok (VDict [("found", VBool false)])
  | m0 :: _ =>
      (* take first match *)
      let value_str := group text m0 1 in
      let suffix := group text m0 2 in
      value <- int_of_str (before "." (remove "," value_str)) ;;
      let value :=
        if negb (String.eqb suffix "") && String.eqb (lower suffix) "k"
        then value * 1000 else value in
      Ok (VDict [("found", VBool true); ("value", VInt value)])
  end.

Definition assess_salary (value : Z) : Py.value :=
  let risk := "SAFE" in
  let reasons := [] in
  let '(risk, reasons) :=
    if value <? 300 then
      ("HIGH",
       reasons ++ ["Very low salary value (possible bait or per-day/per-hour confusion)"])
    else if value <? 1000 then
      ("MEDIUM", reasons ++ ["Low salary compared to typical living wages"])
    else if 200000 <? value then
      ("HIGH", reasons ++ ["Unrealistically high salary claim"])
    else (risk, reasons) in
  VDict [("risk", VStr risk); ("reasons", strlist reasons)].

End salary_tool.

(** ** s_safe/tools/interview_tool.py *)

Module interview_tool.

Import Text re.

(** [SUSPICIOUS_PHRASES]: each pattern as written, and as [re.search] with
    [re.I] reads it. *)
Definition phrase (source : string) (compiled : regex) : pattern :=
  {| source := source; compiled := compiled |}.

Definition SUSPICIOUS_PHRASES : list pattern :=
  [phrase "pay.*interview" (seqs [lit_i "pay"; Star any; lit_i "interview"]);
   phrase "registration fee" (lit_i "registration fee");
   phrase "certificate.*payment"
     (seqs [lit_i "certificate"; Star any; lit_i "payment"]);
   phrase "no formal interview" (lit_i "no formal interview");
   phrase "quick interview" (lit_i "quick interview");
   phrase "send.*money" (seqs [lit_i "send"; Star any; lit_i "money"]);
   phrase "whatsapp" (lit_i "whatsapp");
   phrase "personal bank" (lit_i "personal bank")].

Definition analyze_interview (text : string) : value :=
  let matches :=
    map source
      (filter (fun patt => search (compiled patt) text) SUSPICIOUS_PHRASES) in
  let risk := "SAFE" in
  let risk :=
    match matches with
    | [] => risk
    | _ =>
        (* if there are payment asks or instant hires, escalate *)
        if existsb (fun m => contains "pay" m || contains "registration" m) matches
        then "HIGH" else "MEDIUM"
    end in
  VDict [("matches", strlist matches); ("risk", VStr risk)].

End interview_tool.

(** ** s_safe/agents/salary_agent.py *)

Module salary_agent.

Import salary_tool interview_tool.

(** [int(x)] for the value [extract_salary] stored. *)
Definition int (x : value) : res Z :=
  match x with
  | VInt z => Ok z
  | VBool b => Ok (if b then 1 else 0)
  | VFloat _ | VStr _ => Raise Unmodelled
  | _ => Raise TypeError
  end.

Definition handle (payload : value) : res value :=
  text <- get payload "clean_text" (VStr "") ;;
  match text with
  | VStr text =>
      salary_info <- extract_salary text ;;
      let assessment := [("salary", salary_info)] in
      found <- get salary_info "found" VNone ;;
      assessment <-
        (if truthy found then
           value <- get salary_info "value" VNone ;;
           value <- int value ;;
           match assess_salary value with
           | VDict other => Ok (update assessment other)
           | _ => Raise TypeError
           end
         else Ok assessment) ;;
      let interview := analyze_interview text in
      (* Determine combined risk *)
      let combined := "SAFE" in
      interview_risk <- item interview "risk" ;;
      assessment_risk <- get (VDict assessment) "risk" VNone ;;
      let combined :=
        if eq_str interview_risk "HIGH" || eq_str assessment_risk "HIGH"
        then "HIGH"
        else if eq_str interview_risk "MEDIUM" || eq_str assessment_risk "MEDIUM"
        then "MEDIUM"
        else combined in
      Ok (VDict [("status", VStr "ok");
                 ("data",
                  VDict [("salary_assessment", VDict assessment);
                         ("interview_analysis", interview);
                         ("combined_risk", VStr combined)])])
  | _ => Raise TypeError
  end.

End salary_agent.

(** ** The TOON files

    [backend/toon/scam_patterns.toon] and [positive_patterns.toon], which
    both the TOON manager and the TOON learning agent read and write.  A file
    that holds JSON is kept as the document [json.load] returns for it;
    [json.dump] followed by [json.load] gives the document back.  A path
    that can be examined can be written; a path in a directory the process
    may not search can be neither examined, nor read, nor written. *)

Module toon_files.

Inductive file : Type :=
| Missing                (* no file at the path *)
| Unreadable             (* a file whose content [json.load] rejects *)
| Json (doc : value)     (* a file holding the JSON document [doc] *)
| Denied.                (* a path [stat] and [open] refuse to look at *)

Record files : Type := {
  scam_patterns_file : file;
  positive_patterns_file : file
}.

(** [path.exists()]: [False] when [stat] finds no file; the refusal of
    [stat] is no such error, and [exists] lets it through. *)
Definition exists_ (f : file) : res bool :=
  match f with
  | Missing => Ok false
  | Denied => Raise PermissionError
  | _ => Ok true
  end.

(** [with open(path, 'r') as f: json.load(f)] *)
Definition load (f : file) : res value :=
  match f with
  | Missing => Raise OSError
  | Unreadable => Raise JSONDecodeError
  | Json doc => Ok doc
  | Denied => Raise PermissionError
  end.

(** [with open(path, 'w') as f: json.dump(doc, f, indent=2)]: the file
    after it. *)
Definition dump (doc : value) (f : file) : res file :=
  match f with
  | Denied => Raise PermissionError
  | _ => Ok (Json doc)
  end.

(** [str(e)], kept as the class of the exception. *)
Definition message (e : exc) : string :=
  match e with
  | AttributeError => "AttributeError"
  | TypeError => "TypeError"
  | KeyError => "KeyError"
  | ValueError => "ValueError"
  | OverflowError => "OverflowError"
  | ZeroDivisionError => "ZeroDivisionError"
  | OSError => "OSError"
  | PermissionError => "PermissionError"
  | JSONDecodeError => "JSONDecodeError"
  | Unmodelled => "Unmodelled"
  end.

End toon_files.

(** ** backend/toon/toon_manager.py *)

Module toon_manager.

Import toon_files.

(** The keys of [SCHEMA], in order. *)
Definition SCHEMA_keys : list string :=
  ["legitimate_keywords"; "suspicious_keywords"; "verified_domains";
   "fake_domains"; "behaviors"].

(** [SCHEMA] maps each key to a list object, created empty when the module
    is loaded.  [SCHEMA.copy()] is a shallow copy: the copy holds the same
    five list objects, so what is appended to one of them through a copy is
    appended to the list of [SCHEMA].  The state of the module is therefore
    the content of these five lists, next to the two files. *)
Record state : Type := {
  SCHEMA : list (string * list value);
  toon : files
}.

Definition SCHEMA_initial : list (string * list value) :=
  map (fun key => (key, [])) SCHEMA_keys.

(** What a dict returned by [_load_toon] holds under a key: the list object
    of [SCHEMA] itself, or a list of the loaded document. *)
Inductive slot : Type :=
| Default (key : string)
| Loaded (l : list value).

Definition data : Type := list (string * slot).

(** [SCHEMA.copy()] *)
Definition SCHEMA_copy : data := map (fun key => (key, Default key)) SCHEMA_keys.

Fixpoint set_slot (key : string) (s : slot) (d : data) : data :=
  match d with
  | [] => [(key, s)]
  | (k, s') :: d' =>
      if String.eqb key k then (k, s) :: d' else (k, s') :: set_slot key s d'
  end.

Fixpoint get_slot (key : string) (d : data) : option slot :=
  match d with
  | [] => None
  | (k, s) :: d' => if String.eqb key k then Some s else get_slot key d'
  end.

(** The content of the list a slot stands for. *)
Definition content (schema : list (string * list value)) (s : slot) : list value :=
  match s with
  | Default key =>
      match find (fun kv => String.eqb key (fst kv)) schema with
      | Some kv => snd kv
      | None => []
      end
  | Loaded l => l
  end.

(** The document a [data] stands for, as its reader sees it now. *)
Definition view (schema : list (string * list value)) (d : data)
  : list (string * list value) :=
  map (fun ks => (fst ks, content schema (snd ks))) d.

(** The loop of [_load_toon]: [for key in SCHEMA: if key in loaded and
    isinstance(loaded[key], list): data[key] = loaded[key]]. *)
Definition merge_loaded (loaded : dict) (d : data) : data :=
  fold_left
    (fun d key =>
       match lookup key loaded with
       | Some (VList l) => set_slot key (Loaded l) d
       | _ => d
       end)
    SCHEMA_keys d.

Definition _load_toon (path : file) : res data :=
  let data := SCHEMA_copy in
  found <- exists_ path ;;
  if found then
    (* try: *)
    match load path with
    | Ok loaded =>
        match loaded with
        | VDict loaded => Ok (merge_loaded loaded data)
        | _ => Ok data
        end
    (* except Exception: the error is logged *)
    | Raise _ => Ok data
    end
  else Ok data.

(** [json.dump(data, f)] writes each list as it is at that moment. *)
Definition to_json (schema : list (string * list value)) (d : data) : value :=
  VDict (map (fun kv => (fst kv, VList (snd kv))) (view schema d)).

Definition _save_toon (schema : list (string * list value)) (d : data)
    (path : file) : file :=
  (* try: *)
  match dump (to_json schema d) path with
  | Ok written => written
  (* except Exception: the error is logged *)
  | Raise _ => path
  end.

Definition get_scam_patterns (st : state) : res data :=
  _load_toon (scam_patterns_file (toon st)).

Definition get_positive_patterns (st : state) : res data :=
  _load_toon (positive_patterns_file (toon st)).

(** [l.append(value)] on the list object a slot stands for: on a default
    slot it is the list of [SCHEMA] that grows. *)
Definition append_schema (key : string) (v : value)
    (schema : list (string * list value)) : list (string * list value) :=
  map (fun kv => if String.eqb key (fst kv) then (fst kv, snd kv ++ [v]) else kv)
      schema.

Definition update_pattern (file_type key value : string) (st : state)
  : res state :=
  if negb (existsb (String.eqb key) SCHEMA_keys) then Ok st
  else
    let is_scam := String.eqb file_type "scam" in
    let path :=
      if is_scam then scam_patterns_file (toon st)
      else positive_patterns_file (toon st) in
    data <- _load_toon path ;;
    match get_slot key data with
    | None => Raise KeyError
    | Some s =>
        if negb (existsb (fun x => eq_str x value) (content (SCHEMA st) s))
        then
          (* data[key].append(value) *)
          let '(schema, data) :=
            match s with
            | Default k => (append_schema k (VStr value) (SCHEMA st), data)
            | Loaded l => (SCHEMA st, set_slot key (Loaded (l ++ [VStr value])) data)
            end in
          (* _save_toon(path, data) *)
          let saved := _save_toon schema data path in
          Ok {| SCHEMA := schema;
                toon :=
                  if is_scam
                  then {| scam_patterns_file := saved;
                          positive_patterns_file := positive_patterns_file (toon st) |}
                  else {| scam_patterns_file := scam_patterns_file (toon st);
                          positive_patterns_file := saved |} |}
        else Ok st
    end.

(** [init_defaults()], which runs when the module is loaded: each file that
    can be written is written, whatever it held, with a copy of [SCHEMA] in
    which three lists are replaced. *)
Definition updated (other : list (string * list string)) (d : data) : data :=
  fold_left (fun d kv => set_slot (fst kv) (Loaded (map VStr (snd kv))) d)
            other d.

Definition init_defaults (st : state) : state :=
  (* Rich Scam Patterns *)
  let scam_defaults := SCHEMA_copy in
  let scam_defaults :=
    updated
      [("suspicious_keywords",
        ["registration fee"; "quick earnings"; "Whatsapp job"; "pay to start";
         "wire transfer"; "western union"; "cash app"; "crypto payment";
         "immediate hiring"; "no interview"; "kindly"; "dear candidate";
         "refundable deposit"; "security fee"; "training fee"; "laptop fee"]);
       ("fake_domains",
        ["@gmail.com jobs"; "@workfromhome.cash"; "@yahoo.com careers";
         "@hotmail.com hr"; "@outlook.com hiring"]);
       ("behaviors",
        ["no interview"; "salary unrealistic"; "crypto payout";
         "pressure to act fast"; "poor grammar"; "unprofessional email"])]
      scam_defaults in
  let scam_file :=
    _save_toon (SCHEMA st) scam_defaults (scam_patterns_file (toon st)) in
  (* Rich Positive Patterns *)
  let positive_defaults := SCHEMA_copy in
  let positive_defaults :=
    updated
      [("verified_domains",
        ["@google.com"; "@microsoft.com"; "@amazon.com"; "@apple.com";
         "@netflix.com"; "@meta.com"; "@linkedin.com"; "@zoho.com";
         "@tcs.com"; "@infosys.com"; "@wipro.com"; "@university.edu"]);
       ("legitimate_keywords",
        ["interview scheduled"; "offer letter"; "HR department";
         "official contract"; "background check"; "tax forms";
         "direct deposit"; "company portal"; "video call";
         "on-site interview"; "technical round"]);
       ("behaviors",
        ["no upfront pay"; "clear salary"; "proper company address";
         "professional communication"; "structured interview process"])]
      positive_defaults in
  let positive_file :=
    _save_toon (SCHEMA st) positive_defaults (positive_patterns_file (toon st)) in
  {| SCHEMA := SCHEMA st;
     toon := {| scam_patterns_file := scam_file;
                positive_patterns_file := positive_file |} |}.

(** The module once it is loaded, over the files found. *)
Definition loaded (fs : files) : state :=
  init_defaults {| SCHEMA := SCHEMA_initial; toon := fs |}.

End toon_manager.

(** ** backend/agents/toon_learning_agent.py *)

Module toon_learning_agent.

Import Text toon_files.

Set Warnings "-inexact-float".

(** Learning thresholds *)
Definition CONFIDENCE_THRESHOLD : float := 0.7%float.

Definition _load_toon (fs : files) : value :=
  (* try: *)
  match
    scam_patterns <- load (scam_patterns_file fs) ;;
    positive_patterns <- load (positive_patterns_file fs) ;;
    Ok (VDict [("status", VStr "success");
               ("data", VDict [("scam_patterns", scam_patterns);
                               ("positive_patterns", positive_patterns)])])
  with
  | Ok response => response
  (* except Exception as e: *)
  | Raise e =>
      VDict [("status", VStr "error");
             ("message", VStr (message e));
             ("data", VDict [("scam_patterns", VDict []);
                             ("positive_patterns", VDict [])])]
  end.

Definition _is_likely_scam (extraction research : value) : res bool :=
  (* Check for strong scam indicators *)
  fees <- get extraction "fees" (VList []) ;;
  n_fees <- len fees ;;
  let has_fees := 0 <? n_fees in
  red_flags <- get extraction "red_flags" (VList []) ;;
  n_red_flags <- len red_flags ;;
  let has_red_flags := 2 <? n_red_flags in
  scam_reports <- get research "scam_reports" (VDict []) ;;
  scam_reports_found <- get scam_reports "found" (VBool false) ;;
  trust_level <- get research "trust_assessment" (VStr "unknown") ;;
  Ok ((has_fees && has_red_flags) || truthy scam_reports_found
      || eq_str trust_level "high_risk").

Definition _is_likely_safe (research : value) : res bool :=
  trust_level <- get research "trust_assessment" (VStr "unknown") ;;
  company_verification <- get research "company_verification" (VDict []) ;;
  company_presence <- get company_verification "online_presence" (VStr "none") ;;
  Ok (in_strs trust_level ["high_trust"; "moderate_trust"]
      && eq_str company_presence "strong").

(** The strings of a list of strings; the learning agent is modelled on
    lists of strings only. *)
Definition str_items (x : value) : res (list string) :=
  match x with
  | VList l =>
      mapM (fun v => match v with VStr s => Ok s | _ => Raise Unmodelled end) l
  | _ => Raise Unmodelled
  end.

(** [set(x)] for a list: its elements must be hashable. *)
Definition set_of (x : value) : res (list value) :=
  match x with
  | VList l =>
      mapM (fun v => match v with
                     | VList _ | VDict _ => Raise TypeError
                     | _ => Ok v
                     end) l
  | _ => Raise Unmodelled
  end.

(** [s in xs] for a string [s] and the elements [xs] of a list or a set. *)
Definition str_in (s : string) (xs : list value) : bool :=
  existsb (fun x => eq_str x s) xs.

Definition _extract_scam_patterns (fs : files) (extraction research : value)
  : res dict :=
  (* Extract unique red flags not in current TOON *)
  let current_toon := _load_toon fs in
  current_data <- item current_toon "data" ;;
  scam_patterns <- item current_data "scam_patterns" ;;
  suspicious_keywords <- get scam_patterns "suspicious_keywords" (VList []) ;;
  current_keywords <- set_of suspicious_keywords ;;
  red_flags <- get extraction "red_flags" (VList []) ;;
  red_flags <- str_items red_flags ;;
  let new_scam_keywords :=
    filter (fun flag => negb (str_in flag current_keywords)) red_flags in
  (* Extract suspicious domains *)
  email_ver <- get research "email_verification" (VDict []) ;;
  suspicious_domains <- get email_ver "suspicious_domains" (VList []) ;;
  new_scam_domains <- str_items suspicious_domains ;;
  (* Extract behaviors *)
  behaviors <- get extraction "behaviors" (VList []) ;;
  new_scam_behaviors <- str_items behaviors ;;
  Ok [("new_scam_keywords", strlist new_scam_keywords);
      ("new_scam_domains", strlist new_scam_domains);
      ("new_scam_behaviors", strlist new_scam_behaviors)].

(** [s.split(c)[1]] for a string that contains [c]: what stands between the
    first [c] and the next one. *)
Fixpoint after (c : ascii) (s : string) : string :=
  match s with
  | EmptyString => EmptyString
  | String c' s' => if Ascii.eqb c c' then before c s' else after c s'
  end.

Definition _extract_safe_patterns (extraction research : value) : res dict :=
  (* Extract professional emails *)
  email_ver <- get research "email_verification" (VDict []) ;;
  professional_emails <- get email_ver "professional_emails" (VList []) ;;
  professional_emails <- str_items professional_emails ;;
  let new_safe_domains :=
    map (after "@") (filter (contains "@") professional_emails) in
  (* Extract trusted domains *)
  domain_analysis <- get research "domain_analysis" (VDict []) ;;
  trusted <- get domain_analysis "trusted" (VList []) ;;
  trusted <- str_items trusted ;;
  let new_safe_domains := new_safe_domains ++ trusted in
  Ok [("new_safe_keywords", strlist []);
      ("new_safe_domains", strlist new_safe_domains)].

(** [float(n)] for the length of a list: below 2^63, rounded to nearest
    even as Python does. *)
Definition float_of_len (n : Z) : float := PrimFloat.of_uint63 (Uint63.of_Z n).

(** [min(a, b)] on floats: [b] when [b < a], else [a]. *)
Definition min (a b : float) : float := if PrimFloat.ltb b a then b else a.

Definition _calculate_confidence (proposals : dict) (research : value) : res float :=
  let score := 0%float in
  (* Research quality *)
  company_verification <- get research "company_verification" (VDict []) ;;
  company_presence <- get company_verification "online_presence" (VStr "none") ;;
  let score :=
    if eq_str company_presence "strong" then (score + 0.3)%float
    else if eq_str company_presence "moderate" then (score + 0.15)%float
    else score in
  (* Scam reports *)
  scam_reports <- get research "scam_reports" (VDict []) ;;
  found <- get scam_reports "found" VNone ;;
  let score := if truthy found then (score + 0.4)%float else score in
  (* Number of sources *)
  sources <- get company_verification "sources" (VList []) ;;
  sources_count <- len sources ;;
  let score := (score + min (float_of_len sources_count * 0.05) 0.2)%float in
  (* Trust assessment *)
  trust <- get research "trust_assessment" (VStr "unknown") ;;
  let score :=
    if eq_str trust "high_trust" then (score + 0.2)%float
    else if eq_str trust "high_risk" then (score + 0.3)%float
    else score in
  Ok (min score 1.0%float).

Definition _has_sufficient_evidence (proposals : dict) : res bool :=
  (* Must have at least one new pattern *)
  new_scam_keywords <- get (VDict proposals) "new_scam_keywords" (VList []) ;;
  n_scam_keywords <- len new_scam_keywords ;;
  new_scam_domains <- get (VDict proposals) "new_scam_domains" (VList []) ;;
  n_scam_domains <- len new_scam_domains ;;
  new_safe_keywords <- get (VDict proposals) "new_safe_keywords" (VList []) ;;
  n_safe_keywords <- len new_safe_keywords ;;
  new_safe_domains <- get (VDict proposals) "new_safe_domains" (VList []) ;;
  n_safe_domains <- len new_safe_domains ;;
  let has_patterns :=
    (0 <? n_scam_keywords) || (0 <? n_scam_domains)
    || (0 <? n_safe_keywords) || (0 <? n_safe_domains) in
  Ok has_patterns.

Definition _propose_update (fs : files) (payload : value) : res value :=
  extraction <- get payload "extraction" (VDict []) ;;
  research <- get payload "research" (VDict []) ;;
  let proposals :=
    [("new_scam_keywords", VList []);
     ("new_scam_domains", VList []);
     ("new_scam_behaviors", VList []);
     ("new_safe_keywords", VList []);
     ("new_safe_domains", VList []);
     ("confidence", VFloat 0%float);
     ("should_apply", VBool false)] in
  (* Analyze for scam patterns *)
  likely_scam <- _is_likely_scam extraction research ;;
  proposals <-
    (if likely_scam then
       patterns <- _extract_scam_patterns fs extraction research ;;
       Ok (update proposals patterns)
     else
       (* Analyze for safe patterns *)
       likely_safe <- _is_likely_safe research ;;
       if likely_safe then
         patterns <- _extract_safe_patterns extraction research ;;
         Ok (update proposals patterns)
       else Ok proposals) ;;
  (* Calculate confidence *)
  confidence <- _calculate_confidence proposals research ;;
  let proposals := store "confidence" (VFloat confidence) proposals in
  (* Determine if should apply *)
  should_apply <-
    (if PrimFloat.leb CONFIDENCE_THRESHOLD confidence
     then _has_sufficient_evidence proposals
     else Ok false) ;;
  let proposals := store "should_apply" (VBool should_apply) proposals in
  Ok (VDict [("status", VStr "success"); ("data", VDict proposals)]).

(** [doc.setdefault(key, [])], then for every candidate
    [if candidate not in doc[key]: doc[key].append(candidate)]. *)
Definition merge_into (key : string) (candidates : list string) (doc : value)
  : res value :=
  match doc with
  | VDict d =>
      let d := match lookup key d with
               | Some _ => d
               | None => store key (VList []) d
               end in
      match lookup key d with
      | Some (VList l) =>
          Ok (VDict (store key
                       (VList (fold_left
                                 (fun l c => if str_in c l then l
                                             else l ++ [VStr c])
                                 candidates l))
                       d))
      | Some (VStr s) =>
          (* [in] is the substring test; a string has no [append] *)
          if forallb (fun c => contains c s) candidates then Ok (VDict d)
          else Raise AttributeError
      | Some (VDict entries) =>
          (* [in] is the key test; a dict has no [append] *)
          if forallb (fun c => match lookup c entries with
                               | Some _ => true
                               | None => false
                               end) candidates
          then Ok (VDict d)
          else Raise AttributeError
      | _ => Raise TypeError
      end
  | _ => Raise AttributeError
  end.

(** One [if proposals.get(name): ...] block of [_apply_update]. *)
Definition apply_candidates (proposals : value) (name key : string) (doc : value)
  : res value :=
  candidates <- get proposals name VNone ;;
  if truthy candidates then
    candidates <- str_items candidates ;;
    merge_into key candidates doc
  else Ok doc.

Definition _apply_update (payload : value) (fs : files) : res (value * files) :=
  proposals <- get payload "proposals" (VDict []) ;;
  should_apply <- get proposals "should_apply" (VBool false) ;;
  if negb (truthy should_apply) then
    Ok (VDict [("status", VStr "skipped");
               ("message", VStr "Update does not meet confidence threshold")],
        fs)
  else
    (* try: *)
    let updated :=
      (* Load current TOON *)
      let current := _load_toon fs in
      current_data <- item current "data" ;;
      scam_patterns <- item current_data "scam_patterns" ;;
      positive_patterns <- item current_data "positive_patterns" ;;
      (* Apply scam pattern updates *)
      scam_patterns <-
        apply_candidates proposals "new_scam_keywords" "suspicious_keywords"
          scam_patterns ;;
      scam_patterns <-
        apply_candidates proposals "new_scam_domains" "fake_domains"
          scam_patterns ;;
      scam_patterns <-
        apply_candidates proposals "new_scam_behaviors" "behaviors"
          scam_patterns ;;
      (* Apply safe pattern updates *)
      positive_patterns <-
        apply_candidates proposals "new_safe_domains" "verified_domains"
          positive_patterns ;;
      Ok (scam_patterns, positive_patterns) in
    let failed (e : exc) : value :=
      VDict [("status", VStr "error"); ("message", VStr (message e))] in
    match updated with
    | Ok (scam_patterns, positive_patterns) =>
        (* Save updated TOON files *)
        match dump scam_patterns (scam_patterns_file fs) with
        | Ok scam_file =>
            let fs := {| scam_patterns_file := scam_file;
                         positive_patterns_file := positive_patterns_file fs |} in
            match dump positive_patterns (positive_patterns_file fs) with
            | Ok positive_file =>
                let fs := {| scam_patterns_file := scam_file;
                             positive_patterns_file := positive_file |} in
                let counts :=
                  new_scam_keywords <-
                    get proposals "new_scam_keywords" (VList []) ;;
                  scam_keywords <- len new_scam_keywords ;;
                  new_scam_domains <-
                    get proposals "new_scam_domains" (VList []) ;;
                  scam_domains <- len new_scam_domains ;;
                  new_safe_domains <-
                    get proposals "new_safe_domains" (VList []) ;;
                  safe_domains <- len new_safe_domains ;;
                  Ok (VDict [("scam_keywords", VInt scam_keywords);
                             ("scam_domains", VInt scam_domains);
                             ("safe_domains", VInt safe_domains)]) in
                match counts with
                | Ok updates_applied =>
                    Ok (VDict [("status", VStr "success");
                               ("message", VStr "TOON knowledge base updated");
                               ("updates_applied", updates_applied)],
                        fs)
                | Raise e => Ok (failed e, fs)
                end
            | Raise e => Ok (failed e, fs)
            end
        | Raise e => Ok (failed e, fs)
        end
    (* except Exception as e: *)
    | Raise e => Ok (failed e, fs)
    end.

End toon_learning_agent.

(** ** backend/agents/pattern_agent.py *)

Module pattern_agent.

Import Text toon_files toon_manager.

(** [keyword.lower()]: only a string has the method. *)
Definition lower_of (keyword : value) : res string :=
  match keyword with
  | VStr s => Ok (lower s)
  | _ => Raise AttributeError
  end.

(** The inner loop of [_check_matches]: the keywords whose lowered form the
    lowered text contains, in their order. *)
Fixpoint found_in (text_lower : string) (keywords : list value)
  : res (list value) :=
  match keywords with
  | [] => Ok []
  | keyword :: keywords' =>
      (* Simple substring match for now, could be regex *)
      keyword_lower <- lower_of keyword ;;
      found <- found_in text_lower keywords' ;;
      Ok (if contains keyword_lower text_lower then keyword :: found else found)
  end.

(** [patterns] is a dict a load of the TOON manager returned, given here by
    its items as they are when the text is checked; a dict has each key
    once, so [matches[category] = found] adds an item. *)
Fixpoint _check_matches (text : string) (patterns : list (string * list value))
  : res dict :=
  let text_lower := lower text in
  match patterns with
  | [] => Ok []
  | (category, keywords) :: patterns' =>
      found <- found_in text_lower keywords ;;
      matches <- _check_matches text patterns' ;;
      Ok (match found with
          | [] => matches
          | _ => (category, VList found) :: matches
          end)
  end.

(** [all_keywords = []; for k_list in matches.values():
    all_keywords.extend(k_list)] *)
Definition all_keywords (matches : dict) : res (list value) :=
  fold_left
    (fun acc kv => all <- acc ;; k_list <- iter (snd kv) ;; Ok (all ++ k_list))
    matches (Ok []).

(** ["', '".join(keywords[:3])] *)
Definition examples (keywords : list value) : res string :=
  ss <- strs (firstn 3 keywords) ;;
  Ok (join "', '" ss).

Definition handle (st : state) (payload : value) : res value :=
  clean_text <- get payload "clean_text" (VStr "") ;;
  match clean_text with
  | VStr clean_text =>
      (* Load fresh patterns *)
      scam_patterns <- get_scam_patterns st ;;
      positive_patterns <- get_positive_patterns st ;;
      scam_matches <-
        _check_matches clean_text (view (SCHEMA st) scam_patterns) ;;
      positive_matches <-
        _check_matches clean_text (view (SCHEMA st) positive_patterns) ;;
      (* Generate natural language reasoning *)
      let reasoning_parts := [] in
      reasoning_parts <-
        (if truthy (VDict scam_matches) then
           (* Flatten list of found keywords *)
           all_scam_keywords <- all_keywords scam_matches ;;
           (* Take top 3 for brevity *)
           examples <- examples all_scam_keywords ;;
           Ok (reasoning_parts
               ++ [("I found phrases that are commonly used in suspicious messages such as '"
                    ++ examples ++ "'.")%string])
         else Ok reasoning_parts) ;;
      reasoning_parts <-
        (if truthy (VDict positive_matches) then
           all_pos_keywords <- all_keywords positive_matches ;;
           examples <- examples all_pos_keywords ;;
           Ok (reasoning_parts
               ++ [("This message contains verified indicators from our trusted list, such as '"
                    ++ examples ++ "'.")%string])
         else Ok reasoning_parts) ;;
      let reasoning_parts :=
        if negb (truthy (VDict scam_matches))
           && negb (truthy (VDict positive_matches))
        then reasoning_parts
             ++ ["I did not find any specific known patterns in this text."]
        else reasoning_parts in
      let reasoning := join " " reasoning_parts in
      let response :=
        [("scam_matches", VDict scam_matches);
         ("positive_matches", VDict positive_matches);
         ("pattern_matches", VDict scam_matches); (* Backwards compatibility *)
         ("reasoning", VStr reasoning)] in
      Ok (VDict [("status", VStr "ok"); ("data", VDict response)])
  | _ => Raise AttributeError
  end.

End pattern_agent.

(** ** backend/core.py *)

Module core.

Import Text toon_files toon_manager.

(** The end of [run_full_analysis], once the decision agent has answered:
    the risk score stored with the analysis, and the simple auto-update of
    the knowledge base. *)
Definition stored_risk_score (verdict : string) : Z :=
  let risk_score := 0 in (* Placeholder, decision agent should ideally return this *)
  (* Simple mapping for risk score based on verdict *)
  let risk_score :=
    if contains "FAKE" verdict then 90
    else if contains "SUSPICIOUS" verdict then 60
    else 10 in
  risk_score.

Definition auto_learning (text : string) (risk_score : Z) (st : state)
  : res state :=
  (* Optional: Pattern Learning (Simple Auto-Update) *)
  if 90 <? risk_score then
    (* Simple heuristic: if input is short and looks like a domain or email,
       add to fake_domains *)
    let clean_input := lower (strip text) in
    if (String.length clean_input <? 50)%nat
       && (contains "@" clean_input || contains "." clean_input)
    then update_pattern "scam" "fake_domains" clean_input st
    else Ok st
  else if risk_score <? 10 then
    (* Heuristic for verified domains *)
    let clean_input := lower (strip text) in
    if (String.length clean_input <? 50)%nat
       && (contains "@" clean_input || contains "." clean_input)
    then update_pattern "positive" "verified_domains" clean_input st
    else Ok st
  else Ok st.

End core.

(** ** backend/agents/research_agent.py: emails, domains and the mock data *)

Module OnlineResearchAgent.

Import Text.

(** Trusted company domains *)
Definition trusted_domains : list string :=
  ["google.com"; "microsoft.com"; "amazon.com"; "apple.com";
   "meta.com"; "netflix.com"; "linkedin.com"; "tcs.com";
   "infosys.com"; "wipro.com"; "accenture.com"; "deloitte.com"].

(** [s in x]: a substring of a string, an element of a list, a key of a
    dict; nothing else can be searched. *)
Definition in_ (s : string) (x : value) : res bool :=
  match x with
  | VStr t => Ok (contains s t)
  | VList l => Ok (existsb (fun v => eq_str v s) l)
  | VDict d => Ok (match lookup s d with Some _ => true | None => false end)
  | _ => Raise TypeError
  end.

(** [email.split('@')[1]], where ['@' in email] holds: only a string has the
    method. *)
Definition domain_of (email : value) : res string :=
  match email with
  | VStr e => Ok (toon_learning_agent.after "@" e)
  | _ => Raise AttributeError
  end.

(** The dict [_verify_emails] fills. *)
Record email_verification : Type := {
  emails_found : Z;
  domain_matches : list value;
  suspicious_domains : list value;
  personal_emails : list value;
  professional_emails : list value
}.

Definition append_domain_match (email : value) (v : email_verification)
  : email_verification :=
  {| emails_found := emails_found v;
     domain_matches := domain_matches v ++ [email];
     suspicious_domains := suspicious_domains v;
     personal_emails := personal_emails v;
     professional_emails := professional_emails v |}.

Definition append_suspicious_domain (domain : value) (v : email_verification)
  : email_verification :=
  {| emails_found := emails_found v;
     domain_matches := domain_matches v;
     suspicious_domains := suspicious_domains v ++ [domain];
     personal_emails := personal_emails v;
     professional_emails := professional_emails v |}.

Definition append_personal_email (email : value) (v : email_verification)
  : email_verification :=
  {| emails_found := emails_found v;
     domain_matches := domain_matches v;
     suspicious_domains := suspicious_domains v;
     personal_emails := personal_emails v ++ [email];
     professional_emails := professional_emails v |}.

Definition append_professional_email (email : value) (v : email_verification)
  : email_verification :=
  {| emails_found := emails_found v;
     domain_matches := domain_matches v;
     suspicious_domains := suspicious_domains v;
     personal_emails := personal_emails v;
     professional_emails := professional_emails v ++ [email] |}.

Definition personal_domains : list string :=
  ["gmail.com"; "yahoo.com"; "hotmail.com"; "outlook.com"; "protonmail.com"].

(** [for email in emails: ...] *)
Fixpoint check_emails (company : value) (emails : list value)
    (verification : email_verification) : res email_verification :=
  match emails with
  | [] => Ok verification
  | email :: emails' =>
      has_at <- in_ "@" email ;;
      verification <-
        (if has_at then
           domain <- domain_of email ;;
           (* Check if personal email *)
           let verification :=
             if existsb (String.eqb domain) personal_domains
             then append_personal_email email verification
             else append_professional_email email verification in
           (* Check if domain matches company name *)
           company_lower <- pattern_agent.lower_of company ;;
           let company_clean := remove " " company_lower in
           Ok (if contains company_clean (lower domain)
               then append_domain_match email verification
               else verification)
         else Ok verification) ;;
      check_emails company emails' verification
  end.

(** [for domain in domains: ...]: check for suspicious patterns. *)
Fixpoint check_domains (domains : list value)
    (verification : email_verification) : res email_verification :=
  match domains with
  | [] => Ok verification
  | domain :: domains' =>
      domain_lower <- pattern_agent.lower_of domain ;;
      let verification :=
        if extraction_agent.any_in ["job"; "hire"; "work"; "earn"; "cash"]
             domain_lower
        then append_suspicious_domain domain verification
        else verification in
      check_domains domains' verification
  end.

Definition _verify_emails (emails domains company : value)
  : res email_verification :=
  emails_found <- len emails ;;
  let verification :=
    {| emails_found := emails_found;
       domain_matches := [];
       suspicious_domains := [];
       personal_emails := [];
       professional_emails := [] |} in
  emails <- iter emails ;;
  verification <- check_emails company emails verification ;;
  domains <- iter domains ;;
  check_domains domains verification.

(** The dict [_analyze_domains] fills. *)
Record domain_analysis : Type := {
  total_domains : Z;
  trusted : list value;
  suspicious : list value;
  unknown : list value
}.

Fixpoint sort_domains (domains : list value) (analysis : domain_analysis)
  : res domain_analysis :=
  match domains with
  | [] => Ok analysis
  | domain :: domains' =>
      domain_lower <- pattern_agent.lower_of domain ;;
      let analysis :=
        (* Check if trusted *)
        if extraction_agent.any_in trusted_domains domain_lower then
          {| total_domains := total_domains analysis;
             trusted := trusted analysis ++ [domain];
             suspicious := suspicious analysis;
             unknown := unknown analysis |}
        (* Check for suspicious patterns *)
        else if extraction_agent.any_in
                  ["job"; "hire"; "work"; "earn"; "cash"; "money"] domain_lower
        then
          {| total_domains := total_domains analysis;
             trusted := trusted analysis;
             suspicious := suspicious analysis ++ [domain];
             unknown := unknown analysis |}
        else
          {| total_domains := total_domains analysis;
             trusted := trusted analysis;
             suspicious := suspicious analysis;
             unknown := unknown analysis ++ [domain] |} in
      sort_domains domains' analysis
  end.

Definition _analyze_domains (domains : value) : res domain_analysis :=
  total_domains <- len domains ;;
  let analysis :=
    {| total_domains := total_domains;
       trusted := [];
       suspicious := [];
       unknown := [] |} in
  domains <- iter domains ;;
  sort_domains domains analysis.

(** The dict [_verify_company] returns. *)
Record company_verification : Type := {
  found : bool;
  online_presence : string;
  sources : list value;
  description : value
}.

Definition set_found (b : bool) (r : company_verification)
  : company_verification :=
  {| found := b;
     online_presence := online_presence r;
     sources := sources r;
     description := description r |}.

Definition set_online_presence (presence : string) (r : company_verification)
  : company_verification :=
  {| found := found r;
     online_presence := presence;
     sources := sources r;
     description := description r |}.

Definition set_sources (links : list value) (r : company_verification)
  : company_verification :=
  {| found := found r;
     online_presence := online_presence r;
     sources := links;
     description := description r |}.

Definition set_description (body : value) (r : company_verification)
  : company_verification :=
  {| found := found r;
     online_presence := online_presence r;
     sources := sources r;
     description := body |}.

(** Mock data when search is not available *)
Definition _mock_company_verification (company : value)
  : res company_verification :=
  (* For known companies *)
  let known_companies := ["google"; "microsoft"; "amazon"; "tcs"; "infosys"] in
  company_lower <- pattern_agent.lower_of company ;;
  if extraction_agent.any_in known_companies company_lower then
    Ok {| found := true;
          online_presence := "strong";
          sources := [VStr ("https://www." ++ company_lower ++ ".com")];
          description :=
            VStr (match company with VStr c => c | _ => "" end
                  ++ " is a well-known technology company.") |}
  else
    Ok {| found := false;
          online_presence := "weak";
          sources := [];
          description :=
            VStr "Limited information available (search API not configured)" |}.

(** The search library, [duckduckgo_search], as far as the agent uses it:
    [session] is what entering and leaving [with DDGS() as ddgs:] does apart
    from its body, and [text query] what [list(ddgs.text(query,
    max_results=3))] returns or raises. *)
Record DDGS : Type := {
  session : res unit;
  text : string -> res (list value)
}.

(** [for query in queries: try: all_results.extend(list(ddgs.text(query,
    max_results=3))) except Exception: ...], the error is logged. *)
Fixpoint extend_results (ddgs : DDGS) (queries : list string)
    (all_results : list value) : list value :=
  match queries with
  | [] => all_results
  | query :: queries' =>
      let all_results :=
        match text ddgs query with
        | Ok results => all_results ++ results
        | Raise _ => all_results
        end in
      extend_results ddgs queries' all_results
  end.

(** [self.cache], a dict from cache keys to the dicts returned. *)
Definition cache : Type := list (string * company_verification).

Fixpoint cached (cache_key : string) (c : cache) : option company_verification :=
  match c with
  | [] => None
  | (k, r) :: c' => if String.eqb cache_key k then Some r else cached cache_key c'
  end.

(** [self.cache[cache_key] = result], for a key the cache does not have. *)
Definition remember (cache_key : string) (result : company_verification)
    (c : cache) : cache := c ++ [(cache_key, result)].

(** [search] is the library when it could be imported
    ([self.search_available]).  The company name is taken to be a string, as
    [f"company_{company}"] is modelled on strings only. *)
Definition _verify_company (search : option DDGS) (c : cache) (company : value)
  : res (company_verification * cache) :=
  if eq_str company "Unknown" then
    Ok ({| found := false;
           online_presence := "none";
           sources := [];
           description := VStr "Company name could not be identified" |}, c)
  else
    match company with
    | VStr name =>
        (* Check cache *)
        let cache_key := ("company_" ++ name)%string in
        match cached cache_key c with
        | Some result => Ok (result, c)
        | None =>
            let result :=
              {| found := false;
                 online_presence := "weak";
                 sources := [];
                 description := VStr "" |} in
            result <-
              match search with
              | Some ddgs =>
                  (* try: *)
                  (* Search for company *)
                  let queries :=
                    [(name ++ " official website")%string;
                     (name ++ " company reviews")%string;
                     (name ++ " careers")%string] in
                  match session ddgs with
                  | Ok _ =>
                      (* Limit to 2 queries *)
                      let all_results :=
                        extend_results ddgs (firstn 2 queries) [] in
                      if truthy (VList all_results) then
                        let result := set_found true result in
                        let result :=
                          set_online_presence
                            (if 5 <=? Z.of_nat (List.length all_results)
                             then "strong" else "moderate") result in
                        match
                          mapM (fun r => get r "link" (VStr ""))
                               (firstn 5 all_results)
                        with
                        | Ok links =>
                            let result := set_sources links result in
                            match
                              match all_results with
                              | r :: _ => get r "body" (VStr "")
                              | [] => Ok (VStr "")
                              end
                            with
                            | Ok body => Ok (set_description body result)
                            (* except Exception as e: *)
                            | Raise _ =>
                                Ok (set_online_presence "unknown" result)
                            end
                        | Raise _ => Ok (set_online_presence "unknown" result)
                        end
                      else Ok result
                  | Raise _ => Ok (set_online_presence "unknown" result)
                  end
              | None =>
                  (* Mock data when search not available *)
                  _mock_company_verification company
              end ;;
            (* Cache result *)
            Ok (result, remember cache_key result c)
        end
    | _ => Raise Unmodelled
    end.

(** The dict [_check_scam_reports] returns.  Of the summary, the fixed
    wording is left out and the number it interpolates is kept. *)
Inductive reports_summary : Type :=
| NoScamReportsFound
| FoundPotentialScamReports (n : Z).

Record scam_reports : Type := {
  reports_found : bool;
  reports_sources : list value;
  reports_summary_ : reports_summary
}.

(** [any(kw in r.get('body', '').lower() for kw in scam_keywords)] *)
Definition mentions_scam (r : value) : res bool :=
  let scam_keywords :=
    ["scam"; "fraud"; "fake"; "beware"; "warning"; "complaint"] in
  body <- get r "body" (VStr "") ;;
  body_lower <- pattern_agent.lower_of body ;;
  Ok (extraction_agent.any_in scam_keywords body_lower).

(** [[r for r in scam_results if any(...)]] *)
Fixpoint relevant (scam_results : list value) : res (list value) :=
  match scam_results with
  | [] => Ok []
  | r :: scam_results' =>
      keep <- mentions_scam r ;;
      relevant_results <- relevant scam_results' ;;
      Ok (if keep then r :: relevant_results else relevant_results)
  end.

(** Check for scam reports online.  [domains] is not used. *)
Definition _check_scam_reports (search : option DDGS) (company domains : value)
  : res scam_reports :=
  let reports :=
    {| reports_found := false;
       reports_sources := [];
       reports_summary_ := NoScamReportsFound |} in
  if eq_str company "Unknown" then Ok reports
  else
    match search with
    | Some ddgs =>
        match company with
        | VStr name =>
            (* try: *)
            (* Search for scam reports *)
            let queries :=
              [(name ++ " scam")%string;
               (name ++ " fraud")%string;
               (name ++ " fake job")%string] in
            match session ddgs with
            | Ok _ =>
                (* Limit queries *)
                let scam_results := extend_results ddgs (firstn 2 queries) [] in
                if truthy (VList scam_results) then
                  (* Filter for actual scam reports *)
                  match relevant scam_results with
                  | Ok relevant_results =>
                      if truthy (VList relevant_results) then
                        match
                          mapM (fun r => get r "link" (VStr ""))
                               (firstn 3 relevant_results)
                        with
                        | Ok links =>
                            Ok {| reports_found := true;
                                  reports_sources := links;
                                  reports_summary_ :=
                                    FoundPotentialScamReports
                                      (Z.of_nat (List.length relevant_results)) |}
                        (* except Exception as e: *)
                        | Raise _ =>
                            Ok {| reports_found := true;
                                  reports_sources := [];
                                  reports_summary_ := NoScamReportsFound |}
                        end
                      else Ok reports
                  | Raise _ => Ok reports
                  end
                else Ok reports
            | Raise _ => Ok reports
            end
        | _ => Raise Unmodelled
        end
    | None => Ok reports
    end.

End OnlineResearchAgent.

(* ===================================================================== *)
(** * Part II.  Properties                                                *)
(* ===================================================================== *)

(** ** Python values: basic facts *)

Definition nonempty {A : Type} (l : list A) : bool :=
  match l with [] => false | _ => true end.

Section PyFacts.

Lemma len_strlist (l : list string) :
  len (strlist l) = Ok (Z.of_nat (List.length l)).
Proof. unfold strlist. simpl. now rewrite length_map. Qed.

Lemma truthy_strlist (l : list string) : truthy (strlist l) = nonempty l.
Proof. now destruct l. Qed.

Lemma strs_map_VStr (l : list string) : strs (map VStr l) = Ok l.
Proof.
  induction l as [|s l IH]; simpl; [reflexivity|].
  now rewrite IH.
Qed.

Lemma firstn_map_VStr (n : nat) (l : list string) :
  firstn n (map VStr l) = map VStr (firstn n l).
Proof. apply firstn_map. Qed.

(** Stepping through a computation in [res]: one lemma per shape of the
    head of the program. *)

Lemma bind_ok {A B : Type} (c : res A) (k : A -> res B) (P : B -> Prop) (a : A) :
  c = Ok a ->
  (exists b, k a = Ok b /\ P b) ->
  exists b, Py.bind c k = Ok b /\ P b.
Proof. intros ->. exact (fun H => H). Qed.

Lemma let_ok {A B : Type} (e : A) (k : A -> res B) (P : B -> Prop) :
  (forall x, x = e -> exists b, k x = Ok b /\ P b) ->
  exists b, (let x := e in k x) = Ok b /\ P b.
Proof. intros H. exact (H e eq_refl). Qed.

Lemma if_Ok {A : Type} (b : bool) (x y : A) :
  (if b then Ok x else Ok y) = Ok (if b then x else y).
Proof. now destruct b. Qed.

Lemma ret_ok {B : Type} (b : B) (P : B -> Prop) :
  P b -> exists b', Ok b = Ok b' /\ P b'.
Proof. intros H. exists b. now split. Qed.

(** A conditional update of a running score adds a term. *)

Lemma add_if (b : bool) (x a : Z) :
  (if b then x + a else x) = x + (if b then a else 0).
Proof. destruct b; lia. Qed.

Lemma sub_if (b : bool) (x a : Z) :
  (if b then x - a else x) = x - (if b then a else 0).
Proof. destruct b; lia. Qed.

Lemma eqb_not_in (s k : string) (l : list string) :
  ~ In s l -> In k l -> String.eqb s k = false.
Proof.
  intros Hn Hk. apply String.eqb_neq. intros ->. now apply Hn.
Qed.

End PyFacts.

(** One step of a computation in [res]: a read that [read] shows to succeed,
    a local definition (kept as an equation under the name it has in the
    source), or the value returned. *)
Ltac py_step_with read :=
  lazymatch goal with
  | |- exists b, Py.bind _ _ = Ok b /\ _ =>
      eapply bind_ok; [read | cbv beta]
  | |- exists b, (let x := ?e in @?k x) = Ok b /\ @?P b =>
      lazymatch k with
      | (fun y => _) =>
          let v := fresh y in
          let Hv := fresh "H" y in
          apply (let_ok e k P); intros v Hv; cbv beta
      end
  | |- exists b, Ok _ = Ok b /\ _ =>
      apply ret_ok
  end.

(** ** Regular expressions: what a match says about the text *)

Module RegexFacts.

Import Text re.

(** The words a pattern matches. *)
Inductive lang : regex -> list ascii -> Prop :=
| lang_eps : lang Eps []
| lang_class (p : ascii -> bool) (a : ascii) :
    p a = true -> lang (Class p) [a]
| lang_seq (r1 r2 : regex) (w1 w2 : list ascii) :
    lang r1 w1 -> lang r2 w2 -> lang (Seq r1 r2) (w1 ++ w2)
| lang_alt_l (r1 r2 : regex) (w : list ascii) :
    lang r1 w -> lang (Alt r1 r2) w
| lang_alt_r (r1 r2 : regex) (w : list ascii) :
    lang r2 w -> lang (Alt r1 r2) w
| lang_star_nil (r : regex) : lang (Star r) []
| lang_star_cons (r : regex) (w1 w2 : list ascii) :
    lang r w1 -> lang (Star r) w2 -> lang (Star r) (w1 ++ w2)
| lang_group (i : nat) (r : regex) (w : list ascii) :
    lang r w -> lang (Group i r) w.

(** The groups of a pattern, each with the expression it encloses. *)
Fixpoint groups (r : regex) : list (nat * regex) :=
  match r with
  | Eps | Class _ => []
  | Seq r1 r2 | Alt r1 r2 => groups r1 ++ groups r2
  | Star r' => groups r'
  | Group i r' => (i, r') :: groups r'
  end.

Section Soundness.

(** The whole text, and the groups of the whole pattern. *)
Variable text : list ascii.
Variable bodies : list (nat * regex).

(** Every span on record lies in the text and holds a word of its group. *)
Definition recorded (c : captures) : Prop :=
  forall i b e,
    In (i, (b, e)) c ->
    (b <= e <= List.length text)%nat
    /\ exists r, In (i, r) bodies /\ lang r (firstn (e - b) (skipn b text)).

Lemma skipn_split (pos : nat) (w s' : list ascii) :
  (pos <= List.length text)%nat ->
  skipn pos text = w ++ s' ->
  skipn (pos + List.length w) text = s'
  /\ firstn (List.length w) (skipn pos text) = w
  /\ (pos + List.length w <= List.length text)%nat.
Proof.
  intros Hpos H. split; [|split].
  - rewrite Nat.add_comm, <- skipn_skipn, H.
    rewrite skipn_app, skipn_all, Nat.sub_diag. reflexivity.
  - rewrite H, firstn_app, firstn_all, Nat.sub_diag. cbn.
    now rewrite app_nil_r.
  - assert (Hlen : List.length (skipn pos text) = List.length (w ++ s'))
      by now rewrite H.
    rewrite length_skipn, length_app in Hlen. lia.
Qed.

(** [run] is sound: when it succeeds, the pattern matched a word [w] at the
    front of the text from [pos] on, the spans on record are still right,
    and the continuation succeeded on what follows [w]. *)
Lemma run_sound (r : regex) :
  incl (groups r) bodies ->
  forall s pos c k o,
    run r s pos c k = Some o ->
    (pos <= List.length text)%nat ->
    s = skipn pos text ->
    recorded c ->
    exists w s' c',
      s = w ++ s'
      /\ lang r w
      /\ recorded c'
      /\ k s' (pos + List.length w)%nat c' = Some o.
Proof.
  induction r as [|p|r1 IH1 r2 IH2|r1 IH1 r2 IH2|r IH|i r IH];
    intros Hg s pos c k o Hrun Hpos Hs Hc; cbn [run] in Hrun.
  - exists [], s, c. cbn. rewrite Nat.add_0_r. refine (conj _ (conj _ (conj _ _))); eauto using lang.
  - destruct s as [|a s']; [discriminate|].
    destruct (p a) eqn:Hp; [|discriminate].
    exists [a], s', c. cbn. rewrite Nat.add_1_r.
    refine (conj _ (conj _ (conj _ _))); eauto using lang.
  - cbn [groups] in Hg.
    destruct (IH1 (fun x Hx => Hg x (in_or_app _ _ x (or_introl Hx)))
                _ _ _ _ _ Hrun Hpos Hs Hc) as (w1 & s1 & c1 & -> & L1 & Hc1 & Hk1).
    destruct (skipn_split pos w1 s1 Hpos (eq_sym Hs)) as (Hs1 & _ & Hpos1).
    destruct (IH2 (fun x Hx => Hg x (in_or_app _ _ x (or_intror Hx)))
                _ _ _ _ _ Hk1 Hpos1 (eq_sym Hs1) Hc1)
      as (w2 & s2 & c2 & -> & L2 & Hc2 & Hk2).
    exists (w1 ++ w2), s2, c2.
    rewrite length_app, Nat.add_assoc, <- app_assoc.
    refine (conj _ (conj _ (conj _ _))); eauto using lang.
  - cbn [groups] in Hg.
    destruct (run r1 s pos c k) as [o1|] eqn:E1.
    + injection Hrun as ->.
      destruct (IH1 (fun x Hx => Hg x (in_or_app _ _ x (or_introl Hx)))
                  _ _ _ _ _ E1 Hpos Hs Hc) as (w & s' & c' & -> & L & Hc' & Hk).
      exists w, s', c'. refine (conj _ (conj _ (conj _ _))); eauto using lang.
    + destruct (IH2 (fun x Hx => Hg x (in_or_app _ _ x (or_intror Hx)))
                  _ _ _ _ _ Hrun Hpos Hs Hc) as (w & s' & c' & -> & L & Hc' & Hk).
      exists w, s', c'. refine (conj _ (conj _ (conj _ _))); eauto using lang.
  - cbn [groups] in Hg.
    revert Hrun. generalize (S (List.length s)) as fuel.
    intros fuel. revert s pos c Hpos Hs Hc.
    induction fuel as [|fuel IHf]; intros s pos c Hpos Hs Hc Hrun;
      cbn [star] in Hrun.
    + exists [], s, c. cbn. rewrite Nat.add_0_r.
      refine (conj _ (conj _ (conj _ _))); eauto using lang.
    + match type of Hrun with
      | match ?body with _ => _ end = _ => destruct body as [o1|] eqn:E1
      end.
      * injection Hrun as ->.
        destruct (IH Hg _ _ _ _ _ E1 Hpos Hs Hc)
          as (w1 & s1 & c1 & -> & L1 & Hc1 & Hk1).
        destruct (pos <? pos + List.length w1)%nat; [|discriminate].
        destruct (skipn_split pos w1 s1 Hpos (eq_sym Hs)) as (Hs1 & _ & Hpos1).
        destruct (IHf _ _ _ Hpos1 (eq_sym Hs1) Hc1 Hk1)
          as (w2 & s2 & c2 & -> & L2 & Hc2 & Hk2).
        exists (w1 ++ w2), s2, c2.
        rewrite length_app, Nat.add_assoc, <- app_assoc.
        refine (conj _ (conj _ (conj _ _))); eauto using lang.
      * exists [], s, c. cbn. rewrite Nat.add_0_r.
        refine (conj _ (conj _ (conj _ _))); eauto using lang.
  - cbn [groups] in Hg.
    destruct (IH (fun x Hx => Hg x (or_intror Hx)) _ _ _ _ _ Hrun Hpos Hs Hc)
      as (w & s' & c' & -> & L & Hc' & Hk).
    exists w, s'. eexists. split; [reflexivity|]. split; [auto using lang|].
    split; [|exact Hk].
    destruct (skipn_split pos w s' Hpos (eq_sym Hs)) as (_ & Hw & Hlen).
    intros j b e [Heq|Hin]; [|now apply Hc'].
    injection Heq as <- <- <-. split; [lia|].
    exists r. split; [apply Hg; now left|].
    replace (pos + List.length w - pos)%nat with (List.length w) by lia.
    now rewrite Hw.
Qed.

End Soundness.

(** A group that every way through the pattern passes. *)
Fixpoint sets (i : nat) (r : regex) : bool :=
  match r with
  | Eps | Class _ | Star _ => false
  | Seq r1 r2 => sets i r1 || sets i r2
  | Alt r1 r2 => sets i r1 && sets i r2
  | Group j r' => (i =? j)%nat || sets i r'
  end.

Definition has (i : nat) (c : captures) : Prop := group_span i c <> None.

(** A group on record stays on record, and a pattern that passes a group on
    every way puts it on record. *)
Lemma run_sets (i : nat) (r : regex) :
  forall s pos c k o,
    run r s pos c k = Some o ->
    exists s' pos' c',
      (sets i r = true \/ has i c -> has i c')
      /\ k s' pos' c' = Some o.
Proof.
  induction r as [|p|r1 IH1 r2 IH2|r1 IH1 r2 IH2|r IH|j r IH];
    intros s pos c k o Hrun; cbn [run sets] in *.
  - exists s, pos, c. split; [intros [|]; [discriminate|assumption]|assumption].
  - destruct s as [|a s']; [discriminate|].
    destruct (p a); [|discriminate].
    exists s', (S pos), c.
    split; [intros [|]; [discriminate|assumption]|assumption].
  - destruct (IH1 _ _ _ _ _ Hrun) as (s1 & pos1 & c1 & H1 & Hk1).
    destruct (IH2 _ _ _ _ _ Hk1) as (s2 & pos2 & c2 & H2 & Hk2).
    exists s2, pos2, c2. split; [|assumption].
    rewrite orb_true_iff. tauto.
  - destruct (run r1 s pos c k) as [o1|] eqn:E1.
    + injection Hrun as ->.
      destruct (IH1 _ _ _ _ _ E1) as (s1 & pos1 & c1 & H1 & Hk1).
      exists s1, pos1, c1. split; [|assumption].
      rewrite andb_true_iff. tauto.
    + destruct (IH2 _ _ _ _ _ Hrun) as (s2 & pos2 & c2 & H2 & Hk2).
      exists s2, pos2, c2. split; [|assumption].
      rewrite andb_true_iff. tauto.
  - revert Hrun. generalize (S (List.length s)) as fuel.
    intros fuel. revert s pos c.
    induction fuel as [|fuel IHf]; intros s pos c Hrun; cbn [star] in Hrun.
    + exists s, pos, c. split; [intros [|]; [discriminate|assumption]|assumption].
    + match type of Hrun with
      | match ?body with _ => _ end = _ => destruct body as [o1|] eqn:E1
      end.
      * injection Hrun as ->.
        destruct (IH _ _ _ _ _ E1) as (s1 & pos1 & c1 & H1 & Hk1).
        destruct (pos <? pos1)%nat; [|discriminate].
        destruct (IHf _ _ _ Hk1) as (s2 & pos2 & c2 & H2 & Hk2).
        exists s2, pos2, c2. split; [|assumption].
        intros [|Hc]; [discriminate|]. apply H2. right. apply H1. now right.
      * exists s, pos, c.
        split; [intros [|]; [discriminate|assumption]|assumption].
  - destruct (IH _ _ _ _ _ Hrun) as (s1 & pos1 & c1 & H1 & Hk1).
    do 3 eexists. split; [|exact Hk1].
    unfold has in *. cbn [group_span].
    destruct (i =? j)%nat; [discriminate|].
    cbn [orb]. exact H1.
Qed.

Lemma group_span_in (i : nat) (c : captures) (span : nat * nat) :
  group_span i c = Some span -> In (i, span) c.
Proof.
  induction c as [|[j sp] c IH]; cbn [group_span]; [discriminate|].
  destruct (i =? j)%nat eqn:E.
  - intros [= ->]. apply Nat.eqb_eq in E as ->. now left.
  - intros H. right. now apply IH.
Qed.

Lemma list_of_substring (s : string) :
  forall b n,
    list_ascii_of_string (substring b n s)
    = firstn n (skipn b (list_ascii_of_string s)).
Proof.
  induction s as [|a s IH]; intros [|b] [|n]; cbn; try reflexivity.
  - f_equal. apply (IH 0%nat n).
  - apply (IH b 0%nat).
  - apply (IH b (S n)).
Qed.

Section Matches.

Variable text : list ascii.
Variable bodies : list (nat * regex).

Lemma skipn_cons (pos : nat) (a : ascii) (s : list ascii) :
  skipn pos text = a :: s ->
  skipn (S pos) text = s /\ (S pos <= List.length text)%nat.
Proof.
  intros H.
  destruct (Nat.le_gt_cases pos (List.length text)) as [Hpos|Hpos];
    [|rewrite skipn_all2 in H by lia; discriminate].
  destruct (skipn_split text pos [a] s Hpos H) as (H1 & _ & H2).
  cbn [List.length] in *. rewrite Nat.add_1_r in *. now split.
Qed.

(** What a match at [pos] says: the pattern matches the text between [pos]
    and the end of the match, and the spans of its groups are right. *)
Lemma match_at_sound (r : regex) (pos e : nat) (c : captures) :
  incl (groups r) bodies ->
  (pos <= List.length text)%nat ->
  match_at r (skipn pos text) pos = Some (e, c) ->
  recorded text bodies c
  /\ (pos <= e <= List.length text)%nat
  /\ lang r (firstn (e - pos) (skipn pos text))
  /\ forall i, sets i r = true -> has i c.
Proof.
  intros Hg Hpos H. unfold match_at in H.
  destruct (run_sound text bodies r Hg _ _ _ _ _ H Hpos eq_refl)
    as (w & s' & c' & Hw & L & Hc & Hk); [intros ? ? ? []|].
  injection Hk as <- <-.
  destruct (skipn_split text pos w s' Hpos Hw) as (_ & Hf & Hlen).
  split; [assumption|]. split; [lia|]. split.
  - replace (pos + List.length w - pos)%nat with (List.length w) by lia.
    now rewrite Hf.
  - intros i Hi.
    destruct (run_sets i r _ _ _ _ _ H) as (s1 & pos1 & c1 & H1 & Hk1).
    injection Hk1 as _ <-. apply H1. now left.
Qed.

(** The matches [scan] lists are matches of the pattern. *)
Definition matched (r : regex) (m : match_object) : Prop :=
  (m_start m <= List.length text)%nat
  /\ match_at r (skipn (m_start m) text) (m_start m)
     = Some (m_end m, m_groups m).

Lemma scan_matched (r : regex) :
  forall s pos skip,
    s = skipn pos text ->
    (pos <= List.length text)%nat ->
    Forall (matched r) (scan r s pos skip).
Proof.
  induction s as [|a s IH]; intros pos skip Hs Hpos.
  - destruct skip; cbn [scan]; [|constructor].
    destruct (match_at r [] pos) as [[e c]|] eqn:E; constructor.
    + split; cbn; [assumption|]. now rewrite <- Hs.
    + constructor.
  - destruct (skipn_cons pos a s (eq_sym Hs)) as [Hs' Hpos'].
    destruct skip; cbn [scan]; [|now apply IH].
    destruct (match_at r (a :: s) pos) as [[e c]|] eqn:E.
    + constructor; [|now apply IH].
      split; cbn; [assumption|]. now rewrite <- Hs.
    + now apply IH.
Qed.

End Matches.

(** A group of a match that [finditer] lists: when every way through the
    pattern passes the group, its text is a word of the group's body. *)
Lemma finditer_group (r : regex) (text : string) (m : match_object) (i : nat) :
  In m (finditer r text) ->
  sets i r = true ->
  exists body,
    In (i, body) (groups r)
    /\ lang body (list_ascii_of_string (group text m i)).
Proof.
  intros Hm Hi. unfold finditer in Hm.
  pose proof (scan_matched (list_ascii_of_string text) r _ 0 0 eq_refl
                (Nat.le_0_l _)) as Hall.
  rewrite Forall_forall in Hall. destruct (Hall m Hm) as [Hpos Hat].
  destruct (match_at_sound _ (groups r) r _ _ _ (incl_refl _) Hpos Hat)
    as (Hrec & _ & _ & Hsets).
  specialize (Hsets i Hi). unfold has in Hsets. unfold group.
  destruct (group_span i (m_groups m)) as [[b e]|] eqn:E; [|congruence].
  destruct (Hrec i b e (group_span_in _ _ _ E)) as (_ & body & Hin & L).
  exists body. split; [assumption|].
  unfold slice. now rewrite list_of_substring.
Qed.

(** Inversion of [lang] on a pattern that is written out, repetitions
    apart. *)
Ltac lang_inv :=
  repeat match goal with
    | H : lang Eps _ |- _ => inversion H; clear H; subst
    | H : lang (Class _) _ |- _ => inversion H; clear H; subst
    | H : lang (Seq _ _) _ |- _ => inversion H; clear H; subst
    | H : lang (Alt _ _) _ |- _ => inversion H; clear H; subst
    | H : lang (Group _ _) _ |- _ => inversion H; clear H; subst
    end.

End RegexFacts.

(** ** Text: digits and what [int] reads *)

Module TextFacts.

Import Text.

Definition all_digits (l : list ascii) : Prop :=
  Forall (fun a => is_digit a = true) l.

Lemma digit_not (c : ascii) (a : ascii) :
  is_digit c = false -> is_digit a = true -> Ascii.eqb c a = false.
Proof.
  intros Hc Ha. destruct (Ascii.eqb c a) eqn:E; [|reflexivity].
  apply Ascii.eqb_eq in E. congruence.
Qed.

Lemma remove_list (c : ascii) (l : list ascii) :
  remove c (string_of_list_ascii l)
  = string_of_list_ascii (filter (fun a => negb (Ascii.eqb c a)) l).
Proof.
  induction l as [|a l IH]; cbn; [reflexivity|].
  destruct (Ascii.eqb c a); cbn; now rewrite IH.
Qed.

Lemma filter_digits (c : ascii) :
  is_digit c = false -> forall l, all_digits l ->
  filter (fun a => negb (Ascii.eqb c a)) l = l.
Proof.
  intros Hc l. induction 1 as [|a l Ha _ IH]; cbn; [reflexivity|].
  now rewrite (digit_not c a Hc Ha), IH.
Qed.

Lemma before_digits (c : ascii) :
  is_digit c = false -> forall l, all_digits l ->
  before c (string_of_list_ascii l) = string_of_list_ascii l.
Proof.
  intros Hc l. induction 1 as [|a l Ha _ IH]; cbn; [reflexivity|].
  now rewrite (digit_not c a Hc Ha), IH.
Qed.

Lemma before_digits_then (c : ascii) (l rest : list ascii) :
  is_digit c = false -> all_digits l ->
  before c (string_of_list_ascii (l ++ c :: rest)) = string_of_list_ascii l.
Proof.
  intros Hc. induction 1 as [|a l Ha _ IH]; cbn.
  - now rewrite Ascii.eqb_refl.
  - now rewrite (digit_not c a Hc Ha), IH.
Qed.

Lemma digits_value_digits (l : list ascii) :
  all_digits l -> forall acc, exists v, digits_value acc (string_of_list_ascii l) = Some v.
Proof.
  induction 1 as [|a l Ha _ IH]; intros acc; cbn.
  - now exists acc.
  - rewrite Ha. apply IH.
Qed.

Lemma length_string_of_list (l : list ascii) :
  String.length (string_of_list_ascii l) = List.length l.
Proof. induction l as [|a l IH]; cbn; [reflexivity|now rewrite IH]. Qed.

(** [int] reads every non-empty string of digits that is not too long. *)
Lemma int_of_digits (l : list ascii) :
  all_digits l -> l <> [] ->
  Z.of_nat (List.length l) <= int_max_str_digits ->
  exists v, int_of_str (string_of_list_ascii l) = Ok v.
Proof.
  intros Hl Hne Hlen. destruct (digits_value_digits l Hl 0%Z) as [v Hv].
  exists v. unfold int_of_str. rewrite Hv, length_string_of_list.
  apply Z.ltb_ge in Hlen. rewrite Hlen.
  destruct l; [congruence|reflexivity].
Qed.

(** It raises on every string that is too long. *)
Lemma int_of_long (l : list ascii) :
  int_max_str_digits < Z.of_nat (List.length l) ->
  int_of_str (string_of_list_ascii l) = Raise ValueError.
Proof.
  intros Hlen. unfold int_of_str. rewrite length_string_of_list.
  apply Z.ltb_lt in Hlen. rewrite Hlen.
  destruct (string_of_list_ascii l); [reflexivity|].
  now destruct (digits_value 0 _).
Qed.

Lemma contains_char (c : ascii) (l : list ascii) :
  contains (String c "") (string_of_list_ascii l) = existsb (Ascii.eqb c) l.
Proof.
  induction l as [|a l IH]; cbn [contains string_of_list_ascii existsb prefix];
    [reflexivity|].
  rewrite IH. destruct (ascii_dec c a) as [->|Hne].
  - rewrite Ascii.eqb_refl. now destruct l.
  - apply Ascii.eqb_neq in Hne. now rewrite Hne.
Qed.

Lemma existsb_digits (c : ascii) :
  is_digit c = false -> forall l, all_digits l -> existsb (Ascii.eqb c) l = false.
Proof.
  intros Hc l. induction 1 as [|a l Ha _ IH]; cbn; [reflexivity|].
  now rewrite (digit_not c a Hc Ha), IH.
Qed.

Lemma digits_value_stops (l : list ascii) (c : ascii) (rest : list ascii) :
  all_digits l -> is_digit c = false ->
  forall acc, digits_value acc (string_of_list_ascii (l ++ c :: rest)) = None.
Proof.
  intros Hl Hc. induction Hl as [|a l Ha _ IH]; intros acc; cbn.
  - now rewrite Hc.
  - rewrite Ha. apply IH.
Qed.

End TextFacts.

(** ** The decision agent *)

Module DecisionSpec.

Import DataModel decision_agent.

(** *** The scoring rule, as the specification words it

    The signals are read off the typed stage results; a stage that is absent
    or failed gives no data. *)

Definition of_stage {A B : Type} (f : A -> B) (default : B) (s : stage A) : B :=
  match s with
  | Data a => f a
  | _ => default
  end.

Record signals : Type := {
  sig_red_flags : list string;
  sig_fees : list Fee;
  sig_behaviors : list string;
  sig_trust : string;
  sig_scam_reports_found : bool;
  sig_personal_emails : list string;
  sig_scam_matches : list hits;
  sig_positive_matches : list hits;
  sig_salary_risk : string
}.

Definition signals_of (extraction : stage ExtractionResult)
    (research : stage ReputationResult) (pattern_out : stage PatternMatchResult)
    (salary_out : stage SalaryResult) : signals :=
  {| sig_red_flags := of_stage x_red_flags [] extraction;
     sig_fees := of_stage x_fees [] extraction;
     sig_behaviors := of_stage x_behaviors [] extraction;
     sig_trust := of_stage r_trust_assessment "unknown" research;
     sig_scam_reports_found := of_stage r_scam_found false research;
     sig_personal_emails := of_stage r_personal_emails [] research;
     sig_scam_matches := of_stage p_scam_matches [] pattern_out;
     sig_positive_matches := of_stage p_positive_matches [] pattern_out;
     sig_salary_risk := of_stage s_combined_risk "LOW" salary_out |}.

Definition spec_risk (s : signals) : Z :=
  2 * Z.of_nat (List.length (sig_red_flags s))
  + (if nonempty (sig_fees s) then 5 else 0)
  + Z.of_nat (List.length (sig_behaviors s))
  + (if String.eqb (sig_trust s) "high_risk" then 10
     else if String.eqb (sig_trust s) "low_trust" then 5
     else if String.eqb (sig_trust s) "high_trust" then -5
     else 0)
  + (if sig_scam_reports_found s then 8 else 0)
  + (if nonempty (sig_personal_emails s) then 3 else 0)
  + (if nonempty (sig_scam_matches s) then 5 else 0)
  - (if nonempty (sig_positive_matches s) then 3 else 0)
  + (if String.eqb (sig_salary_risk s) "HIGH" then 4
     else if String.eqb (sig_salary_risk s) "MEDIUM" then 2
     else 0).


(** *** What [handle] reads from a payload built from typed stage results *)

Definition stage_value {A : Type} (f : A -> value) (s : stage A) : value :=
  match s with
  | Data a => f a
  | _ => VDict []
  end.

Section Reads.

Variables (clean_text : string) (toon_proposal : value).
Variables (extraction : stage ExtractionResult) (research : stage ReputationResult).
Variables (pattern_out : stage PatternMatchResult) (salary_out : stage SalaryResult).

Let payload : value :=
  decision_payload clean_text extraction research pattern_out salary_out
    toon_proposal.

Local Ltac all_stages :=
  subst payload;
  destruct extraction, research, pattern_out, salary_out; reflexivity.

Lemma read_extraction :
  get payload "extraction" (VDict []) = Ok (stage_value py_of_extraction extraction).
Proof. all_stages. Qed.

Lemma read_research :
  get payload "research" (VDict []) = Ok (stage_value py_of_reputation research).
Proof. all_stages. Qed.

Lemma read_pattern_out :
  get payload "pattern_out" (VDict []) = Ok (stage_value py_of_pattern pattern_out).
Proof. all_stages. Qed.

Lemma read_salary_out :
  get payload "salary_out" (VDict [])
  = Ok (stage_value py_of_salary_result salary_out).
Proof. all_stages. Qed.

End Reads.

Section FieldReads.

Variables (extraction : stage ExtractionResult) (research : stage ReputationResult).
Variables (pattern_out : stage PatternMatchResult) (salary_out : stage SalaryResult).

Local Ltac one_stage s := destruct s; reflexivity.

Lemma read_red_flags :
  get (stage_value py_of_extraction extraction) "red_flags" (VList [])
  = Ok (strlist (of_stage x_red_flags [] extraction)).
Proof. one_stage extraction. Qed.

Lemma read_fees :
  get (stage_value py_of_extraction extraction) "fees" (VList [])
  = Ok (VList (map py_of_fee (of_stage x_fees [] extraction))).
Proof. one_stage extraction. Qed.

Lemma read_behaviors :
  get (stage_value py_of_extraction extraction) "behaviors" (VList [])
  = Ok (strlist (of_stage x_behaviors [] extraction)).
Proof. one_stage extraction. Qed.

Lemma read_company_name :
  get (stage_value py_of_extraction extraction) "company_name" (VStr "Unknown")
  = Ok (VStr (of_stage x_company_name "Unknown" extraction)).
Proof. one_stage extraction. Qed.

Lemma read_trust_assessment :
  get (stage_value py_of_reputation research) "trust_assessment" (VStr "unknown")
  = Ok (VStr (of_stage r_trust_assessment "unknown" research)).
Proof. one_stage research. Qed.

Lemma read_scam_reports :
  get (stage_value py_of_reputation research) "scam_reports" (VDict [])
  = Ok (stage_value py_of_scam_reports research).
Proof. one_stage research. Qed.

Lemma read_found :
  get (stage_value py_of_scam_reports research) "found" (VBool false)
  = Ok (VBool (of_stage r_scam_found false research)).
Proof. one_stage research. Qed.

Lemma read_email_verification :
  get (stage_value py_of_reputation research) "email_verification" (VDict [])
  = Ok (stage_value py_of_email_verification research).
Proof. one_stage research. Qed.

Lemma read_personal_emails :
  get (stage_value py_of_email_verification research) "personal_emails" VNone
  = Ok (of_stage (fun r => strlist (r_personal_emails r)) VNone research).
Proof. one_stage research. Qed.

Lemma read_domain_matches :
  get (stage_value py_of_email_verification research) "domain_matches" VNone
  = Ok (of_stage (fun r => strlist (r_domain_matches r)) VNone research).
Proof. one_stage research. Qed.

Lemma read_professional_emails :
  get (stage_value py_of_email_verification research) "professional_emails" VNone
  = Ok (of_stage (fun r => strlist (r_professional_emails r)) VNone research).
Proof. one_stage research. Qed.

Lemma read_salary_verification :
  get (stage_value py_of_reputation research) "salary_verification" (VDict [])
  = Ok (stage_value py_of_salary_verification research).
Proof. one_stage research. Qed.

Lemma read_realistic :
  get (stage_value py_of_salary_verification research) "realistic" (VStr "unknown")
  = Ok (VStr (of_stage r_realistic "unknown" research)).
Proof.
  destruct research as [| |r]; try reflexivity.
  unfold stage_value, py_of_salary_verification.
  destruct (r_monthly_equivalent r); reflexivity.
Qed.

Lemma read_assessment :
  get (stage_value py_of_salary_verification research) "assessment" (VStr "")
  = Ok (VStr (of_stage r_assessment "" research)).
Proof.
  destruct research as [| |r]; try reflexivity.
  unfold stage_value, py_of_salary_verification.
  destruct (r_monthly_equivalent r); reflexivity.
Qed.

Lemma read_company_verification :
  get (stage_value py_of_reputation research) "company_verification" (VDict [])
  = Ok (stage_value py_of_company_verification research).
Proof. one_stage research. Qed.

Lemma read_online_presence :
  get (stage_value py_of_company_verification research) "online_presence"
    (VStr "none")
  = Ok (VStr (of_stage r_online_presence "none" research)).
Proof. one_stage research. Qed.

Lemma read_summary :
  get (stage_value py_of_reputation research) "summary" VNone
  = Ok (of_stage (fun r => VStr (r_summary r)) VNone research).
Proof. one_stage research. Qed.

Lemma read_research_summary :
  get (stage_value py_of_reputation research) "summary" (VStr "")
  = Ok (VStr (of_stage r_summary "" research)).
Proof. one_stage research. Qed.

Lemma read_scam_matches :
  get (stage_value py_of_pattern pattern_out) "scam_matches" VNone
  = Ok (of_stage (fun p => py_of_matches (p_scam_matches p)) VNone pattern_out).
Proof. one_stage pattern_out. Qed.

Lemma read_positive_matches :
  get (stage_value py_of_pattern pattern_out) "positive_matches" VNone
  = Ok (of_stage (fun p => py_of_matches (p_positive_matches p)) VNone
          pattern_out).
Proof. one_stage pattern_out. Qed.

Lemma read_reasoning :
  get (stage_value py_of_pattern pattern_out) "reasoning" VNone
  = Ok (of_stage (fun p => VStr (p_reasoning p)) VNone pattern_out).
Proof. one_stage pattern_out. Qed.

Lemma read_combined_risk :
  get (stage_value py_of_salary_result salary_out) "combined_risk" (VStr "LOW")
  = Ok (VStr (of_stage s_combined_risk "LOW" salary_out)).
Proof. one_stage salary_out. Qed.

End FieldReads.


(** The two sections of the explanation that iterate over their input. *)

Lemma red_flags_section (l : list string) (parts : list part) :
  (if truthy (strlist l)
   then first3 <- slice_to 3 (strlist l) ;;
        items <- iter first3 ;;
        ss <- strs items ;;
        Ok (parts ++ [RedFlagsDetected (join ", " ss)])
   else Ok parts)
  = Ok (if nonempty l
        then parts ++ [RedFlagsDetected (join ", " (firstn 3 l))]
        else parts).
Proof.
  destruct l as [|s l]; [reflexivity|].
  change (truthy (strlist (s :: l))) with true.
  change (nonempty (s :: l)) with true.
  unfold strlist, slice_to, iter. cbv beta iota delta [Py.bind].
  rewrite firstn_map_VStr, strs_map_VStr. reflexivity.
Qed.

Lemma fee_types_ok (l : list Fee) :
  mapM (fun f => get f "type" (VStr "unknown")) (map py_of_fee l)
  = Ok (map (fun f => VStr (fee_type f)) l).
Proof.
  induction l as [|f l IH]; [reflexivity|].
  cbn [map mapM]. rewrite IH. reflexivity.
Qed.

Lemma fees_section (x : value) (l : list Fee) (b : bool) (parts : list part) :
  get x "fees" (VList []) = Ok (VList (map py_of_fee l)) ->
  (if b
   then fees <- get x "fees" (VList []) ;;
        items <- iter fees ;;
        fee_types <- mapM (fun f => get f "type" (VStr "unknown")) items ;;
        ss <- strs fee_types ;;
        Ok (parts ++ [UpfrontPaymentRequired (join ", " ss)])
   else Ok parts)
  = Ok (if b
        then parts ++ [UpfrontPaymentRequired (join ", " (map fee_type l))]
        else parts).
Proof.
  intros ->. destruct b; [|reflexivity].
  cbn [Py.bind iter]. rewrite fee_types_ok. cbn [Py.bind].
  rewrite <- (map_map fee_type VStr), strs_map_VStr. reflexivity.
Qed.


Create Rewrite HintDb py_reads.
#[local] Hint Rewrite read_extraction read_research read_pattern_out
  read_salary_out read_red_flags read_fees read_behaviors read_company_name
  read_trust_assessment read_scam_reports read_found read_email_verification
  read_personal_emails read_domain_matches read_professional_emails
  read_salary_verification read_realistic read_assessment
  read_company_verification read_online_presence read_summary
  read_research_summary read_scam_matches read_positive_matches read_reasoning
  read_combined_risk : py_reads.

(** How a read of [handle] is settled. *)
Ltac py_read :=
  first [ apply red_flags_section
        | eapply fees_section; apply read_fees
        | autorewrite with py_reads;
          cbv beta iota delta [Py.bind len strlist];
          rewrite ?if_Ok; reflexivity ].

Ltac py_step := py_step_with py_read.

(** The tests of [handle] on typed data, in the words of the scoring rule. *)

Lemma fees_mentioned_nonempty (l : list Fee) :
  (0 <? Z.of_nat (List.length (map py_of_fee l))) = nonempty l.
Proof. now destruct l. Qed.

Lemma truthy_emails (f : ReputationResult -> list string)
    (research : stage ReputationResult) :
  truthy (of_stage (fun r => strlist (f r)) VNone research)
  = nonempty (of_stage f [] research).
Proof. destruct research as [| |r]; try reflexivity. cbn. now destruct (f r). Qed.

Lemma truthy_matches (f : PatternMatchResult -> list hits)
    (pattern_out : stage PatternMatchResult) :
  truthy (of_stage (fun p => py_of_matches (f p)) VNone pattern_out)
  = nonempty (of_stage f [] pattern_out).
Proof. destruct pattern_out as [| |p]; try reflexivity. cbn. now destruct (f p). Qed.

Lemma add_if_trust (b1 b2 b3 : bool) (x : Z) :
  (if b1 then x + 10 else if b2 then x + 5 else if b3 then x - 5 else x)
  = x + (if b1 then 10 else if b2 then 5 else if b3 then -5 else 0).
Proof. destruct b1, b2, b3; lia. Qed.

Lemma add_if_salary (b1 b2 : bool) (x : Z) :
  (if b1 then x + 4 else if b2 then x + 2 else x)
  = x + (if b1 then 4 else if b2 then 2 else 0).
Proof. destruct b1, b2; lia. Qed.

Lemma category_cases (risk : Z) (category : string) :
  category = (if 10 <=? risk then "Contains Warning Signs"
              else if risk <=? 2 then "Looks Safe" else "Needs Verification") ->
  (category = "Contains Warning Signs" <-> 10 <= risk)
  /\ (category = "Looks Safe" <-> risk <= 2)
  /\ (category = "Needs Verification" <-> 2 < risk < 10).
Proof.
  intros ->.
  destruct (Z.leb_spec 10 risk); [|destruct (Z.leb_spec risk 2)];
    repeat split; intros; try discriminate; try reflexivity; lia.
Qed.

Definition spec_category (risk : Z) : string :=
  if 10 <=? risk then "Contains Warning Signs"
  else if risk <=? 2 then "Looks Safe"
  else "Needs Verification".

(** [handle] on a payload of typed stage results: it answers, with the score
    and the category of the scoring rule. *)
Lemma handle_typed_payload
    (clean_text : string) (extraction : stage ExtractionResult)
    (research : stage ReputationResult) (pattern_out : stage PatternMatchResult)
    (salary_out : stage SalaryResult) (toon_proposal : value) :
  exists d,
    handle (decision_payload clean_text extraction research pattern_out
              salary_out toon_proposal) = Ok d
    /\ (internal_risk_score d
        = spec_risk (signals_of extraction research pattern_out salary_out)
        /\ result d = spec_category (internal_risk_score d)).
Proof.
  cbv beta delta [handle].
  repeat py_step.
  cbn [internal_risk_score result].
  split; [|exact Hcategory].
  clear Hcategory. subst.
  unfold spec_risk, signals_of. cbn [sig_red_flags sig_fees sig_behaviors
    sig_trust sig_scam_reports_found sig_personal_emails sig_scam_matches
    sig_positive_matches sig_salary_risk eq_str truthy].
  rewrite fees_mentioned_nonempty, !length_map, !truthy_matches.
  rewrite (truthy_emails r_personal_emails).
  rewrite add_if_salary, sub_if, !add_if, add_if_trust. lia.
Qed.

(** C1.  For every combination of upstream results (each stage's data, an
    empty result, or none at all), the decision agent answers, its
    [internal_risk_score] is the sum the scoring rule prescribes, and the
    category is "Contains Warning Signs" exactly from 10 up, "Looks Safe"
    exactly up to 2, "Needs Verification" exactly in between. *)
Theorem handle_risk_score_and_category
    (clean_text : string) (extraction : stage ExtractionResult)
    (research : stage ReputationResult) (pattern_out : stage PatternMatchResult)
    (salary_out : stage SalaryResult) (toon_proposal : value) :
  let risk := spec_risk (signals_of extraction research pattern_out salary_out) in
  exists d,
    handle (decision_payload clean_text extraction research pattern_out
              salary_out toon_proposal) = Ok d
    /\ internal_risk_score d = risk
    /\ (result d = "Contains Warning Signs" <-> 10 <= risk)
    /\ (result d = "Looks Safe" <-> risk <= 2)
    /\ (result d = "Needs Verification" <-> 2 < risk < 10).
Proof.
  intros risk.
  destruct (handle_typed_payload clean_text extraction research pattern_out
              salary_out toon_proposal) as (d & Hd & Hscore & Hresult).
  exists d. split; [exact Hd|]. split; [exact Hscore|].
  fold risk in Hscore. rewrite <- Hscore.
  apply category_cases. exact Hresult.
Qed.

(** *** The degenerate case: nothing to report *)

Definition no_extraction_signals (x : stage ExtractionResult) : Prop :=
  of_stage x_red_flags [] x = []
  /\ of_stage x_fees [] x = []
  /\ of_stage x_behaviors [] x = [].

Definition trust_neutral (r : stage ReputationResult) : Prop :=
  ~ In (of_stage r_trust_assessment "unknown" r)
       ["high_risk"; "low_trust"; "high_trust"]
  /\ of_stage r_scam_found false r = false
  /\ of_stage r_personal_emails [] r = [].

Definition no_pattern_matches (p : stage PatternMatchResult) : Prop :=
  of_stage p_scam_matches [] p = [] /\ of_stage p_positive_matches [] p = [].

Definition no_salary_risk (s : stage SalaryResult) : Prop :=
  ~ In (of_stage s_combined_risk "LOW" s) ["HIGH"; "MEDIUM"].

(** C6.  The decision agent does not raise on missing inputs: when every
    upstream stage is absent, failed, or reports nothing (no red flags, fees
    or behaviors; a trust-neutral reputation; no pattern match; no salary
    risk), it answers with risk score 0 and category "Looks Safe". *)
Theorem handle_degenerate
    (clean_text : string) (extraction : stage ExtractionResult)
    (research : stage ReputationResult) (pattern_out : stage PatternMatchResult)
    (salary_out : stage SalaryResult) (toon_proposal : value) :
  no_extraction_signals extraction ->
  trust_neutral research ->
  no_pattern_matches pattern_out ->
  no_salary_risk salary_out ->
  exists d,
    handle (decision_payload clean_text extraction research pattern_out
              salary_out toon_proposal) = Ok d
    /\ internal_risk_score d = 0
    /\ result d = "Looks Safe".
Proof.
  intros (Hflags & Hfees & Hbeh) (Htrust & Hscam & Hpers) (Hsm & Hpm) Hsal.
  destruct (handle_typed_payload clean_text extraction research pattern_out
              salary_out toon_proposal) as (d & Hd & Hscore & Hresult).
  assert (H0 : internal_risk_score d = 0).
  { rewrite Hscore. unfold spec_risk, signals_of.
    cbn [sig_red_flags sig_fees sig_behaviors sig_trust sig_scam_reports_found
      sig_personal_emails sig_scam_matches sig_positive_matches sig_salary_risk].
    rewrite Hflags, Hfees, Hbeh, Hscam, Hpers, Hsm, Hpm.
    rewrite !(eqb_not_in _ _ _ Htrust), !(eqb_not_in _ _ _ Hsal);
      cbn; auto 6. }
  exists d. split; [exact Hd|]. split; [exact H0|].
  rewrite Hresult, H0. reflexivity.
Qed.

(** Every stage missing, and every stage failed. *)
Lemma handle_degenerate_witness :
  (exists d,
     handle (decision_payload "" Absent Absent Absent Absent VNone) = Ok d
     /\ internal_risk_score d = 0 /\ result d = "Looks Safe")
  /\ (exists d,
        handle (decision_payload "" Failed Failed Failed Failed (VDict [])) = Ok d
        /\ internal_risk_score d = 0 /\ result d = "Looks Safe").
Proof.
  split; apply handle_degenerate;
    unfold no_extraction_signals, trust_neutral, no_pattern_matches,
      no_salary_risk; cbn; intuition discriminate.
Defined.

(** The payload with no key at all. *)
Example handle_empty_payload :
  exists d,
    handle (VDict []) = Ok d
    /\ internal_risk_score d = 0 /\ result d = "Looks Safe".
Proof. eexists. split; [vm_compute; reflexivity|]. split; reflexivity. Qed.

End DecisionSpec.

(** ** The research agent *)

Module ResearchSpec.

Import DataModel research_agent.

(** *** Trust assessment *)

(** The weights, as the specification tabulates them. *)
Definition spec_trust_score (r : ReputationResult) : Z :=
  (if String.eqb (r_online_presence r) "strong" then 3
   else if String.eqb (r_online_presence r) "moderate" then 1
   else if String.eqb (r_online_presence r) "weak" then -1
   else 0)
  + (if nonempty (r_professional_emails r) then 2 else 0)
  - (if nonempty (r_personal_emails r) then 1 else 0)
  + (if nonempty (r_domain_matches r) then 2 else 0)
  - (if r_scam_found r then 5 else 0)
  + (if nonempty (r_trusted r) then 3 else 0)
  - (if nonempty (r_suspicious r) then 2 else 0)
  + (if String.eqb (r_realistic r) "realistic" then 1
     else if String.eqb (r_realistic r) "suspiciously_low"
             || String.eqb (r_realistic r) "suspiciously_high" then -2
     else 0).

(** The scenario of the specification: a strong presence, professional
    emails, domain matches, no scam report, and nothing else on record. *)
Definition strong_clean_scenario (r : ReputationResult) : Prop :=
  r_online_presence r = "strong"
  /\ r_professional_emails r <> []
  /\ r_domain_matches r <> []
  /\ r_scam_found r = false
  /\ r_personal_emails r = []
  /\ r_trusted r = []
  /\ r_suspicious r = []
  /\ ~ In (r_realistic r) ["realistic"; "suspiciously_low"; "suspiciously_high"].

Lemma read_salary_check (r : ReputationResult) :
  get (py_of_salary_verification r) "realistic" (VStr "unknown")
  = Ok (VStr (r_realistic r)).
Proof.
  unfold py_of_salary_verification.
  destruct (r_monthly_equivalent r); reflexivity.
Qed.

Ltac trust_read :=
  first [ apply read_salary_check
        | cbn; reflexivity ].

Lemma add_if_presence (b1 b2 b3 : bool) (x : Z) :
  (if b1 then x + 3 else if b2 then x + 1 else if b3 then x - 1 else x)
  = x + (if b1 then 3 else if b2 then 1 else if b3 then -1 else 0).
Proof. destruct b1, b2, b3; lia. Qed.

Lemma add_if_salary_check (b1 b2 : bool) (x : Z) :
  (if b1 then x + 1 else if b2 then x - 2 else x)
  = x + (if b1 then 1 else if b2 then -2 else 0).
Proof. destruct b1, b2; lia. Qed.

Definition spec_trust_level (score : Z) : string :=
  if 5 <=? score then "high_trust"
  else if 2 <=? score then "moderate_trust"
  else if 0 <=? score then "low_trust"
  else "high_risk".

(** [_assess_trust] on a typed research result: the level of the tabulated
    score. *)
Lemma assess_trust_typed (r : ReputationResult) :
  _assess_trust (py_of_reputation r)
  = Ok (spec_trust_level (spec_trust_score r)).
Proof.
  cut (exists level, _assess_trust (py_of_reputation r) = Ok level
                     /\ level = spec_trust_level (spec_trust_score r)).
  { intros (level & -> & ->). reflexivity. }
  cbv beta delta [_assess_trust].
  repeat py_step_with trust_read.
  rewrite !if_Ok. apply ret_ok.
  lazymatch goal with
  | |- context [5 <=? ?score] => assert (Hs : score = spec_trust_score r)
  end.
  { subst. unfold spec_trust_score.
    cbn [eq_str in_strs existsb truthy]. rewrite !truthy_strlist, orb_false_r.
    rewrite add_if_presence, add_if_salary_check, !sub_if, !add_if. lia. }
  rewrite Hs. reflexivity.
Qed.

Lemma trust_level_cases (score : Z) :
  (spec_trust_level score = "high_trust" <-> 5 <= score)
  /\ (spec_trust_level score = "moderate_trust" <-> 2 <= score < 5)
  /\ (spec_trust_level score = "low_trust" <-> 0 <= score < 2)
  /\ (spec_trust_level score = "high_risk" <-> score < 0).
Proof.
  unfold spec_trust_level.
  destruct (Z.leb_spec 5 score); [|destruct (Z.leb_spec 2 score);
    [|destruct (Z.leb_spec 0 score)]];
    repeat split; intros; try discriminate; try reflexivity; lia.
Qed.

Lemma scenario_score (r : ReputationResult) :
  strong_clean_scenario r -> spec_trust_score r = 7.
Proof.
  intros (Hp & Hprof & Hdom & Hscam & Hpers & Htr & Hsus & Hsal).
  unfold spec_trust_score.
  rewrite Hp, Hscam, Hpers, Htr, Hsus.
  rewrite !(eqb_not_in _ _ _ Hsal) by (cbn; auto).
  destruct (r_professional_emails r); [contradiction|].
  destruct (r_domain_matches r); [contradiction|].
  reflexivity.
Qed.

(** C2.  For every research result, [_assess_trust] returns the level of the
    score the fixed weights give: high_trust from 5 up, moderate_trust from 2
    to below 5, low_trust from 0 to below 2, high_risk below 0.  A strong
    presence with professional emails and domain matches, no scam report and
    nothing else on record scores 3 + 2 + 2 = 7 and is high_trust. *)
Theorem assess_trust_weights_and_levels (r : ReputationResult) :
  let score := spec_trust_score r in
  exists level,
    _assess_trust (py_of_reputation r) = Ok level
    /\ (level = "high_trust" <-> 5 <= score)
    /\ (level = "moderate_trust" <-> 2 <= score < 5)
    /\ (level = "low_trust" <-> 0 <= score < 2)
    /\ (level = "high_risk" <-> score < 0)
    /\ (strong_clean_scenario r -> score = 7 /\ level = "high_trust").
Proof.
  intros score. exists (spec_trust_level score).
  split; [apply assess_trust_typed|].
  destruct (trust_level_cases score) as (H1 & H2 & H3 & H4).
  repeat (split; [assumption|]).
  intros Hsc. pose proof (scenario_score r Hsc) as H7. fold score in H7.
  split; [exact H7|]. rewrite H7. reflexivity.
Qed.

(** A research result in the scenario. *)
Definition acme_research : ReputationResult :=
  {| r_found := true; r_online_presence := "strong";
     r_sources := ["https://www.acme.com"]; r_description := "";
     r_emails_found := 1; r_domain_matches := ["hr@acme.com"];
     r_suspicious_domains := []; r_personal_emails := [];
     r_professional_emails := ["hr@acme.com"];
     r_realistic := "unknown"; r_monthly_equivalent := None;
     r_assessment := "No salary information provided"; r_market_range := None;
     r_scam_found := false; r_scam_sources := [];
     r_scam_summary := "No scam reports found";
     r_total_domains := 1; r_trusted := []; r_suspicious := [];
     r_unknown := ["acme.com"];
     r_trust_assessment := "pending"; r_summary := "" |}.

Lemma assess_trust_witness :
  strong_clean_scenario acme_research
  /\ _assess_trust (py_of_reputation acme_research) = Ok "high_trust".
Proof.
  assert (Hsc : strong_clean_scenario acme_research).
  { unfold strong_clean_scenario. cbn. intuition discriminate. }
  split; [exact Hsc|].
  destruct (assess_trust_weights_and_levels acme_research)
    as (level & Hl & _ & _ & _ & _ & Hscn).
  destruct (Hscn Hsc) as (_ & <-). exact Hl.
Defined.

(** *** Rounding to the nearest double *)

Lemma round_half_even_bounds (num den : Z) :
  num / den <= round_half_even num den <= num / den + 1.
Proof.
  unfold round_half_even. cbv zeta.
  destruct (_ || _); lia.
Qed.

Lemma round_half_even_mono (num num' den : Z) :
  0 < den -> num <= num' ->
  round_half_even num den <= round_half_even num' den.
Proof.
  intros Hden Hle.
  pose proof (Z.div_le_mono num num' den Hden Hle) as Hq.
  destruct (Z.eq_dec (num / den) (num' / den)) as [Heq|Hne].
  - unfold round_half_even. cbv zeta. rewrite <- Heq.
    assert (Hr : num mod den <= num' mod den).
    { rewrite !Z.mod_eq by lia. rewrite <- Heq. lia. }
    destruct ((den <? 2 * (num mod den))
              || ((den =? 2 * (num mod den)) && Z.odd (num / den))) eqn:E;
      [|match goal with |- context [if ?b then _ else _] => destruct b end; lia].
    assert (E' : (den <? 2 * (num' mod den))
                 || ((den =? 2 * (num' mod den)) && Z.odd (num / den)) = true).
    { apply orb_true_iff in E as [E|E].
      - apply Z.ltb_lt in E. apply orb_true_iff. left. apply Z.ltb_lt. lia.
      - apply andb_true_iff in E as [E Hodd]. apply Z.eqb_eq in E.
        rewrite Hodd, andb_true_r.
        destruct (Z.eq_dec (num mod den) (num' mod den)) as [<-|Hr'].
        + apply orb_true_iff. right. apply Z.eqb_eq. exact E.
        + apply orb_true_iff. left. apply Z.ltb_lt. lia. }
    rewrite E'. lia.
  - pose proof (round_half_even_bounds num den).
    pose proof (round_half_even_bounds num' den). lia.
Qed.

(** The binary exponent of the grid a quotient is rounded on. *)
Definition grid (a b : Z) : Z := Z.max 0 (Z.log2 (a * unit / b) - 52).

Lemma nearest_double_grid (a b : Z) :
  nearest_double a b
  = round_half_even (a * unit) (b * 2 ^ grid a b) * 2 ^ grid a b.
Proof. reflexivity. Qed.

Lemma unit_pos : 0 < unit.
Proof. reflexivity. Qed.

Lemma div_lt_iff (a b k : Z) : 0 < b -> (a / b < k <-> a < b * k).
Proof.
  intros Hb. split; intros H.
  - pose proof (Z.div_mod a b ltac:(lia)). pose proof (Z.mod_pos_bound a b Hb). nia.
  - now apply Z.div_lt_upper_bound.
Qed.

Lemma div_ge_iff (a b k : Z) : 0 < b -> (k <= a / b <-> b * k <= a).
Proof.
  intros Hb. pose proof (div_lt_iff a b k Hb). lia.
Qed.

(** The rounded quotient has at most 53 binary digits, one more when it
    rounds up to a power of two. *)
Lemma nearest_double_upper (a b : Z) :
  0 <= a -> 0 < b -> nearest_double a b <= 2 ^ (53 + grid a b).
Proof.
  intros Ha Hb. rewrite nearest_double_grid.
  set (j := grid a b). set (num := a * unit).
  assert (Hj : 0 <= j) by (unfold j, grid; lia).
  assert (Hp : 0 < 2 ^ j) by (apply Z.pow_pos_nonneg; lia).
  assert (Hq : num / b < 2 ^ (53 + j)).
  { destruct (Z.le_gt_cases (num / b) 0) as [H0|H0].
    - assert (0 < 2 ^ (53 + j)) by (apply Z.pow_pos_nonneg; lia). lia.
    - destruct (Z.log2_spec _ H0) as [_ Hlt].
      eapply Z.lt_le_trans; [exact Hlt|].
      apply Z.pow_le_mono_r; [lia|]. unfold j, grid, num. lia. }
  apply div_lt_iff in Hq; [|exact Hb].
  rewrite Z.pow_add_r in * by lia.
  assert (Hm : num / (b * 2 ^ j) < 2 ^ 53).
  { apply div_lt_iff; [nia|]. nia. }
  pose proof (round_half_even_bounds num (b * 2 ^ j)). nia.
Qed.

(** On a grid above the finest one the rounded quotient has 53 digits. *)
Lemma nearest_double_lower (a b : Z) :
  0 <= a -> 0 < b -> 0 < grid a b ->
  2 ^ (52 + grid a b) <= nearest_double a b.
Proof.
  intros Ha Hb Hg. rewrite nearest_double_grid.
  assert (Hlog : Z.log2 (a * unit / b) = 52 + grid a b)
    by (unfold grid in *; lia).
  set (j := grid a b) in *. set (num := a * unit) in *.
  assert (Hp : 0 < 2 ^ j) by (apply Z.pow_pos_nonneg; lia).
  assert (H0 : 0 < num / b).
  { destruct (Z.le_gt_cases (num / b) 0) as [H0|H0]; [|exact H0].
    rewrite (Z.log2_nonpos _ H0) in Hlog. lia. }
  destruct (Z.log2_spec _ H0) as [Hle _]. rewrite Hlog in Hle.
  apply div_ge_iff in Hle; [|exact Hb].
  rewrite Z.pow_add_r in * by lia.
  assert (Hm : 2 ^ 52 <= num / (b * 2 ^ j)).
  { apply div_ge_iff; [nia|]. nia. }
  pose proof (round_half_even_bounds num (b * 2 ^ j)). nia.
Qed.

Lemma grid_mono (a a' b : Z) :
  0 < b -> a <= a' -> grid a b <= grid a' b.
Proof.
  intros Hb Hle. unfold grid.
  assert (H : a * unit / b <= a' * unit / b).
  { apply Z.div_le_mono; [exact Hb|]. pose proof unit_pos. nia. }
  apply Z.log2_le_mono in H. lia.
Qed.

(** Rounding to the nearest double keeps the order. *)
Lemma nearest_double_mono (a a' b : Z) :
  0 < b -> 0 <= a <= a' -> nearest_double a b <= nearest_double a' b.
Proof.
  intros Hb [Ha Hle].
  pose proof (grid_mono a a' b Hb Hle) as Hg.
  destruct (Z.eq_dec (grid a b) (grid a' b)) as [Heq|Hne].
  - rewrite !nearest_double_grid, <- Heq.
    assert (Hj : 0 <= grid a b) by (unfold grid; lia).
    assert (Hp : 0 < 2 ^ grid a b) by (apply Z.pow_pos_nonneg; lia).
    apply Z.mul_le_mono_nonneg_r; [lia|].
    apply round_half_even_mono; [nia|]. pose proof unit_pos. nia.
  - assert (Hj : 0 <= grid a b) by (unfold grid; lia).
    pose proof (nearest_double_upper a b Ha Hb) as Hup.
    pose proof (nearest_double_lower a' b ltac:(lia) Hb ltac:(lia)) as Hlow.
    assert (Hpow : 2 ^ (53 + grid a b) <= 2 ^ (52 + grid a' b))
      by (apply Z.pow_le_mono_r; lia).
    lia.
Qed.

Lemma nearest_double_nonneg (a b : Z) :
  0 <= a -> 0 < b -> 0 <= nearest_double a b.
Proof.
  intros Ha Hb. rewrite nearest_double_grid.
  assert (Hj : 0 <= grid a b) by (unfold grid; lia).
  assert (Hp : 0 < 2 ^ grid a b) by (apply Z.pow_pos_nonneg; lia).
  pose proof (round_half_even_bounds (a * unit) (b * 2 ^ grid a b)) as [Hq _].
  assert (H0 : 0 <= a * unit / (b * 2 ^ grid a b)).
  { apply Z.div_pos; [|nia]. pose proof unit_pos. nia. }
  nia.
Qed.

(** The rounded quotient is a nearest whole number. *)
Lemma round_half_even_nearest (num den k : Z) :
  0 < den ->
  Z.abs (round_half_even num den * den - num) <= Z.abs (k * den - num).
Proof.
  intros Hden.
  pose proof (Z.div_mod num den ltac:(lia)) as Hdm.
  pose proof (Z.mod_pos_bound num den Hden) as Hr.
  unfold round_half_even. cbv zeta.
  set (q := num / den) in *. set (r := num mod den) in *.
  assert (Hk : k <= q \/ q + 1 <= k) by lia.
  destruct ((den <? 2 * r) || ((den =? 2 * r) && Z.odd q)) eqn:E.
  - assert (H2 : den <= 2 * r).
    { apply orb_true_iff in E as [E|E].
      - apply Z.ltb_lt in E. lia.
      - apply andb_true_iff in E as [E _]. apply Z.eqb_eq in E. lia. }
    destruct Hk; nia.
  - apply orb_false_iff in E as [E _]. apply Z.ltb_ge in E.
    destruct Hk; nia.
Qed.

(** The doubles that are not negative, in units: 53 binary digits on a
    grid. *)
Definition is_double (d : Z) : Prop :=
  exists m i, 0 <= i /\ 0 <= m < 2 ^ 53 /\ d = m * 2 ^ i.

(** No double is nearer to the quotient than the one [nearest_double]
    gives. *)
Lemma nearest_double_nearest (a b d : Z) :
  0 <= a -> 0 < b -> is_double d ->
  Z.abs (nearest_double a b * b - a * unit) <= Z.abs (d * b - a * unit).
Proof.
  intros Ha Hb (m & i & Hi & Hm & ->).
  rewrite nearest_double_grid.
  assert (Hj : 0 <= grid a b) by (unfold grid; lia).
  destruct (Z.le_gt_cases (grid a b) i) as [Hle|Hlt].
  - assert (Hsplit : 2 ^ i = 2 ^ (i - grid a b) * 2 ^ grid a b)
      by (rewrite <- Z.pow_add_r by lia; f_equal; lia).
    set (j := grid a b) in *. set (num := a * unit).
    assert (Hp : 0 < 2 ^ j) by (apply Z.pow_pos_nonneg; lia).
    pose proof (round_half_even_nearest num (b * 2 ^ j) (m * 2 ^ (i - j))
                  ltac:(nia)) as H.
    rewrite Hsplit.
    replace (round_half_even num (b * 2 ^ j) * 2 ^ j * b - num)
      with (round_half_even num (b * 2 ^ j) * (b * 2 ^ j) - num) by ring.
    replace (m * (2 ^ (i - j) * 2 ^ j) * b - num)
      with (m * 2 ^ (i - j) * (b * 2 ^ j) - num) by ring.
    exact H.
  - assert (Hlog : Z.log2 (a * unit / b) = 52 + grid a b)
      by (unfold grid in *; lia).
    assert (H0 : 0 < a * unit / b).
    { destruct (Z.le_gt_cases (a * unit / b) 0) as [H0|H0]; [|exact H0].
      rewrite (Z.log2_nonpos _ H0) in Hlog. lia. }
    destruct (Z.log2_spec _ H0) as [Hq _]. rewrite Hlog in Hq.
    apply div_ge_iff in Hq; [|exact Hb].
    assert (Hpow : 2 ^ (53 + i) <= 2 ^ (52 + grid a b))
      by (apply Z.pow_le_mono_r; lia).
    rewrite !Z.pow_add_r in * by lia.
    set (j := grid a b) in *. set (num := a * unit) in *.
    assert (Hp : 0 < 2 ^ j) by (apply Z.pow_pos_nonneg; lia).
    assert (Hpi : 0 < 2 ^ i) by (apply Z.pow_pos_nonneg; lia).
    pose proof (round_half_even_nearest num (b * 2 ^ j) (2 ^ 52) ltac:(nia))
      as H.
    replace (round_half_even num (b * 2 ^ j) * 2 ^ j * b - num)
      with (round_half_even num (b * 2 ^ j) * (b * 2 ^ j) - num) by ring.
    assert (H1 : m * 2 ^ i <= 2 ^ 53 * 2 ^ i)
      by (apply Z.mul_le_mono_nonneg_r; lia).
    assert (Hd : m * 2 ^ i * b <= 2 ^ 52 * 2 ^ j * b)
      by (apply Z.mul_le_mono_nonneg_r; lia).
    replace (2 ^ 52 * (b * 2 ^ j)) with (2 ^ 52 * 2 ^ j * b) in H by ring.
    lia.
Qed.

(** And what it gives is a double. *)
Lemma nearest_double_is_double (a b : Z) :
  0 <= a -> 0 < b -> is_double (nearest_double a b).
Proof.
  intros Ha Hb.
  pose proof (nearest_double_upper a b Ha Hb) as Hup.
  assert (Hj : 0 <= grid a b) by (unfold grid; lia).
  assert (Hp : 0 < 2 ^ grid a b) by (apply Z.pow_pos_nonneg; lia).
  pose proof (round_half_even_bounds (a * unit) (b * 2 ^ grid a b)) as [Hq _].
  assert (H0 : 0 <= a * unit / (b * 2 ^ grid a b)).
  { apply Z.div_pos; [|nia]. pose proof unit_pos. nia. }
  rewrite nearest_double_grid in *. rewrite Z.pow_add_r in Hup by lia.
  set (r := round_half_even (a * unit) (b * 2 ^ grid a b)) in *.
  destruct (Z.eq_dec r (2 ^ 53)) as [Hr|Hr].
  - exists (2 ^ 52), (grid a b + 1). split; [lia|]. split; [now vm_compute|].
    rewrite Hr, Z.pow_add_r by lia. change (2 ^ 53) with (2 ^ 52 * 2 ^ 1). ring.
  - exists r, (grid a b). split; [exact Hj|]. split; [nia|reflexivity].
Qed.

(** *** The twelfth of an amount *)

Definition double_limit : Z := 2 ^ 1024 - 2 ^ 970.

Lemma twelfth_below (k a a0 : Z) :
  (nearest_double a0 12 <? k * unit) = true -> 0 <= a <= a0 ->
  (nearest_double a 12 <? k * unit) = true.
Proof.
  intros H0 Ha. apply Z.ltb_lt in H0. apply Z.ltb_lt.
  pose proof (nearest_double_mono a a0 12 eq_refl Ha). lia.
Qed.

Lemma twelfth_not_below (k a a0 : Z) :
  (nearest_double a0 12 <? k * unit) = false -> 0 <= a0 <= a ->
  (nearest_double a 12 <? k * unit) = false.
Proof.
  intros H0 Ha. apply Z.ltb_ge in H0. apply Z.ltb_ge.
  pose proof (nearest_double_mono a0 a 12 eq_refl Ha). lia.
Qed.

Lemma twelfth_above (k a a0 : Z) :
  (k * unit <? nearest_double a0 12) = true -> 0 <= a0 <= a ->
  (k * unit <? nearest_double a 12) = true.
Proof.
  intros H0 Ha. apply Z.ltb_lt in H0. apply Z.ltb_lt.
  pose proof (nearest_double_mono a0 a 12 eq_refl Ha). lia.
Qed.

Lemma twelfth_not_above (k a a0 : Z) :
  (k * unit <? nearest_double a0 12) = false -> 0 <= a <= a0 ->
  (k * unit <? nearest_double a 12) = false.
Proof.
  intros H0 Ha. apply Z.ltb_ge in H0. apply Z.ltb_ge.
  pose proof (nearest_double_mono a a0 12 eq_refl Ha). lia.
Qed.

(** The twelfth of an amount is below 5000 exactly when the amount is below
    60000, and likewise at the other two thresholds: rounding keeps the
    order, and the twelfths of 60000, 600000 and 1200000 are exact. *)
Lemma twelfth_lt_5000 (a : Z) :
  0 <= a -> (nearest_double a 12 <? 5000 * unit) = (a <? 60000).
Proof.
  intros Ha. destruct (a <? 60000) eqn:E.
  - apply Z.ltb_lt in E. apply (twelfth_below _ _ 59999); [now vm_compute|lia].
  - apply Z.ltb_ge in E. apply (twelfth_not_below _ _ 60000); [now vm_compute|lia].
Qed.

Lemma twelfth_gt (k a : Z) :
  k = 50000 \/ k = 100000 ->
  0 <= a -> (k * unit <? nearest_double a 12) = (12 * k <? a).
Proof.
  intros Hk Ha. destruct (12 * k <? a) eqn:E.
  - apply Z.ltb_lt in E. apply (twelfth_above _ _ (12 * k + 1)); [|lia].
    destruct Hk as [-> | ->]; now vm_compute.
  - apply Z.ltb_ge in E. apply (twelfth_not_above _ _ (12 * k)); [|lia].
    destruct Hk as [-> | ->]; now vm_compute.
Qed.

(** The twelfth is beyond the doubles from [12 * double_limit] on. *)
Lemma twelfth_overflow (a : Z) :
  0 <= a ->
  (double_max_units <=? nearest_double a 12) = (12 * double_limit <=? a).
Proof.
  intros Ha. destruct (12 * double_limit <=? a) eqn:E.
  - apply Z.leb_le in E. apply Z.leb_le.
    pose proof (nearest_double_mono (12 * double_limit) a 12 eq_refl
                  ltac:(split; [now vm_compute|exact E])) as H.
    assert (H0 : nearest_double (12 * double_limit) 12 = double_max_units)
      by (now vm_compute).
    lia.
  - apply Z.leb_gt in E. apply Z.leb_gt.
    pose proof (nearest_double_mono a (12 * double_limit - 1) 12 eq_refl
                  ltac:(lia)) as H.
    assert (H0 : (nearest_double (12 * double_limit - 1) 12 <? double_max_units)
                 = true) by (now vm_compute).
    apply Z.ltb_lt in H0. lia.
Qed.

(** *** Salary verification *)

(** The monthly equivalent, as the specification words it. *)
Definition spec_monthly (amount : Z) (period : string) : Q :=
  if String.eqb period "month" then inject_Z amount
  else (inject_Z amount / 12)%Q.

(** The salaries whose monthly equivalent Python can hold: a twelfth of the
    amount has to round to a double. *)
Definition in_double_range (amount : Z) (period : string) : bool :=
  String.eqb period "month" || (Z.abs amount <? 12 * double_limit).

(** The monthly equivalent [_verify_salary] holds: the amount itself for a
    monthly salary, the double nearest to its twelfth for every other. *)
Definition monthly_number (amount : Z) (period : string) : number :=
  if String.eqb period "month" then Int amount
  else Float (Z.sgn amount * nearest_double (Z.abs amount) 12).

Lemma monthly_amount_cases (amount : Z) (period : string) :
  (if String.eqb period "month" then Ok (Int amount)
   else true_divide amount 12)
  = if in_double_range amount period
    then Ok (monthly_number amount period)
    else Raise OverflowError.
Proof.
  unfold in_double_range, monthly_number.
  destruct (String.eqb period "month"); [reflexivity|]. cbn [orb].
  unfold true_divide. change (12 =? 0) with false. cbv iota zeta.
  change (Z.abs 12) with 12. change (Z.sgn 12) with 1.
  rewrite (twelfth_overflow _ (Z.abs_nonneg amount)), Z.mul_1_r.
  rewrite Z.leb_antisym. now destruct (Z.abs amount <? 12 * double_limit).
Qed.

Lemma twelfth_Q_lt (amount k : Z) :
  (inject_Z amount / 12 < inject_Z k)%Q <-> amount < 12 * k.
Proof.
  rewrite (Zlt_Qlt amount (12 * k)), inject_Z_mult.
  change (inject_Z 12) with 12%Q.
  assert (Hq : (inject_Z amount == 12 * (inject_Z amount / 12))%Q) by field.
  revert Hq. generalize (inject_Z amount / 12)%Q as q. intros q Hq.
  split; intros H; lra.
Qed.

Lemma twelfth_Q_gt (amount k : Z) :
  (inject_Z k < inject_Z amount / 12)%Q <-> 12 * k < amount.
Proof.
  rewrite (Zlt_Qlt (12 * k) amount), inject_Z_mult.
  change (inject_Z 12) with 12%Q.
  assert (Hq : (inject_Z amount == 12 * (inject_Z amount / 12))%Q) by field.
  revert Hq. generalize (inject_Z amount / 12)%Q as q. intros q Hq.
  split; intros H; lra.
Qed.

(** The comparisons of [_verify_salary] on the monthly equivalent it holds
    are the comparisons of the exact one. *)
Lemma lt_int_monthly (amount : Z) (period : string) :
  lt_int (monthly_number amount period) 5000 = true
  <-> (spec_monthly amount period < 5000)%Q.
Proof.
  unfold monthly_number, spec_monthly.
  destruct (String.eqb period "month"); cbn [lt_int].
  - rewrite Z.ltb_lt. change 5000%Q with (inject_Z 5000).
    now rewrite <- Zlt_Qlt.
  - change 5000%Q with (inject_Z 5000). rewrite twelfth_Q_lt, Z.ltb_lt.
    pose proof (nearest_double_nonneg (Z.abs amount) 12 (Z.abs_nonneg _) eq_refl)
      as Hn.
    pose proof unit_pos as Hu.
    destruct (Z.le_gt_cases amount 0) as [Hneg|Hpos].
    + assert (Z.sgn amount * nearest_double (Z.abs amount) 12 <= 0)
        by (pose proof (Z.sgn_nonpos amount); nia).
      split; intros _; lia.
    + rewrite (Z.sgn_pos _ Hpos), Z.mul_1_l, (Z.abs_eq amount) by lia.
      rewrite <- Z.ltb_lt, (twelfth_lt_5000 amount) by lia.
      rewrite Z.ltb_lt. lia.
Qed.

Lemma gt_int_monthly (k amount : Z) (period : string) :
  k = 50000 \/ k = 100000 ->
  gt_int (monthly_number amount period) k = true
  <-> (inject_Z k < spec_monthly amount period)%Q.
Proof.
  intros Hk. unfold monthly_number, spec_monthly.
  destruct (String.eqb period "month"); cbn [gt_int].
  - rewrite Z.ltb_lt. now rewrite <- Zlt_Qlt.
  - rewrite twelfth_Q_gt, Z.ltb_lt.
    pose proof (nearest_double_nonneg (Z.abs amount) 12 (Z.abs_nonneg _) eq_refl)
      as Hn.
    pose proof unit_pos as Hu.
    destruct (Z.le_gt_cases amount 0) as [Hneg|Hpos].
    + assert (Z.sgn amount * nearest_double (Z.abs amount) 12 <= 0)
        by (pose proof (Z.sgn_nonpos amount); nia).
      split; intros H'; nia.
    + rewrite (Z.sgn_pos _ Hpos), Z.mul_1_l, (Z.abs_eq amount) by lia.
      rewrite <- Z.ltb_lt, (twelfth_gt k amount Hk) by lia.
      now rewrite Z.ltb_lt.
Qed.

(** For every salary that is mentioned, [_verify_salary] answers with the
    monthly equivalent (the amount itself for a monthly salary, the double
    nearest to a twelfth of it otherwise, so for a yearly one) and
    classifies it: suspiciously_low exactly below 5000, suspiciously_high
    exactly above 100000, verify_required exactly above 50000 up to 100000,
    realistic otherwise; unless the twelfth is beyond the doubles, where it
    raises [OverflowError]. *)
Lemma verify_salary_classification
    (company : string) (amount : Z) (currency period : string) :
  let monthly := spec_monthly amount period in
  let answer :=
    _verify_salary company (py_of_salary (Mentioned amount currency period)) in
  if in_double_range amount period
  then exists v,
      answer = Ok v
      /\ monthly_equivalent v = Some (monthly_number amount period)
      /\ (realistic v = "suspiciously_low" <-> (monthly < 5000)%Q)
      /\ (realistic v = "suspiciously_high" <-> (100000 < monthly)%Q)
      /\ (realistic v = "verify_required"
          <-> (50000 < monthly)%Q /\ (monthly <= 100000)%Q)
      /\ (realistic v = "realistic"
          <-> (5000 <= monthly)%Q /\ (monthly <= 50000)%Q)
  else answer = Raise OverflowError.
Proof.
  intros monthly answer. subst answer.
  unfold _verify_salary, py_of_salary.
  cbn [get lookup String.eqb Ascii.eqb Bool.eqb Py.bind truthy negb int_of
       eq_str].
  rewrite monthly_amount_cases.
  destruct (in_double_range amount period); [|reflexivity].
  cbn [Py.bind].
  pose proof (lt_int_monthly amount period) as Hlow.
  pose proof (gt_int_monthly 100000 amount period (or_intror eq_refl)) as Hhigh.
  pose proof (gt_int_monthly 50000 amount period (or_introl eq_refl)) as Hmid.
  fold monthly in Hlow, Hhigh, Hmid.
  change (inject_Z 100000) with 100000%Q in Hhigh.
  change (inject_Z 50000) with 50000%Q in Hmid.
  destruct (lt_int (monthly_number amount period) 5000) eqn:E1;
    [|destruct (gt_int (monthly_number amount period) 100000) eqn:E2;
      [|destruct (gt_int (monthly_number amount period) 50000) eqn:E3]];
    eexists; (split; [reflexivity|]); cbn [monthly_equivalent realistic];
    (split; [reflexivity|]);
    repeat match goal with
           | H : true = true <-> _ |- _ => apply proj1 in H; specialize (H eq_refl)
           | H : false = true <-> ?P |- _ =>
               assert (~ P) by (intros HP; apply H in HP; discriminate);
               clear H
           end;
    repeat split; intros; try discriminate; try reflexivity;
    repeat match goal with H : _ /\ _ |- _ => destruct H end;
    lra.
Qed.

(** An amount of 3000 per month is suspiciously_low, and a twelfth of
    100000 is held as the double 8333.333333333334. *)
Example verify_salary_scenario :
  (exists v,
     _verify_salary "Acme" (py_of_salary (Mentioned 3000 "INR" "month")) = Ok v
     /\ realistic v = "suspiciously_low")
  /\ (exists units,
        true_divide 100000 12 = Ok (Float units)
        /\ to_float units = (100000 / 12)%float).
Proof.
  split; eexists; (split; [vm_compute; reflexivity|]); reflexivity.
Qed.

(** A posting whose yearly salary has 310 digits. *)
Definition huge_salary_text : string :=
  "Salary: Rs 3000000000000000000000000000000000000000000000000000000000000000000000000000000000000000000000000000000000000000000000000000000000000000000000000000000000000000000000000000000000000000000000000000000000000000000000000000000000000000000000000000000000000000000000000000000000000000000000000000000000000000000000 per year".

(** C7, at a yearly salary beyond the doubles: the extraction agent reads
    the amount off the posting, and [_verify_salary] raises [OverflowError]
    on it instead of classifying it as suspiciously_high. *)
Theorem verify_salary_beyond_doubles :
  extraction_agent._extract_salary huge_salary_text
  = Ok (Mentioned (3 * 10 ^ 309) "INR" "year")
  /\ _verify_salary "Acme" (py_of_salary (Mentioned (3 * 10 ^ 309) "INR" "year"))
     = Raise OverflowError.
Proof. split; vm_compute; reflexivity. Qed.

End ResearchSpec.

(** ** The extraction agent *)

Module ExtractionSpec.

Import Text re RegexFacts TextFacts DataModel extraction_agent.

(** *** The amounts of the salary and fee patterns *)

Lemma chr_i_comma (a : ascii) :
  Ascii.eqb (lower_char a) (lower_char ",") = true -> a = ","%char.
Proof.
  destruct a as [[] [] [] [] [] [] [] []]; vm_compute; intros H;
    first [reflexivity | discriminate H].
Qed.

Lemma chr_i_point (a : ascii) :
  Ascii.eqb (lower_char a) (lower_char ".") = true -> a = "."%char.
Proof.
  destruct a as [[] [] [] [] [] [] [] []]; vm_compute; intros H;
    first [reflexivity | discriminate H].
Qed.

(** Digits in groups: what [(?:,\d{3})*] takes. *)
Definition digits_or_commas (l : list ascii) : Prop :=
  Forall (fun a => is_digit a = true \/ a = ","%char) l.

Lemma lang_plus_digits (w : list ascii) :
  lang (plus digit) w -> all_digits w /\ w <> [].
Proof.
  assert (Hstar : forall r w, lang r w -> r = Star digit -> all_digits w).
  { induction 1 as [| | | | | |r w1 w2 L1 _ _ IH|]; intros Hr;
      try discriminate; [constructor|].
    injection Hr as ->. inversion L1; subst.
    constructor; [assumption|]. now apply IH. }
  unfold plus, digit. intros L.
  inversion L as [| |r1 r2 w1 w2 L1 L2| | | | |]; subst.
  inversion L1; subst. split; [|discriminate].
  constructor; [assumption|]. now apply (Hstar _ _ L2).
Qed.

Lemma lang_comma_groups (w : list ascii) :
  lang (Star (Seq (chr_i ",") (rep 3 digit))) w -> digits_or_commas w.
Proof.
  assert (Hstar : forall r w,
             lang r w -> r = Star (Seq (chr_i ",") (rep 3 digit)) ->
             digits_or_commas w).
  { induction 1 as [| | | | | |r w1 w2 L1 _ _ IH|]; intros Hr;
      try discriminate; [constructor|].
    injection Hr as ->. apply Forall_app. split; [|now apply IH].
    clear IH. cbv [chr_i rep digit] in L1.
    lang_inv.
    match goal with
    | H : Ascii.eqb (lower_char _) _ = true |- _ => apply chr_i_comma in H; subst
    end.
    cbn [app]. constructor; [now right|].
    repeat (constructor; [now left|]). constructor. }
  intros L. now apply (Hstar _ _ L).
Qed.

Lemma lang_decimals (w : list ascii) :
  lang (opt (Seq (chr_i ".") (rep 2 digit))) w ->
  w = [] \/ exists d1 d2, w = ["."%char; d1; d2].
Proof.
  cbv [opt chr_i rep digit]. intros L.
  lang_inv; [right|now left].
  match goal with
  | H : Ascii.eqb (lower_char _) _ = true |- _ => apply chr_i_point in H; subst
  end.
  eexists _, _. reflexivity.
Qed.

(** What stands in group 1 of [salary_pattern]: digits, then digits and
    commas, then maybe a point and two more characters. *)
Definition salary_amount_shape (w : list ascii) : Prop :=
  exists ds cs tail,
    w = ds ++ cs ++ tail
    /\ all_digits ds /\ ds <> []
    /\ digits_or_commas cs
    /\ (tail = [] \/ exists d1 d2, tail = ["."%char; d1; d2]).

Lemma salary_pattern_amount (body : regex) (w : list ascii) :
  In (1%nat, body) (groups (compiled salary_pattern)) ->
  lang body w -> salary_amount_shape w.
Proof.
  intros Hin L.
  cbv [salary_pattern compiled groups seqs fold_right app alts lit_i map
       list_ascii_of_string rupee nothing chr_i opt space] in Hin.
  cbn in Hin.
  destruct Hin as [[= <-]|[]].
  inversion L as [| |r1 r2 w1 w2 L1 L2| | | | |]; subst; clear L.
  inversion L2 as [| |r1 r2 w3 w4 L3 L4| | | | |]; subst; clear L2.
  inversion L4 as [| |r1 r2 w5 w6 L5 L6| | | | |]; subst; clear L4.
  inversion L6; subst; clear L6. rewrite app_nil_r.
  apply lang_plus_digits in L1 as [? ?].
  apply lang_comma_groups in L3. apply lang_decimals in L5.
  exists w1, w3, w5. repeat split; assumption.
Qed.

Lemma filter_commas (l : list ascii) :
  digits_or_commas l ->
  all_digits (filter (fun a => negb (Ascii.eqb "," a)) l).
Proof.
  induction 1 as [|a l [Ha| ->] _ IH]; cbn [filter]; [constructor| |].
  - rewrite (digit_not ","%char a eq_refl Ha). cbn [negb]. now constructor.
  - now rewrite Ascii.eqb_refl.
Qed.

Lemma existsb_point_commas (l : list ascii) :
  digits_or_commas l -> existsb (Ascii.eqb ".") l = false.
Proof.
  induction 1 as [|a l [Ha| ->] _ IH]; cbn [existsb]; [reflexivity| |].
  - now rewrite (digit_not "."%char a eq_refl Ha).
  - exact IH.
Qed.

(** The digits of an amount: its characters, the commas apart. *)
Definition digits (amount_str : string) : Z :=
  Z.of_nat (String.length (remove "," amount_str)).

(** [int] reads an amount, its commas dropped, exactly when it has no point
    and no more digits than [int] converts. *)
Lemma int_of_salary_amount (w : list ascii) :
  salary_amount_shape w ->
  let amount_str := string_of_list_ascii w in
  if contains "." amount_str || (int_max_str_digits <? digits amount_str)
  then int_of_str (remove "," amount_str) = Raise ValueError
  else exists amount, int_of_str (remove "," amount_str) = Ok amount.
Proof.
  intros (ds & cs & tail & -> & Hds & Hne & Hcs & Htail). cbv zeta.
  unfold digits.
  rewrite contains_char, !existsb_app.
  rewrite (existsb_digits "."%char eq_refl ds Hds), (existsb_point_commas cs Hcs).
  rewrite remove_list, !filter_app, (filter_digits ","%char eq_refl ds Hds).
  pose proof (filter_commas cs Hcs) as Hcs'.
  destruct Htail as [->|(d1 & d2 & ->)]; cbn [existsb orb].
  - cbn [filter]. rewrite app_nil_r, length_string_of_list.
    destruct (int_max_str_digits <? _) eqn:E.
    + apply int_of_long. now apply Z.ltb_lt.
    + apply int_of_digits; [apply Forall_app; now split| |now apply Z.ltb_ge].
      destruct ds; [congruence|discriminate].
  - rewrite Ascii.eqb_refl. cbn [orb filter].
    change (negb (Ascii.eqb "," ".")) with true. cbv iota.
    rewrite app_assoc. unfold int_of_str.
    rewrite digits_value_stops by (try reflexivity; apply Forall_app; now split).
    destruct ds; [congruence|reflexivity].
Qed.

(** What [_extract_salary] answers, on every text: no salary without a
    match; else the first match decides.  An amount without a point, of no
    more digits than [int] converts, gives the salary, in USD exactly when
    the text contains "$" or "USD", per year exactly when the lowered text
    contains "year", "annum" or "pa"; an amount with a point, or with more
    digits, makes [int] raise. *)
Lemma extract_salary_outcome (text : string) :
  match findall salary_pattern text with
  | [] => _extract_salary text = Ok NotMentioned
  | amount_str :: _ =>
      if contains "." amount_str || (int_max_str_digits <? digits amount_str)
      then _extract_salary text = Raise ValueError
      else exists amount,
          int_of_str (remove "," amount_str) = Ok amount
          /\ _extract_salary text
             = Ok (Mentioned amount
                     (if contains "$" text || contains "USD" text
                      then "USD" else "INR")
                     (if any_in ["year"; "annum"; "pa"] (lower text)
                      then "year" else "month"))
  end.
Proof.
  unfold _extract_salary. cbv zeta. unfold findall.
  destruct (finditer (compiled salary_pattern) text) as [|m0 ms] eqn:E;
    [reflexivity|].
  cbn [map].
  assert (Hm : In m0 (finditer (compiled salary_pattern) text))
    by (rewrite E; now left).
  destruct (finditer_group _ text m0 1 Hm eq_refl) as (body & Hin & L).
  apply (salary_pattern_amount body) in L; [|assumption].
  apply int_of_salary_amount in L. cbv zeta in L.
  rewrite string_of_list_ascii_of_string in L.
  destruct (contains "." (group text m0 1) || _).
  - now rewrite L.
  - destruct L as [amount Hamount]. exists amount.
    split; [assumption|]. now rewrite Hamount.
Qed.

(** The amounts of the fee pattern have no point: [int] reads them unless
    they have more digits than it converts. *)
Lemma lang_fee_amount (body : regex) (w : list ascii) :
  In (1%nat, body) (groups (compiled fee_pattern)) ->
  lang body w ->
  let amount_str := string_of_list_ascii w in
  if int_max_str_digits <? digits amount_str
  then int_of_str (remove "," amount_str) = Raise ValueError
  else exists amount, int_of_str (remove "," amount_str) = Ok amount.
Proof.
  intros Hin L.
  cbv [fee_pattern compiled groups seqs fold_right app alts lit_i map
       list_ascii_of_string rupee nothing chr_i opt space] in Hin.
  cbn in Hin.
  destruct Hin as [[= <-]|[]].
  inversion L as [| |r1 r2 w1 w2 L1 L2| | | | |]; subst; clear L.
  inversion L2 as [| |r1 r2 w3 w4 L3 L4| | | | |]; subst; clear L2.
  inversion L4; subst; clear L4. rewrite app_nil_r.
  apply lang_plus_digits in L1 as [Hds Hne].
  apply lang_comma_groups in L3.
  cbv zeta. unfold digits.
  rewrite remove_list, filter_app, (filter_digits ","%char eq_refl w1 Hds).
  rewrite length_string_of_list.
  destruct (int_max_str_digits <? _) eqn:E.
  - apply int_of_long. now apply Z.ltb_lt.
  - apply int_of_digits; [apply Forall_app; split; [assumption|]| |].
    + now apply filter_commas.
    + destruct w1; [congruence|discriminate].
    + now apply Z.ltb_ge.
Qed.

(** The posting of the specification's scenario. *)
Definition scenario_text : string :=
  "Pay a refundable deposit of $500 for training. WhatsApp +1234567890 for urgent hiring, no interview needed.".

Lemma in_snoc {A : Type} (x y : A) (l : list A) :
  In x (l ++ [y]) <-> In x l \/ y = x.
Proof.
  rewrite in_app_iff. cbn. intuition.
Qed.

(** The behavior "no interview mentioned" is reported exactly when the
    lowered text does not contain "interview". *)
Lemma no_interview_mentioned_iff (text : string) :
  In "no interview mentioned" (_detect_behaviors text)
  <-> contains "interview" (lower text) = false.
Proof.
  unfold _detect_behaviors.
  destruct (contains "interview" (lower text)); cbn [negb];
    repeat match goal with
           | |- context [if ?b then _ else _] => destruct b
           end;
    cbn [app]; rewrite ?in_snoc; cbn [In];
    intuition discriminate.
Qed.

(** C10.  On the posting of the scenario, extraction finds a fee, the first
    one classified as a training fee; the red flags contain "refundable
    deposit"; and the behaviors do not contain "no interview mentioned",
    because that behavior is reported exactly when the substring "interview"
    is absent from the lowered text, and here it occurs. *)
Theorem scenario_extraction :
  (exists fee rest,
     _extract_fees scenario_text = Ok (fee :: rest)
     /\ fee_type fee = "training_fee")
  /\ In "refundable deposit" (_detect_red_flags scenario_text)
  /\ ~ In "no interview mentioned" (_detect_behaviors scenario_text)
  /\ contains "interview" (lower scenario_text) = true
  /\ (forall text,
        In "no interview mentioned" (_detect_behaviors text)
        <-> contains "interview" (lower text) = false).
Proof.
  split; [|split; [|split; [|split]]].
  - eexists. eexists. split; [vm_compute; reflexivity|reflexivity].
  - vm_compute. auto.
  - rewrite no_interview_mentioned_iff. vm_compute. discriminate.
  - vm_compute. reflexivity.
  - exact no_interview_mentioned_iff.
Qed.

(** C9, at a posting whose first amount carries decimals: the pattern takes
    "500.00" for the amount, [int] rejects it, and [_extract_salary] raises
    instead of building a salary result. *)
Theorem extract_salary_decimal_amount_raises :
  findall salary_pattern "Salary: $500.00 per month" = ["500.00"]
  /\ _extract_salary "Salary: $500.00 per month" = Raise ValueError.
Proof. split; vm_compute; reflexivity. Qed.

End ExtractionSpec.

(** ** The knowledge base: loading *)

Module LoadSpec.

Import toon_files.

(** A path that can be examined, read and written. *)
Definition reachable (f : file) : bool :=
  match f with Denied => false | _ => true end.

(** *** The TOON manager *)

Section Manager.

Import toon_manager.

Lemma get_slot_set_same (key : string) (s : slot) (d : data) :
  get_slot key (set_slot key s d) = Some s.
Proof.
  induction d as [|[k s'] d IH]; cbn.
  - now rewrite String.eqb_refl.
  - destruct (String.eqb key k) eqn:E; cbn; rewrite E; [reflexivity|exact IH].
Qed.

Lemma get_slot_set_other (key key' : string) (s : slot) (d : data) :
  key <> key' -> get_slot key (set_slot key' s d) = get_slot key d.
Proof.
  intros Hne. apply String.eqb_neq in Hne.
  induction d as [|[k s'] d IH]; cbn.
  - now rewrite Hne.
  - destruct (String.eqb key' k) eqn:E; cbn.
    + apply String.eqb_eq in E. subst k. now rewrite Hne.
    + destruct (String.eqb key k); [reflexivity|exact IH].
Qed.

Lemma keys_set_slot (key : string) (s : slot) (d : data) :
  In key (map fst d) -> map fst (set_slot key s d) = map fst d.
Proof.
  induction d as [|[k s'] d IH]; cbn; [contradiction|].
  intros [->|Hin].
  - now rewrite String.eqb_refl.
  - destruct (String.eqb key k); cbn; [reflexivity|]. now rewrite IH.
Qed.

(** One round of the loop of [_load_toon]. *)
Definition load_key (loaded : dict) (d : data) (key : string) : data :=
  match lookup key loaded with
  | Some (VList l) => set_slot key (Loaded l) d
  | _ => d
  end.

Lemma keys_load_key (loaded : dict) (d : data) (key : string) :
  In key (map fst d) -> map fst (load_key loaded d key) = map fst d.
Proof.
  intros Hin. unfold load_key.
  destruct (lookup key loaded) as [[]|]; try reflexivity.
  now apply keys_set_slot.
Qed.

Lemma keys_fold_load (loaded : dict) (keys : list string) (d : data) :
  incl keys (map fst d) ->
  map fst (fold_left (load_key loaded) keys d) = map fst d.
Proof.
  revert d. induction keys as [|k keys IH]; intros d Hincl; [reflexivity|].
  cbn [fold_left]. rewrite IH.
  - apply keys_load_key, Hincl. now left.
  - rewrite keys_load_key by (apply Hincl; now left).
    intros x Hx. apply Hincl. now right.
Qed.

(** What the loop leaves under a key. *)
Definition loaded_slot (loaded : dict) (key : string) : slot :=
  match lookup key loaded with
  | Some (VList l) => Loaded l
  | _ => Default key
  end.

Lemma get_slot_fold_other (loaded : dict) (keys : list string) (d : data)
    (key : string) :
  ~ In key keys ->
  get_slot key (fold_left (load_key loaded) keys d) = get_slot key d.
Proof.
  revert d. induction keys as [|k keys IH]; intros d Hnin; [reflexivity|].
  cbn [fold_left]. rewrite IH by (intros H; apply Hnin; now right).
  unfold load_key. destruct (lookup k loaded) as [[]|]; try reflexivity.
  apply get_slot_set_other. intros ->. apply Hnin. now left.
Qed.

Lemma get_slot_fold_load (loaded : dict) (keys : list string) (d : data)
    (key : string) :
  NoDup keys -> In key keys ->
  get_slot key d = Some (Default key) ->
  get_slot key (fold_left (load_key loaded) keys d)
  = Some (loaded_slot loaded key).
Proof.
  revert d. induction keys as [|k keys IH]; intros d Hnd Hin Hd; [contradiction|].
  inversion Hnd as [|? ? Hnk Hnd']; subst.
  cbn [fold_left]. destruct Hin as [->|Hin].
  - rewrite get_slot_fold_other by exact Hnk.
    unfold load_key, loaded_slot.
    destruct (lookup key loaded) as [[]|]; try exact Hd.
    apply get_slot_set_same.
  - apply IH; try assumption.
    unfold load_key. destruct (lookup k loaded) as [[]|]; try exact Hd.
    rewrite get_slot_set_other; [exact Hd|].
    intros ->. contradiction.
Qed.

Lemma SCHEMA_keys_NoDup : NoDup SCHEMA_keys.
Proof.
  unfold SCHEMA_keys.
  repeat (constructor; [cbn; intuition discriminate|]). constructor.
Qed.

Lemma get_slot_SCHEMA_copy (key : string) :
  In key SCHEMA_keys -> get_slot key SCHEMA_copy = Some (Default key).
Proof.
  cbn. intuition (subst; reflexivity).
Qed.

(** What [_load_toon] returns for a path it can examine. *)
Definition read (path : file) : data :=
  match path with
  | Json (VDict loaded) => merge_loaded loaded SCHEMA_copy
  | _ => SCHEMA_copy
  end.

(** [_load_toon] raises on a path it may not examine, [path.exists()] being
    called before the [try], and on no other. *)
Lemma load_toon_cases (path : file) :
  _load_toon path
  = match path with
    | Denied => Raise PermissionError
    | _ => Ok (read path)
    end.
Proof. destruct path as [| |[]|]; reflexivity. Qed.

(** The slot [_load_toon] returns under a key of the schema: the list of the
    document when the file holds a mapping with a list under the key, the
    list object of [SCHEMA] in every other case. *)
Definition expected_slot (path : file) (key : string) : slot :=
  match path with
  | Json (VDict loaded) => loaded_slot loaded key
  | _ => Default key
  end.

Lemma load_toon_slot (path : file) (key : string) :
  In key SCHEMA_keys ->
  get_slot key (read path) = Some (expected_slot path key).
Proof.
  intros Hin. unfold read, expected_slot.
  destruct path as [| |doc|]; try (now apply get_slot_SCHEMA_copy).
  destruct doc; try (now apply get_slot_SCHEMA_copy).
  apply (get_slot_fold_load d SCHEMA_keys SCHEMA_copy key SCHEMA_keys_NoDup Hin).
  now apply get_slot_SCHEMA_copy.
Qed.

Lemma load_toon_keys (path : file) : map fst (read path) = SCHEMA_keys.
Proof.
  unfold read.
  destruct path as [| |doc|]; try reflexivity.
  destruct doc; try reflexivity.
  unfold merge_loaded.
  change (map fst (fold_left (load_key d) SCHEMA_keys SCHEMA_copy) = SCHEMA_keys).
  rewrite keys_fold_load; [reflexivity|]. intros x Hx. exact Hx.
Qed.

Lemma lookup_view (schema : list (string * list value)) (d : data) (key : string) :
  find (fun kv => String.eqb key (fst kv)) (view schema d)
  = option_map (fun s => (key, content schema s)) (get_slot key d).
Proof.
  induction d as [|[k s] d IH]; cbn; [reflexivity|].
  destruct (String.eqb key k) eqn:E; [|exact IH].
  apply String.eqb_eq in E. now subst.
Qed.

Lemma data_by_key (f : string -> slot) (d : data) :
  NoDup (map fst d) ->
  (forall key, In key (map fst d) -> get_slot key d = Some (f key)) ->
  d = map (fun key => (key, f key)) (map fst d).
Proof.
  induction d as [|[k s] d IH]; cbn [map fst]; intros Hnd Hget; [reflexivity|].
  inversion Hnd as [|? ? Hnk Hnd']; subst.
  pose proof (Hget k (or_introl eq_refl)) as Hk.
  cbn in Hk. rewrite String.eqb_refl in Hk. injection Hk as ->.
  f_equal. apply IH; [exact Hnd'|].
  intros key Hin. specialize (Hget key (or_intror Hin)).
  cbn in Hget. destruct (String.eqb key k) eqn:E; [|exact Hget].
  apply String.eqb_eq in E. subst. contradiction.
Qed.

Lemma load_toon_by_key (path : file) :
  read path = map (fun key => (key, expected_slot path key)) SCHEMA_keys.
Proof.
  transitivity (map (fun key => (key, expected_slot path key))
                    (map fst (read path))).
  - apply data_by_key.
    + rewrite load_toon_keys. exact SCHEMA_keys_NoDup.
    + intros key Hin. rewrite load_toon_keys in Hin. now apply load_toon_slot.
  - now rewrite load_toon_keys.
Qed.

(** The list of [SCHEMA] under a key. *)
Definition default_of (schema : list (string * list value)) (key : string)
  : list value := content schema (Default key).

(** The category a load gives, in the words of the specification: the list
    of the document when the document is a mapping that has a list under the
    key; the default in every other case (key missing, value no list,
    document no mapping, file missing or unreadable). *)
Definition spec_category (default : list value) (path : file) (key : string)
  : list value :=
  match path with
  | Json (VDict loaded) =>
      match lookup key loaded with
      | Some (VList l) => l
      | _ => default
      end
  | _ => default
  end.

Lemma content_expected_slot (schema : list (string * list value)) (path : file)
    (key : string) :
  content schema (expected_slot path key)
  = spec_category (default_of schema key) path key.
Proof.
  unfold expected_slot, spec_category, loaded_slot.
  destruct path as [| |[]|]; try reflexivity.
  destruct (lookup key d) as [[]|]; reflexivity.
Qed.

Lemma view_load_toon (schema : list (string * list value)) (path : file) :
  view schema (read path)
  = map (fun key => (key, spec_category (default_of schema key) path key))
        SCHEMA_keys.
Proof.
  rewrite load_toon_by_key. unfold view. rewrite map_map.
  apply map_ext. intros key. cbn [fst snd].
  now rewrite content_expected_slot.
Qed.

End Manager.

(** *** The TOON learning agent *)

Definition learner_response (scam_patterns positive_patterns : res value) : value :=
  match scam_patterns, positive_patterns with
  | Ok scam, Ok positive =>
      VDict [("status", VStr "success");
             ("data", VDict [("scam_patterns", scam);
                             ("positive_patterns", positive)])]
  | Raise e, _ | Ok _, Raise e =>
      VDict [("status", VStr "error");
             ("message", VStr (message e));
             ("data", VDict [("scam_patterns", VDict []);
                             ("positive_patterns", VDict [])])]
  end.

Lemma learner_load (fs : files) :
  toon_learning_agent._load_toon fs
  = learner_response (load (scam_patterns_file fs))
                     (load (positive_patterns_file fs)).
Proof.
  unfold toon_learning_agent._load_toon, learner_response.
  destruct (load (scam_patterns_file fs)); cbn [Py.bind]; [|reflexivity].
  destruct (load (positive_patterns_file fs)); reflexivity.
Qed.

(** The documents of a response of the learning agent's load. *)
Definition loaded_documents (response : value) : option (value * value) :=
  match response with
  | VDict r =>
      match lookup "data" r with
      | Some (VDict data) =>
          match lookup "scam_patterns" data, lookup "positive_patterns" data with
          | Some scam, Some positive => Some (scam, positive)
          | _, _ => None
          end
      | _ => None
      end
  | _ => None
  end.

(** A document that has all five schema categories, each a list. *)
Definition has_schema (doc : value) : Prop :=
  match doc with
  | VDict d =>
      Forall (fun key => exists l, lookup key d = Some (VList l))
             toon_manager.SCHEMA_keys
  | _ => False
  end.

(** The documents the load of the learning agent hands over: those of the
    two files when both hold JSON, two empty mappings when a file is
    missing, unreadable or out of reach. *)
Definition documents_of (fs : files) : value * value :=
  match scam_patterns_file fs, positive_patterns_file fs with
  | Json scam, Json positive => (scam, positive)
  | _, _ => (VDict [], VDict [])
  end.

Lemma learner_documents (fs : files) :
  loaded_documents (toon_learning_agent._load_toon fs) = Some (documents_of fs).
Proof.
  rewrite learner_load. unfold documents_of.
  destruct (scam_patterns_file fs) as [| |scam|];
    destruct (positive_patterns_file fs) as [| |positive|]; reflexivity.
Qed.

(** The lists of [SCHEMA] are empty, as they are when the module is
    loaded. *)
Definition empty_defaults (schema : list (string * list value)) : Prop :=
  forall key, In key toon_manager.SCHEMA_keys -> default_of schema key = [].

Lemma SCHEMA_initial_empty : empty_defaults toon_manager.SCHEMA_initial.
Proof.
  intros key Hin. cbn in Hin.
  repeat match type of Hin with
         | _ \/ _ => destruct Hin as [Hin|Hin]
         end; [subst; reflexivity ..|contradiction].
Qed.

(** The module as it is loaded, before [init_defaults] runs, over two
    missing files. *)
Definition fresh_state : toon_manager.state :=
  {| toon_manager.SCHEMA := toon_manager.SCHEMA_initial;
     toon_manager.toon := {| scam_patterns_file := Missing;
                             positive_patterns_file := Missing |} |}.

(** C5 as stated fails three times.  The load of the learning agent, on two
    files that hold the empty mapping, returns the two empty mappings, which
    have none of the five categories.  The load of the TOON manager raises
    on a path it may not examine: [path.exists()] stands before the [try].
    And it does not always default to the empty list: appending through a
    copy of [SCHEMA] reaches [SCHEMA] itself, so that after [update_pattern]
    on the missing scam file, the load of the missing positive file gives
    fake_domains the value just added. *)
Lemma load_not_as_claimed :
  ~ (forall fs scam positive,
       loaded_documents (toon_learning_agent._load_toon fs) = Some (scam, positive) ->
       has_schema scam /\ has_schema positive)
  /\ toon_manager._load_toon Denied = Raise PermissionError
  /\ (exists st d,
        toon_manager.update_pattern "scam" "fake_domains" "evil.example"
          fresh_state = Ok st
        /\ positive_patterns_file (toon_manager.toon st) = Missing
        /\ toon_manager.get_positive_patterns st = Ok d
        /\ toon_manager.view (toon_manager.SCHEMA st) d
           = [("legitimate_keywords", []); ("suspicious_keywords", []);
              ("verified_domains", []); ("fake_domains", [VStr "evil.example"]);
              ("behaviors", [])]).
Proof.
  split; [|split; [reflexivity|]].
  - intros H.
    destruct (H {| scam_patterns_file := Json (VDict []);
                   positive_patterns_file := Json (VDict []) |}
                (VDict []) (VDict []) eq_refl) as [Hs _].
    cbn in Hs. inversion Hs as [|? ? [l Hl] _]. discriminate.
  - eexists. eexists. split; [vm_compute; reflexivity|].
    split; [reflexivity|]. split; vm_compute; reflexivity.
Qed.

(** C5, amended.  On a path it can examine, and while the lists of
    [SCHEMA] are empty, the load of the TOON manager does not raise and
    returns exactly the five schema categories in the order of the schema
    (so every other top-level key is dropped), each one holding the list of
    the document when the file holds a mapping with a list under that key,
    and the empty list in every other case: key missing, value no list,
    document no mapping, file missing or unreadable.  The load of the
    learning agent does not raise on any files, and hands over the two
    documents as the files hold them, or two empty mappings when a file is
    missing, unreadable or out of reach. *)
Theorem load_returns_schema_categories
    (schema : list (string * list value)) (path : file) (fs : files) :
  path <> Denied -> empty_defaults schema ->
  (exists d,
     toon_manager._load_toon path = Ok d
     /\ toon_manager.view schema d
        = map (fun key => (key, spec_category [] path key))
              toon_manager.SCHEMA_keys)
  /\ loaded_documents (toon_learning_agent._load_toon fs)
     = Some (documents_of fs).
Proof.
  intros Hpath Hempty. split; [|apply learner_documents].
  exists (read path). rewrite load_toon_cases. split.
  - destruct path; try reflexivity. contradiction.
  - rewrite view_load_toon. apply map_ext_in. intros key Hin.
    now rewrite (Hempty key Hin).
Qed.

(** A scam file with a list, a value that is no list and a key outside the
    schema; a positive file that cannot be read. *)
Definition sample_scam_file : file :=
  Json (VDict [("fake_domains", VList [VStr "@workfromhome.cash"]);
               ("behaviors", VStr "poor grammar");
               ("version", VInt 2)]).

Lemma load_witness :
  sample_scam_file <> Denied
  /\ empty_defaults toon_manager.SCHEMA_initial
  /\ (exists d,
        toon_manager._load_toon sample_scam_file = Ok d
        /\ toon_manager.view toon_manager.SCHEMA_initial d
           = [("legitimate_keywords", []); ("suspicious_keywords", []);
              ("verified_domains", []);
              ("fake_domains", [VStr "@workfromhome.cash"]);
              ("behaviors", [])])
  /\ loaded_documents
       (toon_learning_agent._load_toon
          {| scam_patterns_file := sample_scam_file;
             positive_patterns_file := Unreadable |})
     = Some (VDict [], VDict []).
Proof.
  assert (Hpath : sample_scam_file <> Denied) by discriminate.
  split; [exact Hpath|]. split; [exact SCHEMA_initial_empty|].
  exact (load_returns_schema_categories toon_manager.SCHEMA_initial
           sample_scam_file
           {| scam_patterns_file := sample_scam_file;
              positive_patterns_file := Unreadable |}
           Hpath SCHEMA_initial_empty).
Defined.

End LoadSpec.

(** ** The knowledge base: applying a proposal *)

Module ApplySpec.

Import Text DataModel toon_files toon_learning_agent.

(** *** Appending the candidates that are not there yet *)

(** The loop of a block of [_apply_update] on the content of a list. *)
Definition append_new (candidates : list string) (l : list value) : list value :=
  fold_left (fun l c => if str_in c l then l else l ++ [VStr c]) candidates l.

Lemma str_in_app (c : string) (l1 l2 : list value) :
  str_in c (l1 ++ l2) = str_in c l1 || str_in c l2.
Proof. unfold str_in. apply existsb_app. Qed.

Lemma str_in_VStr (c c' : string) :
  str_in c [VStr c'] = String.eqb c' c.
Proof. cbn. apply orb_false_r. Qed.

Lemma str_in_map_VStr (c : string) (l : list string) :
  str_in c (map VStr l) = true <-> In c l.
Proof.
  unfold str_in. rewrite existsb_exists. split.
  - intros (x & Hx & Heq). apply in_map_iff in Hx as (s & <- & Hs).
    cbn in Heq. apply String.eqb_eq in Heq. now subst.
  - intros Hin. exists (VStr c). split; [now apply in_map|].
    cbn. apply String.eqb_refl.
Qed.

(** What [append_new] adds: the candidates missing from the list, each
    once, in the order they first come. *)
Fixpoint added (candidates : list string) (l : list value) : list string :=
  match candidates with
  | [] => []
  | c :: cs =>
      if str_in c l then added cs l else c :: added cs (l ++ [VStr c])
  end.

Lemma append_new_added (candidates : list string) (l : list value) :
  append_new candidates l = l ++ map VStr (added candidates l).
Proof.
  revert l. induction candidates as [|c cs IH]; intros l; cbn.
  - now rewrite app_nil_r.
  - fold (append_new cs (if str_in c l then l else l ++ [VStr c])).
    destruct (str_in c l); rewrite IH; [reflexivity|].
    now rewrite <- app_assoc.
Qed.

Lemma added_spec (candidates : list string) (l : list value) (c : string) :
  In c (added candidates l) <-> In c candidates /\ str_in c l = false.
Proof.
  revert l. induction candidates as [|c' cs IH]; intros l; cbn.
  - tauto.
  - destruct (str_in c' l) eqn:E.
    + rewrite IH. split.
      * intros [H1 H2]. auto.
      * intros [[->|H1] H2]; [congruence|auto].
    + cbn. rewrite IH, str_in_app, str_in_VStr, orb_false_iff. split.
      * intros [->|(H1 & H2 & _)]; auto.
      * intros [[->|H1] H2]; [now left|].
        destruct (String.eqb c' c) eqn:E'.
        -- apply String.eqb_eq in E'. now left.
        -- right. auto.
Qed.


Lemma append_new_has (candidates : list string) (l : list value) (c : string) :
  In c candidates -> str_in c (append_new candidates l) = true.
Proof.
  intros Hin. rewrite append_new_added, str_in_app.
  destruct (str_in c l) eqn:E; [reflexivity|].
  cbn. apply str_in_map_VStr, added_spec. auto.
Qed.


(** *** Dictionaries *)

Lemma lookup_store_same (k : string) (v : value) (d : dict) :
  lookup k (store k v d) = Some v.
Proof.
  induction d as [|[k' v'] d IH]; cbn.
  - now rewrite String.eqb_refl.
  - destruct (String.eqb k k') eqn:E; cbn; rewrite E; [reflexivity|exact IH].
Qed.

Lemma lookup_store_other (k k' : string) (v : value) (d : dict) :
  k <> k' -> lookup k (store k' v d) = lookup k d.
Proof.
  intros Hne. apply String.eqb_neq in Hne.
  induction d as [|[k0 v0] d IH]; cbn.
  - now rewrite Hne.
  - destruct (String.eqb k' k0) eqn:E; cbn.
    + apply String.eqb_eq in E. subst k0. now rewrite Hne.
    + destruct (String.eqb k k0); [reflexivity|exact IH].
Qed.


(** *** One block of [_apply_update] *)




(** A block leaves the other keys of the document as they are. *)
Lemma merge_into_frame (key key' : string) (candidates : list string)
    (d d' : list (string * value)) :
  key <> key' ->
  merge_into key' candidates (VDict d) = Ok (VDict d') ->
  lookup key d' = lookup key d.
Proof.
  intros Hne. cbn.
  set (d0 := match lookup key' d with Some _ => d | None => store key' (VList []) d end).
  assert (H0 : lookup key d0 = lookup key d).
  { subst d0. destruct (lookup key' d); [reflexivity|].
    now apply lookup_store_other. }
  destruct (lookup key' d0) as [v|]; [|discriminate].
  destruct v; try discriminate.
  - destruct (forallb _ candidates); [|discriminate]. intros [= <-]. exact H0.
  - intros [= <-]. rewrite lookup_store_other by exact Hne. exact H0.
  - destruct (forallb _ candidates); [|discriminate]. intros [= <-]. exact H0.
Qed.

Lemma merge_into_dict (key : string) (candidates : list string) (doc doc' : value) :
  merge_into key candidates doc = Ok doc' ->
  exists d d', doc = VDict d /\ doc' = VDict d'.
Proof.
  destruct doc as [| | | | | |d]; cbn; try discriminate.
  set (d0 := match lookup key d with Some _ => d | None => store key (VList []) d end).
  destruct (lookup key d0) as [v|]; [|discriminate].
  destruct v; try discriminate.
  - destruct (forallb _ candidates); [|discriminate]. intros [= <-]. eauto.
  - intros [= <-]. eauto.
  - destruct (forallb _ candidates); [|discriminate]. intros [= <-]. eauto.
Qed.

(** A block on typed candidates. *)
Definition block (candidates : list string) (key : string) (doc : value)
  : res value :=
  if nonempty candidates then merge_into key candidates doc else Ok doc.





(** *** [_apply_update] on a typed proposal *)

Lemma str_items_strlist (l : list string) : str_items (strlist l) = Ok l.
Proof.
  unfold str_items, strlist.
  induction l as [|s l IH]; [reflexivity|].
  cbn [map mapM Py.bind]. now rewrite IH.
Qed.

Lemma apply_candidates_block (proposals : value) (name key : string)
    (candidates : list string) (doc : value) :
  get proposals name VNone = Ok (strlist candidates) ->
  apply_candidates proposals name key doc = block candidates key doc.
Proof.
  intros H. unfold apply_candidates, block. rewrite H. cbn [Py.bind].
  rewrite truthy_strlist. destruct (nonempty candidates); [|reflexivity].
  now rewrite str_items_strlist.
Qed.

(** The documents the merge starts from: those of the two files, or two
    empty mappings when a file is missing or unreadable. *)
Definition starting_documents (fs : files) : value * value :=
  match load (scam_patterns_file fs), load (positive_patterns_file fs) with
  | Ok scam, Ok positive => (scam, positive)
  | _, _ => (VDict [], VDict [])
  end.

(** The four blocks, in the order of the source. *)
Definition merge_all (p : LearningProposal) (docs : value * value)
  : res (value * value) :=
  scam <- block (new_scam_keywords p) "suspicious_keywords" (fst docs) ;;
  scam <- block (new_scam_domains p) "fake_domains" scam ;;
  scam <- block (new_scam_behaviors p) "behaviors" scam ;;
  positive <- block (new_safe_domains p) "verified_domains" (snd docs) ;;
  Ok (scam, positive).

Definition skipped : value :=
  VDict [("status", VStr "skipped");
         ("message", VStr "Update does not meet confidence threshold")].

Definition success (p : LearningProposal) : value :=
  VDict [("status", VStr "success");
         ("message", VStr "TOON knowledge base updated");
         ("updates_applied",
          VDict [("scam_keywords", VInt (Z.of_nat (List.length (new_scam_keywords p))));
                 ("scam_domains", VInt (Z.of_nat (List.length (new_scam_domains p))));
                 ("safe_domains", VInt (Z.of_nat (List.length (new_safe_domains p))))])].

Definition failure (e : exc) : value :=
  VDict [("status", VStr "error"); ("message", VStr (message e))].

Definition written (docs : value * value) : files :=
  {| scam_patterns_file := Json (fst docs);
     positive_patterns_file := Json (snd docs) |}.

Lemma starting_documents_written (docs : value * value) :
  starting_documents (written docs) = docs.
Proof. now destruct docs. Qed.

(** Saving the two documents, the scam file first: the answer and the files
    after it.  A file out of reach stops the saving with an error. *)
Definition saved (p : LearningProposal) (docs : value * value) (fs : files)
  : value * files :=
  match dump (fst docs) (scam_patterns_file fs) with
  | Ok scam_file =>
      match dump (snd docs) (positive_patterns_file fs) with
      | Ok positive_file =>
          (success p, {| scam_patterns_file := scam_file;
                         positive_patterns_file := positive_file |})
      | Raise e =>
          (failure e, {| scam_patterns_file := scam_file;
                         positive_patterns_file := positive_patterns_file fs |})
      end
  | Raise e => (failure e, fs)
  end.

Lemma loaded_documents_start (fs : files) :
  (current_data <- item (_load_toon fs) "data" ;;
   scam_patterns <- item current_data "scam_patterns" ;;
   positive_patterns <- item current_data "positive_patterns" ;;
   Ok (scam_patterns, positive_patterns))
  = Ok (starting_documents fs).
Proof.
  rewrite LoadSpec.learner_load. unfold starting_documents.
  destruct (load (scam_patterns_file fs)); [|reflexivity].
  destruct (load (positive_patterns_file fs)); reflexivity.
Qed.

Lemma apply_update_typed (p : LearningProposal) (fs : files) :
  _apply_update (apply_update_payload p) fs
  = if should_apply p then
      match merge_all p (starting_documents fs) with
      | Ok docs => Ok (saved p docs fs)
      | Raise e => Ok (failure e, fs)
      end
    else Ok (skipped, fs).
Proof.
  unfold _apply_update.
  change (get (apply_update_payload p) "proposals" (VDict []))
    with (Ok (py_of_proposal p)).
  cbv beta iota delta [Py.bind].
  change (get (py_of_proposal p) "should_apply" (VBool false))
    with (Ok (VBool (should_apply p))).
  cbv beta iota. cbn [truthy].
  destruct (should_apply p); [|reflexivity]. cbn [negb]. cbv zeta.
  pose proof (loaded_documents_start fs) as Hstart.
  destruct (item (_load_toon fs) "data") as [current_data|e]; [|discriminate].
  cbn [Py.bind] in Hstart |- *.
  destruct (item current_data "scam_patterns") as [scam|e]; [|discriminate].
  cbn [Py.bind] in Hstart |- *.
  destruct (item current_data "positive_patterns") as [positive|e];
    [|discriminate].
  cbn [Py.bind] in Hstart |- *. injection Hstart as <-.
  unfold merge_all. cbn [fst snd].
  rewrite (apply_candidates_block _ _ _ (new_scam_keywords p)) by reflexivity.
  destruct (block (new_scam_keywords p) "suspicious_keywords" scam) as [s1|e];
    [|reflexivity].
  cbn [Py.bind].
  rewrite (apply_candidates_block _ _ _ (new_scam_domains p)) by reflexivity.
  destruct (block (new_scam_domains p) "fake_domains" s1) as [s2|e];
    [|reflexivity].
  cbn [Py.bind].
  rewrite (apply_candidates_block _ _ _ (new_scam_behaviors p)) by reflexivity.
  destruct (block (new_scam_behaviors p) "behaviors" s2) as [s3|e];
    [|reflexivity].
  cbn [Py.bind].
  rewrite (apply_candidates_block _ _ _ (new_safe_domains p)) by reflexivity.
  destruct (block (new_safe_domains p) "verified_domains" positive) as [q1|e];
    [|reflexivity].
  cbn [Py.bind]. unfold saved. cbn [fst snd].
  destruct (dump s3 (scam_patterns_file fs)) as [scam_file|e]; [|reflexivity].
  cbn [positive_patterns_file].
  destruct (dump q1 (positive_patterns_file fs)) as [positive_file|e];
    [|reflexivity].
  change (get (py_of_proposal p) "new_scam_keywords" (VList []))
    with (Ok (strlist (new_scam_keywords p))).
  change (get (py_of_proposal p) "new_scam_domains" (VList []))
    with (Ok (strlist (new_scam_domains p))).
  change (get (py_of_proposal p) "new_safe_domains" (VList []))
    with (Ok (strlist (new_safe_domains p))).
  cbn [Py.bind]. rewrite !len_strlist. reflexivity.
Qed.


(** *** Duplicate suppression on well-formed documents *)


(** The list a document holds under a key; no list reads as the empty one. *)
Definition category (key : string) (doc : value) : list value :=
  match doc with
  | VDict d => match lookup key d with Some (VList l) => l | _ => [] end
  | _ => []
  end.





(** *** A second application *)

Lemma dump_reachable (doc : value) (f : file) :
  dump doc f
  = if LoadSpec.reachable f then Ok (Json doc) else Raise PermissionError.
Proof. now destruct f. Qed.

Lemma saved_cases (p : LearningProposal) (docs : value * value) (fs : files) :
  saved p docs fs
  = if LoadSpec.reachable (scam_patterns_file fs) then
      if LoadSpec.reachable (positive_patterns_file fs)
      then (success p, written docs)
      else (failure PermissionError,
            {| scam_patterns_file := Json (fst docs);
               positive_patterns_file := positive_patterns_file fs |})
    else (failure PermissionError, fs).
Proof.
  unfold saved. rewrite !dump_reachable.
  destruct (LoadSpec.reachable (scam_patterns_file fs)); [|reflexivity].
  now destruct (LoadSpec.reachable (positive_patterns_file fs)).
Qed.


(** *** The claim as it is stated *)

(** The document of a file; a file that holds none reads as the empty
    mapping. *)
Definition document (f : file) : value :=
  match f with
  | Json doc => doc
  | _ => VDict []
  end.

(** The candidate stands in some category of the knowledge base. *)
Definition known (c : string) (fs : files) : Prop :=
  exists key,
    str_in c (category key (document (scam_patterns_file fs))) = true
    \/ str_in c (category key (document (positive_patterns_file fs))) = true.

(** Every candidate of the proposal. *)
Definition candidates (p : LearningProposal) : list string :=
  new_scam_keywords p ++ new_scam_domains p ++ new_scam_behaviors p
  ++ new_safe_keywords p ++ new_safe_domains p.







(** A proposal that brings one new keyword, one known keyword and one
    keyword twice, on files that hold a scam document with a keyword list
    and an empty positive document. *)
Definition sample_proposal (apply : bool) : LearningProposal :=
  {| new_scam_keywords := ["act fast"; "laptop fee"; "laptop fee"];
     new_scam_domains := []; new_scam_behaviors := ["pressure to act fast"];
     new_safe_keywords := []; new_safe_domains := [];
     confidence := 1%float; should_apply := apply |}.

Definition sample_files : files :=
  written (VDict [("suspicious_keywords", strlist ["act fast"])], VDict []).


(** What the files hold after the sample proposal was applied. *)
Example apply_update_sample :
  _apply_update (apply_update_payload (sample_proposal true)) sample_files
  = Ok (success (sample_proposal true),
        written (VDict [("suspicious_keywords",
                         strlist ["act fast"; "laptop fee"]);
                        ("behaviors", strlist ["pressure to act fast"])],
                 VDict [])).
Proof. vm_compute. reflexivity. Qed.

End ApplySpec.

(** ** The knowledge base: proposing an update *)

Module ProposeSpec.

Import DataModel toon_files toon_learning_agent.

Set Warnings "-inexact-float".

(** *** Evidence *)

(** [_has_sufficient_evidence] looks at four of the five candidate lists:
    [new_scam_behaviors] is not among them. *)
Lemma has_sufficient_evidence_typed (p : LearningProposal) :
  match py_of_proposal p with
  | VDict proposals => _has_sufficient_evidence proposals
  | _ => Raise TypeError
  end
  = Ok (nonempty (new_scam_keywords p) || nonempty (new_scam_domains p)
        || nonempty (new_safe_keywords p) || nonempty (new_safe_domains p)).
Proof.
  unfold py_of_proposal, _has_sufficient_evidence.
  cbn [get lookup String.eqb Ascii.eqb Bool.eqb Py.bind].
  rewrite !len_strlist. cbn [Py.bind].
  now destruct (new_scam_keywords p), (new_scam_domains p),
    (new_safe_keywords p), (new_safe_domains p).
Qed.

(** *** Confidence *)

(** The confidence, as the specification words it. *)
Definition spec_confidence (presence : string) (found : bool) (sources : Z)
    (trust : string) : float :=
  let presence_term :=
    if String.eqb presence "strong" then 0.3%float
    else if String.eqb presence "moderate" then 0.15%float
    else 0%float in
  let reports_term := if found then 0.4%float else 0%float in
  let sources_term := min (float_of_len sources * 0.05) 0.2%float in
  let trust_term :=
    if String.eqb trust "high_trust" then 0.2%float
    else if String.eqb trust "high_risk" then 0.3%float
    else 0%float in
  min (presence_term + reports_term + sources_term + trust_term)%float 1%float.

(** The sum [_calculate_confidence] forms, which leaves out an addition
    where the specification adds zero. *)
Definition code_confidence (presence : string) (found : bool) (sources : Z)
    (trust : string) : float :=
  let score := 0%float in
  let score :=
    if String.eqb presence "strong" then (score + 0.3)%float
    else if String.eqb presence "moderate" then (score + 0.15)%float
    else score in
  let score := if found then (score + 0.4)%float else score in
  let score := (score + min (float_of_len sources * 0.05) 0.2)%float in
  let score :=
    if String.eqb trust "high_trust" then (score + 0.2)%float
    else if String.eqb trust "high_risk" then (score + 0.3)%float
    else score in
  min score 1%float.

Lemma calculate_confidence_typed (proposals : dict) (r : ReputationResult) :
  _calculate_confidence proposals (py_of_reputation r)
  = Ok (code_confidence (r_online_presence r) (r_scam_found r)
          (Z.of_nat (List.length (r_sources r))) (r_trust_assessment r)).
Proof.
  unfold _calculate_confidence, py_of_reputation, py_of_company_verification,
    py_of_scam_reports.
  cbn [get lookup String.eqb Ascii.eqb Bool.eqb Py.bind eq_str truthy].
  rewrite len_strlist. reflexivity.
Qed.

(** Up to five sources, which is what [_verify_company] keeps, the two sums
    are the same number, and it lies between 0 and 1. *)
Lemma confidence_up_to_five_sources (presence trust : string) (found : bool)
    (sources : nat) :
  (sources <= 5)%nat ->
  code_confidence presence found (Z.of_nat sources) trust
  = spec_confidence presence found (Z.of_nat sources) trust
  /\ PrimFloat.leb 0 (code_confidence presence found (Z.of_nat sources) trust)
     = true
  /\ PrimFloat.leb (code_confidence presence found (Z.of_nat sources) trust) 1
     = true.
Proof.
  intros Hn. unfold code_confidence, spec_confidence.
  destruct (String.eqb presence "strong"), (String.eqb presence "moderate"),
    (String.eqb trust "high_trust"), (String.eqb trust "high_risk"), found;
    do 6 (destruct sources as [|sources]; [vm_compute; auto|]);
    exfalso; lia.
Qed.

(** *** Two analyses *)

Definition no_files : files :=
  {| scam_patterns_file := Missing; positive_patterns_file := Missing |}.

(** A posting with no red flag, and the behaviors the extraction agent
    detects in it, about a company with a strong presence and scam reports;
    [_assess_trust] rates it high_risk. *)
Definition hurried_extraction : ExtractionResult :=
  {| x_company_name := "Acme"; x_emails := []; x_domains := []; x_phones := [];
     x_urls := []; x_salary := NotMentioned; x_fees := []; x_whatsapp := [];
     x_telegram := []; x_red_flags := [];
     x_behaviors := ["no interview mentioned"; "pressure to act fast";
                     "vague job description"];
     x_raw_text := "Acme is hiring, hurry" |}.

Definition reported_research : ReputationResult :=
  {| r_found := true; r_online_presence := "strong";
     r_sources := ["https://www.acme.com"]; r_description := "";
     r_emails_found := 0; r_domain_matches := []; r_suspicious_domains := [];
     r_personal_emails := []; r_professional_emails := [];
     r_realistic := "unknown"; r_monthly_equivalent := None;
     r_assessment := "No salary information provided"; r_market_range := None;
     r_scam_found := true; r_scam_sources := ["https://forum.example/acme"];
     r_scam_summary := "Found 1 potential scam reports";
     r_total_domains := 0; r_trusted := []; r_suspicious := []; r_unknown := [];
     r_trust_assessment := "high_risk"; r_summary := "" |}.

(** C4, at an analysis whose only candidates are behaviors: the confidence
    is 1.0, at least the threshold 0.7, and the candidate list
    [new_scam_behaviors] is not empty, yet [should_apply] is false, because
    [_has_sufficient_evidence] does not look at [new_scam_behaviors].  The
    red flags and behaviors of the extraction are those the extraction agent
    finds in its text. *)
Theorem propose_update_overlooks_new_behaviors :
  _propose_update no_files
    (propose_update_payload (py_of_extraction hurried_extraction)
       (py_of_reputation reported_research))
  = Ok (VDict [("status", VStr "success");
               ("data",
                py_of_proposal
                  {| new_scam_keywords := []; new_scam_domains := [];
                     new_scam_behaviors :=
                       ["no interview mentioned"; "pressure to act fast";
                        "vague job description"];
                     new_safe_keywords := []; new_safe_domains := [];
                     confidence := 1%float; should_apply := false |})])
  /\ PrimFloat.leb CONFIDENCE_THRESHOLD 1%float = true
  /\ research_agent._assess_trust (py_of_reputation reported_research)
     = Ok "high_risk"
  /\ extraction_agent._detect_red_flags (x_raw_text hurried_extraction)
     = x_red_flags hurried_extraction
  /\ extraction_agent._detect_behaviors (x_raw_text hurried_extraction)
     = x_behaviors hurried_extraction.
Proof. repeat split; vm_compute; reflexivity. Qed.

(** The scenario of the specification: a moderate presence (0.15), scam
    reports (0.4) and two sources (0.1) give the confidence 0.65; the
    proposal has a new scam keyword and [should_apply] is false. *)
Definition polite_extraction : ExtractionResult :=
  {| x_company_name := "Acme"; x_emails := ["hr@acme.com"];
     x_domains := ["acme.com"; "google.com"]; x_phones := []; x_urls := [];
     x_salary := NotMentioned; x_fees := []; x_whatsapp := [];
     x_telegram := []; x_red_flags := ["kindly"];
     x_behaviors := ["no interview mentioned"; "unprofessional language";
                     "vague job description"];
     x_raw_text := "Acme is hiring, kindly mail hr@acme.com" |}.

Definition mixed_research : ReputationResult :=
  {| r_found := true; r_online_presence := "moderate";
     r_sources := ["https://www.acme.com"; "https://acme.example"];
     r_description := "";
     r_emails_found := 1; r_domain_matches := ["hr@acme.com"];
     r_suspicious_domains := []; r_personal_emails := [];
     r_professional_emails := ["hr@acme.com"];
     r_realistic := "unknown"; r_monthly_equivalent := None;
     r_assessment := "No salary information provided"; r_market_range := None;
     r_scam_found := true; r_scam_sources := ["https://forum.example/acme"];
     r_scam_summary := "Found 1 potential scam reports";
     r_total_domains := 2; r_trusted := ["google.com"]; r_suspicious := [];
     r_unknown := ["acme.com"];
     r_trust_assessment := "moderate_trust"; r_summary := "" |}.

Example propose_update_below_threshold :
  _propose_update no_files
    (propose_update_payload (py_of_extraction polite_extraction)
       (py_of_reputation mixed_research))
  = Ok (VDict [("status", VStr "success");
               ("data",
                py_of_proposal
                  {| new_scam_keywords := ["kindly"]; new_scam_domains := [];
                     new_scam_behaviors :=
                       ["no interview mentioned"; "unprofessional language";
                        "vague job description"];
                     new_safe_keywords := []; new_safe_domains := [];
                     confidence := 0.65%float; should_apply := false |})])
  /\ PrimFloat.ltb 0.65%float CONFIDENCE_THRESHOLD = true.
Proof. split; vm_compute; reflexivity. Qed.

End ProposeSpec.

(** ** The salary checker and the salary risk of the decision *)

Module SalarySpec.

Import Text re RegexFacts TextFacts DataModel salary_tool interview_tool.

(** *** The amounts the pattern of [extract_salary] takes *)

(** What stands in group 1 of [salary_regex]: two to six digits, then maybe
    a comma or a point and three digits more. *)
Definition amount_shape (w : list ascii) : Prop :=
  exists ds tail,
    w = ds ++ tail
    /\ all_digits ds
    /\ (2 <= List.length ds <= 6)%nat
    /\ (tail = []
        \/ exists sep ds',
             tail = sep :: ds'
             /\ (sep = ","%char \/ sep = "."%char)
             /\ all_digits ds'
             /\ List.length ds' = 3%nat).

Lemma lang_grouping (t : list ascii) :
  lang (opt (Seq (alts [chr ","; chr "."]) (rep 3 digit))) t ->
  t = []
  \/ exists sep ds',
       t = sep :: ds'
       /\ (sep = ","%char \/ sep = "."%char)
       /\ all_digits ds'
       /\ List.length ds' = 3%nat.
Proof.
  cbv [opt alts chr rep digit]. intros L.
  lang_inv; [right|right|now left];
    match goal with
    | H : Ascii.eqb _ _ = true |- _ => apply Ascii.eqb_eq in H; subst
    end;
    (eexists _, [_; _; _]; cbn; repeat split; auto;
     repeat constructor; assumption).
Qed.

Lemma lang_two_to_six_digits (w : list ascii) :
  lang (rep_range 2 4 digit) w ->
  all_digits w /\ (2 <= List.length w <= 6)%nat.
Proof.
  cbv [rep_range rep upto opt digit]. intros L.
  lang_inv; cbn; (split; [repeat constructor; assumption|lia]).
Qed.

Lemma salary_regex_amount (body : regex) (w : list ascii) :
  In (1%nat, body) (groups (compiled salary_regex)) ->
  lang body w -> amount_shape w.
Proof.
  intros Hin L.
  cbv [salary_regex compiled groups seqs fold_right app] in Hin.
  destruct Hin as [[= <-]|[[=]|[]]].
  inversion L as [| |r1 r2 w1 w2 L1 L2| | | | |]; subst; clear L.
  inversion L2 as [| |r1 r2 w3 w4 L3 L4| | | | |]; subst; clear L2.
  inversion L4; subst; clear L4. rewrite app_nil_r.
  apply lang_grouping in L3. apply lang_two_to_six_digits in L1 as [? ?].
  exists w1, w3. repeat split; assumption || lia.
Qed.

(** [int] reads the amount, commas dropped, up to its point: it has nine
    digits at most. *)
Lemma int_of_amount (w : list ascii) :
  amount_shape w ->
  exists v,
    int_of_str (before "." (remove "," (string_of_list_ascii w))) = Ok v.
Proof.
  pose proof (filter_digits ","%char) as Hcomma.
  pose proof (before_digits "."%char) as Hpoint.
  specialize (Hcomma eq_refl). specialize (Hpoint eq_refl).
  intros (ds & tail & -> & Hds & Hlen & Htail).
  assert (Hne : ds <> []) by (destruct ds; [cbn in Hlen; lia|discriminate]).
  rewrite remove_list, filter_app, (Hcomma ds Hds).
  destruct Htail as [->|(sep & ds' & -> & [->| ->] & Hds' & Hlen')].
  - cbn [filter]. rewrite app_nil_r, (Hpoint ds Hds).
    apply int_of_digits; [assumption|assumption|].
    unfold int_max_str_digits. lia.
  - cbn [filter]. change (negb (Ascii.eqb "," ",")) with false. cbn iota.
    rewrite (Hcomma ds' Hds').
    assert (Hall : all_digits (ds ++ ds')) by (apply Forall_app; now split).
    rewrite (Hpoint _ Hall).
    apply int_of_digits; [assumption| |].
    + destruct ds; [congruence|discriminate].
    + rewrite length_app. unfold int_max_str_digits. lia.
  - cbn [filter]. change (negb (Ascii.eqb "," ".")) with true. cbn iota.
    rewrite (Hcomma ds' Hds').
    rewrite (before_digits_then "."%char _ _ eq_refl Hds).
    apply int_of_digits; [assumption|assumption|].
    unfold int_max_str_digits. lia.
Qed.

(** *** [extract_salary] answers on every text *)

Definition not_found : value := VDict [("found", VBool false)].
Definition found (v : Z) : value :=
  VDict [("found", VBool true); ("value", VInt v)].

Lemma extract_salary_total (text : string) :
  extract_salary text = Ok not_found
  \/ exists v, extract_salary text = Ok (found v).
Proof.
  unfold extract_salary. cbv zeta.
  destruct (finditer (compiled salary_regex) text) as [|m0 ms] eqn:E;
    [now left|right].
  assert (Hm : In m0 (finditer (compiled salary_regex) text))
    by (rewrite E; now left).
  destruct (finditer_group _ text m0 1 Hm eq_refl) as (body & Hin & L).
  apply (salary_regex_amount body) in L; [|assumption].
  apply int_of_amount in L as [v Hv].
  rewrite string_of_list_ascii_of_string in Hv. rewrite Hv. cbn [bind].
  eexists. reflexivity.
Qed.

(** The amount [extract_salary] parsed, when it found one. *)
Definition parsed_amount (text : string) : option Z :=
  match extract_salary text with
  | Ok (VDict [("found", VBool true); ("value", VInt v)]) => Some v
  | _ => None
  end.

(** *** The checker's classification *)

(** The [risk] entry of an assessment or of an interview analysis; the
    empty string when there is none. *)
Definition risk_of (d : value) : string :=
  match d with
  | VDict d => match lookup "risk" d with Some (VStr r) => r | _ => "" end
  | _ => ""
  end.

(** The classification as the rule words it. *)
Definition classification (amount : Z) : string :=
  if (amount <? 300)%Z || (200000 <? amount)%Z then "HIGH"
  else if (amount <? 1000)%Z then "MEDIUM"
  else "SAFE".

Lemma assess_salary_classification (amount : Z) :
  exists reasons,
    assess_salary amount
    = VDict [("risk", VStr (classification amount));
             ("reasons", strlist reasons)].
Proof.
  unfold assess_salary, classification. cbv zeta.
  destruct (amount <? 300)%Z eqn:E1; [eexists; reflexivity|].
  destruct (amount <? 1000)%Z eqn:E2.
  - assert ((200000 <? amount)%Z = false) as -> by lia. eexists; reflexivity.
  - destruct (200000 <? amount)%Z; eexists; reflexivity.
Qed.

Lemma classification_cases (amount : Z) :
  (classification amount = "HIGH" <-> (amount < 300 \/ 200000 < amount)%Z)
  /\ (classification amount = "MEDIUM" <-> (300 <= amount < 1000)%Z)
  /\ (classification amount = "SAFE" <-> (1000 <= amount <= 200000)%Z).
Proof.
  unfold classification.
  destruct (amount <? 300)%Z eqn:E1, (200000 <? amount)%Z eqn:E2,
           (amount <? 1000)%Z eqn:E3; cbn [orb];
    repeat split; intros; try discriminate; try reflexivity; lia.
Qed.

(** *** The interview analysis *)

Lemma analyze_interview_shape (text : string) :
  exists matches risk,
    analyze_interview text
    = VDict [("matches", strlist matches); ("risk", VStr risk)]
    /\ In risk ["SAFE"; "MEDIUM"; "HIGH"].
Proof.
  unfold analyze_interview. cbv zeta.
  destruct (map source _) as [|m ms].
  - eexists _, _. split; [reflexivity|]. cbn. tauto.
  - destruct (existsb _ _); eexists _, _; (split; [reflexivity|]); cbn; tauto.
Qed.

(** *** The combined risk *)

(** The worse of the interview's risk and the salary's: what
    [SalaryInterviewAgent.handle] calls the combined risk. *)
Definition is_risk (level : string) (risk : option string) : bool :=
  match risk with
  | Some r => String.eqb r level
  | None => false
  end.

Definition combined (interview_risk : string) (salary_risk : option string)
  : string :=
  if String.eqb interview_risk "HIGH" || is_risk "HIGH" salary_risk
  then "HIGH"
  else if String.eqb interview_risk "MEDIUM" || is_risk "MEDIUM" salary_risk
  then "MEDIUM"
  else "SAFE".

(** The request [run_full_analysis] sends to the salary agent. *)
Definition salary_request (clean_text : string) : value :=
  VDict [("clean_text", VStr clean_text)].

(** The salary agent answers on every text, and its combined risk is the
    worse of the interview's risk and the classification of the amount. *)
Lemma salary_handle_combined (clean_text : string) :
  exists s,
    salary_agent.handle (salary_request clean_text)
    = Ok (VDict [("status", VStr "ok"); ("data", py_of_salary_result s)])
    /\ s_interview_analysis s = analyze_interview clean_text
    /\ risk_of (s_salary_assessment s)
       = match parsed_amount clean_text with
         | Some amount => classification amount
         | None => ""
         end
    /\ s_combined_risk s
       = combined (risk_of (analyze_interview clean_text))
                  (option_map classification (parsed_amount clean_text)).
Proof.
  destruct (analyze_interview_shape clean_text) as (ms & ir & Hi & _).
  unfold salary_agent.handle, salary_request, parsed_amount.
  change (get (VDict [("clean_text", VStr clean_text)]) "clean_text" (VStr ""))
    with (Ok (VStr clean_text)).
  cbn [bind].
  destruct (extract_salary_total clean_text) as [E|[v E]]; rewrite E, Hi.
  - eexists {| s_salary_assessment := _; s_interview_analysis := _;
               s_combined_risk := _ |}.
    cbn. repeat split; reflexivity.
  - destruct (assess_salary_classification v) as [reasons Ha].
    cbn. rewrite Ha.
    eexists {| s_salary_assessment := _; s_interview_analysis := _;
               s_combined_risk := _ |}.
    cbn. repeat split; reflexivity.
Qed.

(** *** What the decision agent adds for the salary *)

Import DecisionSpec.

Definition salary_points (risk : string) : Z :=
  if String.eqb risk "HIGH" then 4
  else if String.eqb risk "MEDIUM" then 2
  else 0.

Lemma spec_risk_salary
    (extraction : stage ExtractionResult) (research : stage ReputationResult)
    (pattern_out : stage PatternMatchResult) (s : SalaryResult) :
  spec_risk (signals_of extraction research pattern_out (Data s))
  = (spec_risk (signals_of extraction research pattern_out Absent)
     + salary_points (s_combined_risk s))%Z.
Proof. unfold spec_risk, signals_of, salary_points. cbn. lia. Qed.

(** The text of the example: a plausible stipend, and a contact over
    WhatsApp. *)
Definition whatsapp_offer : string :=
  "Stipend 50000 per month. Contact HR on WhatsApp.".

Definition whatsapp_salary_out : SalaryResult := {|
  s_salary_assessment :=
    VDict [("salary", found 50000); ("risk", VStr "SAFE");
           ("reasons", VList [])];
  s_interview_analysis :=
    VDict [("matches", strlist ["whatsapp"]); ("risk", VStr "MEDIUM")];
  s_combined_risk := "MEDIUM"
|}.

(** C8 as stated fails: the salary risk the decision agent scores is not the
    classification of the amount alone.  On [whatsapp_offer] the amount is
    50000, which the checker classifies SAFE, yet the decision agent adds 2:
    the interview analysis found "whatsapp", so the combined risk is
    MEDIUM. *)
Lemma decision_salary_risk_not_classification_alone :
  ~ (forall clean_text amount s d,
       parsed_amount clean_text = Some amount ->
       salary_agent.handle (salary_request clean_text)
       = Ok (VDict [("status", VStr "ok"); ("data", py_of_salary_result s)]) ->
       decision_agent.handle
         (decision_payload clean_text Absent Absent Absent (Data s) (VDict []))
       = Ok d ->
       decision_agent.internal_risk_score d
       = salary_points (classification amount)).
Proof.
  intros H.
  assert (Hamount : parsed_amount whatsapp_offer = Some 50000%Z)
    by (vm_compute; reflexivity).
  assert (Hs : salary_agent.handle (salary_request whatsapp_offer)
               = Ok (VDict [("status", VStr "ok");
                            ("data", py_of_salary_result whatsapp_salary_out)]))
    by (vm_compute; reflexivity).
  destruct (handle_typed_payload whatsapp_offer Absent Absent Absent
              (Data whatsapp_salary_out) (VDict []))
    as (d & Hd & Hscore & _).
  specialize (H _ _ _ d Hamount Hs Hd).
  rewrite Hscore in H. vm_compute in H. discriminate.
Qed.

(** C8, amended.  The salary checker classifies an amount HIGH exactly when
    it is below 300 or above 200000, MEDIUM exactly from 300 up to 1000
    (excluded), SAFE exactly from 1000 to 200000.  On every text the salary
    agent answers; its combined risk is HIGH when the interview analysis or
    the classification of the parsed amount is HIGH, else MEDIUM when one of
    them is MEDIUM, else SAFE; and it is for this combined risk that the
    decision agent adds 4 (HIGH) or 2 (MEDIUM) to the risk score, whatever
    the other stages report. *)
Theorem decision_adds_for_combined_risk
    (clean_text : string) (extraction : stage ExtractionResult)
    (research : stage ReputationResult) (pattern_out : stage PatternMatchResult)
    (toon_proposal : value) :
  (forall amount,
      let risk := risk_of (assess_salary amount) in
      (risk = "HIGH" <-> (amount < 300 \/ 200000 < amount)%Z)
      /\ (risk = "MEDIUM" <-> (300 <= amount < 1000)%Z)
      /\ (risk = "SAFE" <-> (1000 <= amount <= 200000)%Z))
  /\ exists s d,
       salary_agent.handle (salary_request clean_text)
       = Ok (VDict [("status", VStr "ok"); ("data", py_of_salary_result s)])
       /\ risk_of (s_salary_assessment s)
          = match parsed_amount clean_text with
            | Some amount => risk_of (assess_salary amount)
            | None => ""
            end
       /\ s_combined_risk s
          = combined (risk_of (s_interview_analysis s))
                     (option_map (fun amount => risk_of (assess_salary amount))
                                 (parsed_amount clean_text))
       /\ decision_agent.handle
            (decision_payload clean_text extraction research pattern_out
               (Data s) toon_proposal)
          = Ok d
       /\ decision_agent.internal_risk_score d
          = (spec_risk (signals_of extraction research pattern_out Absent)
             + salary_points (s_combined_risk s))%Z.
Proof.
  assert (Hrisk : forall amount,
             risk_of (assess_salary amount) = classification amount).
  { intros amount.
    destruct (assess_salary_classification amount) as [reasons ->].
    reflexivity. }
  split.
  - intros amount risk. subst risk. rewrite Hrisk.
    apply classification_cases.
  - destruct (salary_handle_combined clean_text)
      as (s & Hs & Hinterview & Hassessment & Hcombined).
    destruct (handle_typed_payload clean_text extraction research pattern_out
                (Data s) toon_proposal) as (d & Hd & Hscore & _).
    exists s, d. split; [exact Hs|].
    split.
    { rewrite Hassessment. destruct (parsed_amount clean_text); [|reflexivity].
      now rewrite Hrisk. }
    split.
    { rewrite Hcombined, Hinterview.
      destruct (parsed_amount clean_text); cbn [option_map]; [|reflexivity].
      now rewrite Hrisk. }
    split; [exact Hd|].
    rewrite Hscore. apply spec_risk_salary.
Qed.

End SalarySpec.

(* ===================================================================== *)
(** * Part III.  Further properties                                       *)
(* ===================================================================== *)

(** ** Regular expressions: what a search finds *)

Module RegexComplete.

Import Text re RegexFacts.

(** The loop of a repetition finds a way whenever the words of some rounds,
    followed by a text the continuation accepts, lie ahead and the fuel is
    enough for a round per character. *)
Lemma star_complete (r : regex)
    (IH : forall w, lang r w ->
          forall s' pos c k,
            (forall c', k s' (pos + List.length w)%nat c' <> None) ->
            run r (w ++ s') pos c k <> None) :
  forall r0 w, lang r0 w -> r0 = Star r ->
  forall fuel s' pos c k,
    (List.length w <= fuel)%nat ->
    (forall c', k s' (pos + List.length w)%nat c' <> None) ->
    star (run r) k fuel (w ++ s') pos c <> None.
Proof.
  induction 1 as [| | | | |r1|r1 w1 w2 L1 _ L2 IH2|]; intros Heq; try discriminate;
    injection Heq as ->; intros fuel s' pos c k Hfuel Hk.
  - cbn [app List.length] in *. rewrite Nat.add_0_r in Hk.
    destruct fuel; cbn [star]; [apply Hk|].
    destruct (run r s' pos c _); [discriminate|apply Hk].
  - destruct w1 as [|a w1]; [now apply IH2|].
    destruct fuel as [|fuel]; [cbn in Hfuel; lia|].
    cbn [star]. rewrite <- app_assoc.
    match goal with
    | |- match ?body with _ => _ end <> None =>
        assert (Hbody : body <> None); [|destruct body; [discriminate|congruence]]
    end.
    apply (IH _ L1). intros c'.
    assert (Hlt : (pos <? pos + List.length (a :: w1))%nat = true)
      by (apply Nat.ltb_lt; cbn; lia).
    rewrite Hlt. apply (IH2 eq_refl).
    + rewrite length_app in Hfuel. cbn in Hfuel. lia.
    + intros c''. rewrite <- Nat.add_assoc, <- length_app. apply Hk.
Qed.

(** [run] is complete: when a word of the pattern lies ahead, followed by a
    text the continuation accepts whatever the groups on record, [run] finds
    a match (the first in its order, maybe another one). *)
Lemma run_complete (r : regex) :
  forall w, lang r w ->
  forall s' pos c k,
    (forall c', k s' (pos + List.length w)%nat c' <> None) ->
    run r (w ++ s') pos c k <> None.
Proof.
  induction r as [|p|r1 IH1 r2 IH2|r1 IH1 r2 IH2|r IH|i r IH];
    intros w L s' pos c k Hk; cbn [run].
  - inversion L; subst. cbn in *. rewrite Nat.add_0_r in Hk. apply Hk.
  - inversion L as [|p' a Hp| | | | | |]; subst. cbn [app]. rewrite Hp.
    cbn in Hk. rewrite Nat.add_1_r in Hk. apply Hk.
  - inversion L as [| |r1' r2' w1 w2 L1 L2| | | | |]; subst.
    rewrite <- app_assoc. apply (IH1 _ L1). intros c'.
    apply (IH2 _ L2). intros c''.
    rewrite <- Nat.add_assoc, <- length_app. apply Hk.
  - inversion L as [| | |r1' r2' w' L1|r1' r2' w' L2| | |]; subst.
    + specialize (IH1 _ L1 s' pos c k Hk).
      destruct (run r1 (w ++ s') pos c k); [discriminate|congruence].
    + destruct (run r1 (w ++ s') pos c k); [discriminate|].
      now apply (IH2 _ L2).
  - apply (star_complete r IH (Star r) w L eq_refl); [|exact Hk].
    rewrite length_app. lia.
  - inversion L as [| | | | | | |i' r' w' L']; subst.
    apply (IH _ L'). intros c'. apply Hk.
Qed.

End RegexComplete.

Module RegexOccurs.

Import Text re RegexFacts RegexComplete.

(** A word of the pattern stands somewhere in the text. *)
Definition occurs (r : regex) (text : list ascii) : Prop :=
  exists before w rest, text = before ++ w ++ rest /\ lang r w.

Lemma skipn_length_app {A : Type} (l1 l2 : list A) :
  skipn (List.length l1) (l1 ++ l2) = l2.
Proof.
  rewrite skipn_app, skipn_all, Nat.sub_diag. reflexivity.
Qed.

Section Text.

Variable text : list ascii.

(** A match at a position is a word of the pattern there, and the other way
    round. *)
Lemma match_at_iff (r : regex) (pos : nat) :
  (pos <= List.length text)%nat ->
  match_at r (skipn pos text) pos <> None
  <-> exists w rest, skipn pos text = w ++ rest /\ lang r w.
Proof.
  intros Hpos. split.
  - destruct (match_at r (skipn pos text) pos) as [[e c]|] eqn:E; [|congruence].
    intros _. unfold match_at in E.
    destruct (run_sound text (groups r) r (incl_refl _) _ _ _ _ _ E Hpos eq_refl)
      as (w & s' & c' & Hw & L & _); [intros ? ? ? []|].
    now exists w, s'.
  - intros (w & rest & Hw & L). unfold match_at. rewrite Hw.
    apply (run_complete r w L). discriminate.
Qed.

Lemma search_from_iff (r : regex) :
  forall s pos,
    s = skipn pos text -> (pos <= List.length text)%nat ->
    search_from r s pos = true
    <-> exists n, (pos <= n <= List.length text)%nat
                  /\ match_at r (skipn n text) n <> None.
Proof.
  induction s as [|a s IH]; intros pos Hs Hpos; cbn [search_from].
  - destruct (match_at r [] pos) as [o|] eqn:E.
    + split; [intros _|reflexivity]. exists pos. rewrite <- Hs, E.
      split; [lia|discriminate].
    + split; [discriminate|]. intros (n & Hn & Hm). exfalso.
      assert (n = pos); [|subst n; rewrite <- Hs in Hm; congruence].
      assert (Hlen : List.length (skipn pos text) = 0%nat) by now rewrite <- Hs.
      rewrite length_skipn in Hlen. lia.
  - destruct (skipn_cons text pos a s (eq_sym Hs)) as [Hs' Hpos'].
    destruct (match_at r (a :: s) pos) as [o|] eqn:E.
    + split; [intros _|reflexivity]. exists pos. rewrite <- Hs, E.
      split; [lia|discriminate].
    + rewrite (IH (S pos) (eq_sym Hs') Hpos'). split.
      * intros (n & Hn & Hm). exists n. split; [lia|exact Hm].
      * intros (n & Hn & Hm). exists n. split; [|exact Hm].
        destruct (Nat.eq_dec n pos) as [->|]; [|lia].
        rewrite <- Hs in Hm. congruence.
Qed.

Lemma scan_nil_iff (r : regex) :
  forall s pos, scan r s pos 0 = [] <-> search_from r s pos = false.
Proof.
  induction s as [|a s IH]; intros pos; cbn [scan search_from].
  - destruct (match_at r [] pos) as [[e c]|]; split; congruence.
  - destruct (match_at r (a :: s) pos) as [[e c]|]; [split; congruence|].
    apply IH.
Qed.

End Text.

(** [re.search] succeeds exactly when a word of the pattern stands in the
    text. *)
Lemma search_occurs (r : regex) (text : string) :
  search r text = true <-> occurs r (list_ascii_of_string text).
Proof.
  unfold search, occurs.
  rewrite (search_from_iff (list_ascii_of_string text) r _ 0 eq_refl (Nat.le_0_l _)).
  split.
  - intros (n & Hn & Hm).
    apply match_at_iff in Hm; [|lia]. destruct Hm as (w & rest & Hw & L).
    exists (firstn n (list_ascii_of_string text)), w, rest.
    split; [|exact L]. now rewrite <- Hw, firstn_skipn.
  - intros (before & w & rest & Ht & L).
    exists (List.length before). split.
    + rewrite Ht, length_app. lia.
    + apply match_at_iff; [rewrite Ht, length_app; lia|].
      exists w, rest. split; [|exact L]. rewrite Ht. apply skipn_length_app.
Qed.

(** [finditer] lists a match exactly when [re.search] succeeds. *)
Lemma finditer_nil_iff (r : regex) (text : string) :
  finditer r text = [] <-> search r text = false.
Proof. apply scan_nil_iff. Qed.

Lemma finditer_occurs (r : regex) (text : string) :
  finditer r text <> [] <-> occurs r (list_ascii_of_string text).
Proof.
  rewrite <- search_occurs, finditer_nil_iff.
  destruct (search r text); split; congruence.
Qed.

End RegexOccurs.

(** ** Substrings *)

Module ContainsFacts.

Import Text re RegexFacts RegexComplete RegexOccurs.

Lemma list_of_lower (s : string) :
  list_ascii_of_string (lower s) = map lower_char (list_ascii_of_string s).
Proof. induction s as [|a s IH]; cbn; [reflexivity|]. now rewrite IH. Qed.

Lemma lower_char_idem (c : ascii) : lower_char (lower_char c) = lower_char c.
Proof.
  destruct c as [[] [] [] [] [] [] [] []]; vm_compute; reflexivity.
Qed.

Lemma lower_idem (s : string) : lower (lower s) = lower s.
Proof.
  induction s as [|a s IH]; cbn; [reflexivity|].
  now rewrite lower_char_idem, IH.
Qed.

(** [String.prefix] on the lists of characters. *)
Lemma prefix_iff (sub s : string) :
  String.prefix sub s = true
  <-> exists rest,
      list_ascii_of_string s = list_ascii_of_string sub ++ rest.
Proof.
  revert s. induction sub as [|a sub IH]; intros s; cbn [prefix].
  - split; [intros _|now destruct s]. now exists (list_ascii_of_string s).
  - destruct s as [|b s]; cbn [prefix list_ascii_of_string app].
    + split; [discriminate|]. intros (rest & H). discriminate.
    + destruct (ascii_dec a b) as [->|Hne].
      * rewrite IH. split; intros (rest & H); exists rest.
        -- now rewrite H.
        -- now injection H.
      * split; [discriminate|]. intros (rest & H). injection H as H _.
        congruence.
Qed.

(** [sub in s] on the lists of characters. *)
Lemma contains_iff (sub s : string) :
  contains sub s = true
  <-> exists before rest,
      list_ascii_of_string s = before ++ list_ascii_of_string sub ++ rest.
Proof.
  induction s as [|b s IH]; cbn [contains]; rewrite orb_true_iff, prefix_iff.
  - split.
    + intros [(rest & H)|H]; [|discriminate]. now exists [], rest.
    + intros (before & rest & H). left.
      destruct before; [now exists rest|discriminate].
  - rewrite IH. split.
    + intros [(rest & H)|(before & rest & H)].
      * now exists [], rest.
      * exists (b :: before), rest. cbn. now rewrite H.
    + intros (before & rest & H). destruct before as [|b' before].
      * left. now exists rest.
      * right. exists before, rest. cbn in H. now injection H.
Qed.

(** The words of a literal under [re.IGNORECASE]. *)
Lemma lang_lit_i (l v : list ascii) :
  lang (seqs (map chr_i l)) v <-> map lower_char v = map lower_char l.
Proof.
  revert v. induction l as [|a l IH]; intros v; cbn [map seqs fold_right].
  - split.
    + intros L. inversion L; subst. reflexivity.
    + intros H. destruct v; [constructor|discriminate].
  - split.
    + intros L. inversion L as [| |r1 r2 w1 w2 L1 L2| | | | |]; subst.
      inversion L1 as [|p c Hc| | | | | |]; subst.
      apply Ascii.eqb_eq in Hc. cbn. rewrite Hc. f_equal.
      now apply IH.
    + intros H. destruct v as [|c v]; [discriminate|].
      cbn in H. injection H as Hc Hv.
      change (c :: v) with ([c] ++ v). constructor.
      * constructor. now apply Ascii.eqb_eq.
      * now apply IH.
Qed.

(** [re.search] for a literal under [re.IGNORECASE] is the substring test on
    the lowered text. *)
Lemma search_lit_i (w text : string) :
  search (lit_i w) text = contains (lower w) (lower text).
Proof.
  apply eq_true_iff_eq. rewrite search_occurs, contains_iff.
  rewrite !list_of_lower. unfold occurs, lit_i. split.
  - intros (before & v & rest & Ht & L). apply lang_lit_i in L.
    exists (map lower_char before), (map lower_char rest).
    now rewrite Ht, !map_app, L.
  - intros (before & rest & H).
    apply map_eq_app in H as (b & t' & -> & Hb & H).
    apply map_eq_app in H as (v & r & -> & Hv & Hr).
    exists b, v, r. split; [reflexivity|]. now apply lang_lit_i.
Qed.

(** [sub in s] on the strings. *)
Lemma list_of_app (a b : string) :
  list_ascii_of_string (a ++ b)
  = list_ascii_of_string a ++ list_ascii_of_string b.
Proof. induction a as [|c a IH]; cbn; [reflexivity|]. now rewrite IH. Qed.

Lemma string_of_app (l1 l2 : list ascii) :
  string_of_list_ascii (l1 ++ l2)
  = (string_of_list_ascii l1 ++ string_of_list_ascii l2)%string.
Proof. induction l1 as [|c l1 IH]; cbn; [reflexivity|]. now rewrite IH. Qed.

Lemma contains_substring (sub s : string) :
  contains sub s = true
  <-> exists before rest, s = (before ++ sub ++ rest)%string.
Proof.
  rewrite contains_iff. split.
  - intros (before & rest & H).
    exists (string_of_list_ascii before), (string_of_list_ascii rest).
    apply (f_equal string_of_list_ascii) in H.
    rewrite string_of_list_ascii_of_string in H.
    now rewrite H, !string_of_app, string_of_list_ascii_of_string.
  - intros (before & rest & ->).
    exists (list_ascii_of_string before), (list_ascii_of_string rest).
    now rewrite !list_of_app.
Qed.

End ContainsFacts.

(** ** The salary tool *)

Module SalaryToolFacts.

Import Text re RegexFacts RegexComplete RegexOccurs TextFacts SalarySpec salary_tool.

(** Two digits next to each other somewhere in the text. *)
Definition two_digits (text : list ascii) : Prop :=
  exists before d1 d2 rest,
    text = before ++ d1 :: d2 :: rest
    /\ is_digit d1 = true /\ is_digit d2 = true.

Lemma lang_opt_nil (r : regex) : lang (opt r) [].
Proof. apply lang_alt_r. constructor. Qed.

Lemma salary_regex_occurs (text : list ascii) :
  occurs (compiled salary_regex) text <-> two_digits text.
Proof.
  split.
  - intros (before & w & rest & -> & L).
    cbv [salary_regex compiled seqs fold_right] in L.
    inversion L as [| |r1 r2 w1 w2 L1 L2| | | | |]; subst; clear L L1.
    inversion L2 as [| |r1 r2 w3 w4 L3 L4| | | | |]; subst; clear L2 L3.
    inversion L4 as [| |r1 r2 w5 w6 L5 L6| | | | |]; subst; clear L4 L6.
    inversion L5 as [| | | | | | |i r w L]; subst; clear L5.
    apply (salary_regex_amount _ w5 (or_introl eq_refl)) in L.
    destruct L as (ds & tail & -> & Hds & Hlen & _).
    destruct ds as [|d1 [|d2 ds]]; cbn in Hlen; try lia.
    inversion Hds as [|? ? Hd1 Hds']; subst.
    inversion Hds' as [|? ? Hd2 _]; subst.
    exists (before ++ w1 ++ w3), d1, d2, (ds ++ tail ++ w6 ++ rest).
    split; [|now split].
    repeat (rewrite <- ?app_assoc; cbn [app]). reflexivity.
  - intros (before & d1 & d2 & rest & -> & Hd1 & Hd2).
    exists before, [d1; d2], rest. split; [reflexivity|].
    cbv [salary_regex compiled seqs fold_right rep_range rep upto].
    apply (lang_seq _ _ [] _ (lang_opt_nil _)).
    apply (lang_seq _ _ [] _ (lang_opt_nil _)).
    apply (lang_seq _ _ [d1; d2] []); [|apply (lang_seq _ _ [] []);
                                         [apply lang_opt_nil|constructor]].
    apply lang_group.
    apply (lang_seq _ _ [d1; d2] []); [|apply (lang_seq _ _ [] []);
                                         [apply lang_opt_nil|constructor]].
    apply (lang_seq _ _ [d1; d2] []); [|apply lang_opt_nil].
    apply (lang_seq _ _ [d1] [d2]); [now constructor|].
    apply (lang_seq _ _ [d2] []); [now constructor|constructor].
Qed.

Lemma digits_value_nonneg (s : string) :
  forall acc v, (0 <= acc)%Z -> digits_value acc s = Some v -> (0 <= v)%Z.
Proof.
  induction s as [|a s IH]; intros acc v Hacc; cbn [digits_value].
  - intros [= <-]. exact Hacc.
  - destruct (is_digit a); [|discriminate]. apply IH. lia.
Qed.

Lemma int_of_str_nonneg (s : string) (v : Z) :
  int_of_str s = Ok v -> (0 <= v)%Z.
Proof.
  unfold int_of_str. destruct s; [discriminate|].
  destruct (digits_value 0 (String a s)) as [z|] eqn:E; [|discriminate].
  destruct (int_max_str_digits <? _); [discriminate|].
  intros [= <-]. now apply (digits_value_nonneg (String a s) 0%Z z).
Qed.

(** X9.  [extract_salary] finds a salary exactly in the texts that hold two
    digits next to each other, whatever stands around them; the value it
    reports is never negative. *)
Theorem extract_salary_found_iff (text : string) :
  (extract_salary text = Ok not_found
   <-> ~ two_digits (list_ascii_of_string text))
  /\ ((exists v, extract_salary text = Ok (found v))
      <-> two_digits (list_ascii_of_string text))
  /\ (forall v, extract_salary text = Ok (found v) -> (0 <= v)%Z).
Proof.
  rewrite <- salary_regex_occurs, <- finditer_occurs.
  pose proof (extract_salary_total text) as Htotal.
  assert (Hnil : finditer (compiled salary_regex) text = []
                 <-> extract_salary text = Ok not_found).
  { unfold extract_salary. cbv zeta.
    destruct (finditer (compiled salary_regex) text) as [|m0 ms];
      [split; reflexivity|].
    split; [discriminate|].
    destruct (int_of_str _); cbn [bind]; discriminate. }
  split; [|split].
  - rewrite <- Hnil.
    destruct (finditer (compiled salary_regex) text); intuition congruence.
  - split.
    + intros [v Hv] Hn. apply Hnil in Hn. unfold found, not_found in *.
      congruence.
    + intros Hne. destruct Htotal as [H|H]; [|exact H].
      apply Hnil in H. contradiction.
  - unfold extract_salary. cbv zeta.
    destruct (finditer (compiled salary_regex) text) as [|m0 ms];
      [discriminate|].
    destruct (int_of_str _) as [z|] eqn:E; cbn [bind]; [|discriminate].
    apply int_of_str_nonneg in E. unfold found. intros v [= <-].
    destruct (_ && _); lia.
Qed.

End SalaryToolFacts.

(** ** The interview tool *)

Module InterviewFacts.

Import Text re RegexFacts RegexComplete RegexOccurs ContainsFacts SalarySpec
       interview_tool.

(** The words of [.*]: the texts without a line feed. *)
Definition one_line (l : list ascii) : Prop :=
  Forall (fun c => c <> "010"%char) l.

Lemma lang_star_any (l : list ascii) : lang (Star any) l <-> one_line l.
Proof.
  split.
  - assert (H : forall r w, lang r w -> r = Star any -> one_line w).
    { induction 1 as [| | | | | |r w1 w2 L1 _ _ IH|]; intros Heq;
        try discriminate; [constructor|].
      injection Heq as ->. apply Forall_app. split; [|now apply IH].
      inversion L1 as [|p c Hc| | | | | |]; subst.
      constructor; [|constructor]. intros ->. discriminate. }
    intros L. now apply (H _ _ L).
  - induction 1 as [|c l Hc _ IH]; [constructor|].
    change (c :: l) with ([c] ++ l). constructor; [|exact IH].
    constructor. destruct (Ascii.eqb c "010") eqn:E; [|reflexivity].
    apply Ascii.eqb_eq in E. contradiction.
Qed.

(** [x] stands in the lowered text and [y] follows it on the same line. *)
Definition followed_by (x y text : string) : Prop :=
  exists before u mid v rest,
    list_ascii_of_string text = before ++ u ++ mid ++ v ++ rest
    /\ map lower_char u = list_ascii_of_string x
    /\ one_line mid
    /\ map lower_char v = list_ascii_of_string y.

(** [re.search] for [x.*y] under [re.IGNORECASE], for lower-case [x] and
    [y]. *)
Lemma search_then (x y text : string) :
  lower x = x -> lower y = y ->
  search (seqs [lit_i x; Star any; lit_i y]) text = true
  <-> followed_by x y text.
Proof.
  intros Hx Hy. rewrite search_occurs. unfold occurs, followed_by.
  assert (Hlx : map lower_char (list_ascii_of_string x) = list_ascii_of_string x)
    by now rewrite <- list_of_lower, Hx.
  assert (Hly : map lower_char (list_ascii_of_string y) = list_ascii_of_string y)
    by now rewrite <- list_of_lower, Hy.
  split.
  - intros (before & w & rest & Ht & L). cbn [seqs fold_right] in L.
    inversion L as [| |r1 r2 u w2 Lu L2| | | | |]; subst.
    inversion L2 as [| |r1 r2 mid w3 Lm L3| | | | |]; subst.
    inversion L3 as [| |r1 r2 v w4 Lv L4| | | | |]; subst.
    inversion L4; subst.
    apply lang_lit_i in Lu. apply lang_lit_i in Lv. apply lang_star_any in Lm.
    exists before, u, mid, v, rest.
    rewrite Ht, Lu, Lv, Hlx, Hly, app_nil_r, <- !app_assoc. now repeat split.
  - intros (before & u & mid & v & rest & Ht & Hu & Hm & Hv).
    exists before, (u ++ mid ++ v ++ []), rest. split.
    + now rewrite Ht, app_nil_r, <- !app_assoc.
    + cbn [seqs fold_right]. constructor; [apply lang_lit_i; congruence|].
      constructor; [now apply lang_star_any|].
      constructor; [apply lang_lit_i; congruence|constructor].
Qed.

Definition mentions (phrase text : string) : Prop :=
  contains phrase (lower text) = true.

(** The risk [analyze_interview] reports, by the phrases [re.search]
    finds. *)
Lemma analyze_interview_by_search (text : string) :
  risk_of (analyze_interview text)
  = if search (seqs [lit_i "pay"; Star any; lit_i "interview"]) text
       || search (lit_i "registration fee") text
       || search (seqs [lit_i "certificate"; Star any; lit_i "payment"]) text
    then "HIGH"
    else if search (lit_i "no formal interview") text
            || search (lit_i "quick interview") text
            || search (seqs [lit_i "send"; Star any; lit_i "money"]) text
            || search (lit_i "whatsapp") text
            || search (lit_i "personal bank") text
    then "MEDIUM"
    else "SAFE".
Proof.
  unfold analyze_interview, SUSPICIOUS_PHRASES, phrase. cbv zeta.
  cbn [filter compiled source].
  destruct (search (seqs [lit_i "pay"; Star any; lit_i "interview"]) text),
    (search (lit_i "registration fee") text),
    (search (seqs [lit_i "certificate"; Star any; lit_i "payment"]) text),
    (search (lit_i "no formal interview") text),
    (search (lit_i "quick interview") text),
    (search (seqs [lit_i "send"; Star any; lit_i "money"]) text),
    (search (lit_i "whatsapp") text),
    (search (lit_i "personal bank") text);
    reflexivity.
Qed.

(** X10.  The texts with a high interview risk, and those with none: the risk
    is HIGH exactly when the lowered text holds "registration fee", or "pay"
    followed on its line by "interview", or "certificate" followed on its line
    by "payment"; it is SAFE exactly when none of the eight phrases is there;
    in between it is MEDIUM. *)
Theorem analyze_interview_risk (text : string) :
  let risk := risk_of (analyze_interview text) in
  let high :=
    followed_by "pay" "interview" text
    \/ mentions "registration fee" text
    \/ followed_by "certificate" "payment" text in
  let medium :=
    mentions "no formal interview" text
    \/ mentions "quick interview" text
    \/ followed_by "send" "money" text
    \/ mentions "whatsapp" text
    \/ mentions "personal bank" text in
  (risk = "HIGH" <-> high)
  /\ (risk = "MEDIUM" <-> ~ high /\ medium)
  /\ (risk = "SAFE" <-> ~ high /\ ~ medium).
Proof.
  cbv zeta.
  rewrite (analyze_interview_by_search text).
  pose proof (search_then "pay" "interview" text eq_refl eq_refl) as H1.
  pose proof (search_then "certificate" "payment" text eq_refl eq_refl) as H3.
  pose proof (search_then "send" "money" text eq_refl eq_refl) as H6.
  unfold mentions.
  pose proof (search_lit_i "registration fee" text) as H2.
  pose proof (search_lit_i "no formal interview" text) as H4.
  pose proof (search_lit_i "quick interview" text) as H5.
  pose proof (search_lit_i "whatsapp" text) as H7.
  pose proof (search_lit_i "personal bank" text) as H8.
  change (lower "registration fee") with "registration fee" in H2.
  change (lower "no formal interview") with "no formal interview" in H4.
  change (lower "quick interview") with "quick interview" in H5.
  change (lower "whatsapp") with "whatsapp" in H7.
  change (lower "personal bank") with "personal bank" in H8.
  rewrite <- H2, <- H4, <- H5, <- H7, <- H8. clear H2 H4 H5 H7 H8.
  rewrite <- H1, <- H3, <- H6. clear H1 H3 H6.
  destruct (search (seqs [lit_i "pay"; Star any; lit_i "interview"]) text),
    (search (lit_i "registration fee") text),
    (search (seqs [lit_i "certificate"; Star any; lit_i "payment"]) text);
    cbn [orb];
    try (repeat split; intros; try discriminate; try reflexivity; tauto).
  destruct (search (lit_i "no formal interview") text),
    (search (lit_i "quick interview") text),
    (search (seqs [lit_i "send"; Star any; lit_i "money"]) text),
    (search (lit_i "whatsapp") text),
    (search (lit_i "personal bank") text);
    cbn [orb];
    repeat split; intros; try discriminate; try reflexivity;
      intuition discriminate.
Qed.

End InterviewFacts.

(** ** The extraction agent: contacts *)

Module ExtractionFacts.

Import Text re RegexFacts RegexComplete RegexOccurs ContainsFacts TextFacts
       DataModel extraction_agent.

(** *** Repetitions of a class *)

Lemma lang_rep_class (p : ascii -> bool) (n : nat) (w : list ascii) :
  lang (rep n (Class p)) w ->
  Forall (fun a => p a = true) w /\ List.length w = n.
Proof.
  revert w. induction n as [|n IH]; intros w L; cbn [rep] in L.
  - inversion L; subst. split; [constructor|reflexivity].
  - inversion L as [| |r1 r2 w1 w2 L1 L2| | | | |]; subst.
    inversion L1 as [|p' a Ha| | | | | |]; subst.
    destruct (IH _ L2) as [Hall Hlen]. cbn. split; [now constructor|lia].
Qed.

Lemma lang_upto_class (p : ascii -> bool) (n : nat) (w : list ascii) :
  lang (upto n (Class p)) w ->
  Forall (fun a => p a = true) w /\ (List.length w <= n)%nat.
Proof.
  revert w. induction n as [|n IH]; intros w L; cbn [upto opt] in L.
  - inversion L; subst. split; [constructor|cbn; lia].
  - inversion L as [| | |r1 r2 w' L1|r1 r2 w' L2| | |]; subst.
    + inversion L1 as [| |r1 r2 w1 w2 La Lb| | | | |]; subst.
      inversion La as [|p' a Ha| | | | | |]; subst.
      destruct (IH _ Lb) as [Hall Hlen]. cbn. split; [now constructor|lia].
    + inversion L2; subst. split; [constructor|cbn; lia].
Qed.

Lemma lang_rep_range_class (p : ascii -> bool) (lo more : nat) (w : list ascii) :
  lang (rep_range lo more (Class p)) w ->
  Forall (fun a => p a = true) w /\ (lo <= List.length w <= lo + more)%nat.
Proof.
  unfold rep_range. intros L.
  inversion L as [| |r1 r2 w1 w2 L1 L2| | | | |]; subst.
  apply lang_rep_class in L1 as [H1 Hlen1].
  apply lang_upto_class in L2 as [H2 Hlen2].
  split; [now apply Forall_app|]. rewrite length_app. lia.
Qed.

Lemma lang_opt_chr (a : ascii) (w : list ascii) :
  lang (opt (chr a)) w -> w = [] \/ w = [a].
Proof.
  unfold opt, chr. intros L.
  inversion L as [| | |r1 r2 w' L1|r1 r2 w' L2| | |]; subst.
  - inversion L1 as [|p' c Hc| | | | | |]; subst.
    apply Ascii.eqb_eq in Hc. subst. now right.
  - inversion L2. now left.
Qed.

Lemma chr_i_plus (a : ascii) :
  Ascii.eqb (lower_char a) (lower_char "+") = true -> a = "+"%char.
Proof.
  destruct a as [[] [] [] [] [] [] [] []]; vm_compute; intros H;
    first [reflexivity | discriminate H].
Qed.

(** A group some way through the pattern leaves out reads as the empty
    string, else as a word of its body. *)
Lemma finditer_group_opt (r : regex) (text : string) (m : match_object) (i : nat) :
  In m (finditer r text) ->
  group text m i = ""
  \/ exists body,
       In (i, body) (groups r)
       /\ lang body (list_ascii_of_string (group text m i)).
Proof.
  intros Hm. unfold finditer in Hm.
  pose proof (scan_matched (list_ascii_of_string text) r _ 0 0 eq_refl
                (Nat.le_0_l _)) as Hall.
  rewrite Forall_forall in Hall. destruct (Hall m Hm) as [Hpos Hat].
  destruct (match_at_sound _ (groups r) r _ _ _ (incl_refl _) Hpos Hat)
    as (Hrec & _ & _ & _).
  unfold group.
  destruct (group_span i (m_groups m)) as [[b e]|] eqn:E; [|now left].
  destruct (Hrec i b e (group_span_in _ _ _ E)) as (_ & body & Hin & L).
  right. exists body. split; [assumption|].
  unfold slice. now rewrite list_of_substring.
Qed.

Lemma length_list_of_string (s : string) :
  List.length (list_ascii_of_string s) = String.length s.
Proof. induction s as [|a s IH]; cbn; [reflexivity|]. now rewrite IH. Qed.

(** *** Phone numbers *)

(** What group 1 of [phone_pattern] takes: a sign or none, one to three
    digits, a separator or none. *)
Definition country_prefix (p : list ascii) : Prop :=
  exists sign ds sep,
    p = sign ++ ds ++ sep
    /\ (sign = [] \/ sign = ["+"%char])
    /\ all_digits ds /\ (1 <= List.length ds <= 3)%nat
    /\ (sep = []
        \/ exists c, sep = [c]
                     /\ (c = "-"%char \/ c = "."%char \/ is_space c = true)).

Lemma phone_pattern_prefix (body : regex) (w : list ascii) :
  In (1%nat, body) (groups (compiled phone_pattern)) ->
  lang body w -> country_prefix w.
Proof.
  intros Hin L.
  cbv [phone_pattern compiled groups seqs fold_right app opt rep_range rep
       upto] in Hin.
  cbn in Hin. destruct Hin as [[= <-]|[]].
  inversion L as [| |r1 r2 w1 w2 L1 L2| | | | |]; subst; clear L.
  inversion L2 as [| |r1 r2 w3 w4 L3 L4| | | | |]; subst; clear L2.
  inversion L4 as [| |r1 r2 w5 w6 L5 L6| | | | |]; subst; clear L4.
  inversion L6; subst; clear L6. rewrite app_nil_r.
  apply lang_opt_chr in L1.
  apply (lang_rep_range_class is_digit 1 2) in L3 as [Hds Hlen].
  exists w1, w3, w5. split; [reflexivity|]. split; [exact L1|].
  split; [exact Hds|]. split; [lia|].
  unfold opt, separator in L5.
  inversion L5 as [| | |r1 r2 w' La|r1 r2 w' Lb| | |]; subst.
  - inversion La as [|p' c Hc| | | | | |]; subst. right. exists c.
    split; [reflexivity|].
    rewrite !orb_true_iff, !Ascii.eqb_eq in Hc. tauto.
  - inversion Lb. now left.
Qed.

(** X4.  [_extract_phones] never lists a phone number: for every number the
    pattern finds, the list holds what its one group took, the country prefix,
    or the empty string when the number has none.  An entry has at most five
    characters. *)
Theorem extract_phones_prefixes (text phone : string) :
  In phone (_extract_phones text) ->
  (phone = "" \/ country_prefix (list_ascii_of_string phone))
  /\ (String.length phone <= 5)%nat.
Proof.
  unfold _extract_phones, findall. cbv zeta. rewrite in_map_iff.
  intros (m & <- & Hm).
  destruct (finditer_group_opt _ text m 1 Hm) as [->|(body & Hin & L)].
  - split; [now left|cbn; lia].
  - apply (phone_pattern_prefix body) in L; [|exact Hin].
    split; [now right|].
    destruct L as (sign & ds & sep & Hp & Hsign & _ & Hlen & Hsep).
    rewrite <- length_list_of_string, Hp, !length_app.
    destruct Hsign as [->| ->], Hsep as [->|(c & -> & _)]; cbn; lia.
Qed.

Lemma extract_phones_witness :
  In "+91 " (_extract_phones "Call +91 9876543210 today")
  /\ (String.length "+91 " <= 5)%nat.
Proof.
  assert (Hin : In "+91 " (_extract_phones "Call +91 9876543210 today"))
    by (vm_compute; auto).
  split; [exact Hin|].
  exact (proj2 (extract_phones_prefixes _ _ Hin)).
Defined.

(** *** Messaging handles *)

Definition whatsapp_number (id : string) : Prop :=
  exists sign ds,
    list_ascii_of_string id = sign ++ ds
    /\ (sign = [] \/ sign = ["+"%char])
    /\ all_digits ds /\ (10 <= List.length ds <= 15)%nat.

Definition word_char (c : ascii) : bool :=
  in_range 65 90 c || in_range 97 122 c || is_digit c || Ascii.eqb c "_".

Definition telegram_name (id : string) : Prop :=
  Forall (fun c => word_char c = true) (list_ascii_of_string id)
  /\ (5 <= String.length id <= 32)%nat.

Lemma lang_whatsapp_number (w : list ascii) :
  lang (seqs [opt (chr_i "+"); rep_range 10 5 digit]) w ->
  exists sign ds,
    w = sign ++ ds
    /\ (sign = [] \/ sign = ["+"%char])
    /\ all_digits ds /\ (10 <= List.length ds <= 15)%nat.
Proof.
  cbn [seqs fold_right]. intros L.
  inversion L as [| |r1 r2 w1 w2 L1 L2| | | | |]; subst; clear L.
  inversion L2 as [| |r1 r2 w3 w4 L3 L4| | | | |]; subst; clear L2.
  inversion L4; subst; clear L4.
  apply (lang_rep_range_class is_digit 10 5) in L3 as [Hds Hlen].
  exists w1, w3. rewrite app_nil_r. split; [reflexivity|].
  split; [|split; [exact Hds|lia]].
  unfold opt, chr_i in L1.
  inversion L1 as [| | |r1 r2 w' La|r1 r2 w' Lb| | |]; subst.
  - inversion La as [|p' c Hc| | | | | |]; subst.
    apply chr_i_plus in Hc. subst. now right.
  - inversion Lb. now left.
Qed.

Lemma whatsapp_pattern_number (text : string) (m : match_object) :
  In m (finditer (compiled whatsapp_pattern) text) ->
  whatsapp_number (group text m 1).
Proof.
  intros Hm.
  destruct (finditer_group _ text m 1 Hm eq_refl) as (body & Hin & L).
  cbv [whatsapp_pattern compiled groups seqs fold_right app alts lit_i map
       list_ascii_of_string plus] in Hin.
  cbn in Hin. destruct Hin as [[= <-]|[]].
  now apply lang_whatsapp_number.
Qed.

Lemma telegram_pattern_name (text : string) (m : match_object) :
  In m (finditer (compiled telegram_pattern) text) ->
  telegram_name (group text m 1).
Proof.
  intros Hm.
  destruct (finditer_group _ text m 1 Hm eq_refl) as (body & Hin & L).
  cbv [telegram_pattern compiled groups seqs fold_right app alts lit_i map
       list_ascii_of_string] in Hin.
  cbn in Hin. destruct Hin as [[= <-]|[]].
  apply (lang_rep_range_class _ 5 27) in L as [Hall Hlen].
  split; [exact Hall|]. rewrite <- length_list_of_string. lia.
Qed.

(** X5.  Every WhatsApp handle [_extract_messaging_ids] lists is a number of
    ten to fifteen digits, with a plus sign or without; every Telegram handle
    is a name of five to thirty-two letters, digits and underscores. *)
Theorem extract_messaging_ids_shape (text : string) :
  exists whatsapp telegram,
    _extract_messaging_ids text
    = VDict [("whatsapp", strlist whatsapp); ("telegram", strlist telegram)]
    /\ Forall whatsapp_number whatsapp
    /\ Forall telegram_name telegram.
Proof.
  exists (findall whatsapp_pattern text), (findall telegram_pattern text).
  split; [reflexivity|].
  unfold findall. split; apply Forall_map, Forall_forall; intros m Hm.
  - now apply whatsapp_pattern_number.
  - now apply telegram_pattern_name.
Qed.

End ExtractionFacts.

(** ** The extraction agent: fees, red flags and behaviors *)

Module DetectionFacts.

Import Text re RegexFacts RegexComplete RegexOccurs ContainsFacts TextFacts
       SalaryToolFacts DataModel extraction_agent.

(** *** Substrings *)

Lemma contains_trans (a b c : string) :
  contains a b = true -> contains b c = true -> contains a c = true.
Proof.
  rewrite !contains_iff. intros (b1 & b2 & Hb) (c1 & c2 & Hc).
  exists (c1 ++ b1), (b2 ++ c2). rewrite Hc, Hb, <- !app_assoc. reflexivity.
Qed.

Lemma any_in_iff (words : list string) (s : string) :
  any_in words s = true <-> exists word, In word words /\ contains word s = true.
Proof. unfold any_in. apply existsb_exists. Qed.

(** *** Fees *)

Definition fee_types : list string :=
  ["training_fee"; "registration_fee"; "deposit"; "refundable_deposit";
   "other_fee"].

Lemma classify_fee_types (context : string) : In (_classify_fee context) fee_types.
Proof.
  unfold _classify_fee, fee_types. cbv zeta.
  repeat match goal with
         | |- context [if ?b then _ else _] => destruct b
         end; cbn; tauto.
Qed.

(** X2.  The type refundable_deposit is out of reach of the phrase it is named
    after: a context that holds "refundable deposit" holds "deposit", which is
    looked for first. *)
Theorem classify_fee_refundable_deposit (context : string) :
  contains "refundable deposit" (lower context) = true ->
  In (_classify_fee context) ["training_fee"; "registration_fee"; "deposit"].
Proof.
  intros H.
  assert (Hd : contains "deposit" (lower context) = true)
    by (apply (contains_trans _ "refundable deposit"); [reflexivity|exact H]).
  unfold _classify_fee. cbv zeta. rewrite Hd.
  destruct (contains "training" (lower context));
    destruct (contains "registration" (lower context)); cbn; tauto.
Qed.

Lemma classify_fee_refundable_deposit_witness :
  contains "refundable deposit" (lower "Pay a Refundable Deposit of 500") = true
  /\ In (_classify_fee "Pay a Refundable Deposit of 500")
        ["training_fee"; "registration_fee"; "deposit"].
Proof.
  assert (H : contains "refundable deposit"
                (lower "Pay a Refundable Deposit of 500") = true)
    by reflexivity.
  split; [exact H|].
  exact (classify_fee_refundable_deposit _ H).
Defined.

(** The characters around a match that [_extract_fees] takes for the
    context of the fee: thirty on each side, as far as the text goes. *)
Definition context_of (text : string) (m : match_object) : string :=
  slice (Nat.max 0 (m_start m - 30))
        (Nat.min (String.length text) (m_end m + 30)) text.

(** The fee of a match is the fee of its amount and of its context. *)
Definition fee_of (text : string) (m : match_object) (fee : Fee) : Prop :=
  int_of_str (remove "," (group text m 1)) = Ok (fee_amount fee)
  /\ (0 <= fee_amount fee)%Z
  /\ fee_context fee = strip (context_of text m)
  /\ fee_type fee = _classify_fee (context_of text m)
  /\ In (fee_type fee) fee_types.

(** X1.  [_extract_fees] raises [ValueError] exactly when the amount of some
    match of the fee pattern has more digits than [int] converts.  On every
    other text it returns the fees of the matches, one for each and in their
    order: the amount is the natural number the digits of the match spell, the
    type is the one of the five fee types its context gives. *)
Theorem extract_fees_entries (text : string) :
  let matches := finditer (compiled fee_pattern) text in
  if existsb (fun m => int_max_str_digits <? ExtractionSpec.digits (group text m 1))%Z
             matches
  then _extract_fees text = Raise ValueError
  else exists fees,
      _extract_fees text = Ok fees /\ Forall2 (fee_of text) matches fees.
Proof.
  unfold _extract_fees. cbv zeta.
  assert (Hall : incl (finditer (compiled fee_pattern) text)
                      (finditer (compiled fee_pattern) text))
    by apply incl_refl.
  revert Hall.
  generalize (finditer (compiled fee_pattern) text) at 1 3 4 5 6 as ms.
  induction ms as [|m ms IH]; intros Hall; cbn [mapM existsb].
  - exists []. split; [reflexivity|constructor].
  - destruct (finditer_group _ text m 1 (Hall m (or_introl eq_refl)) eq_refl)
      as (body & Hin & L).
    pose proof (ExtractionSpec.lang_fee_amount body _ Hin L) as Hamount.
    cbv zeta in Hamount. rewrite string_of_list_ascii_of_string in Hamount.
    destruct (int_max_str_digits <? ExtractionSpec.digits (group text m 1))%Z.
    + cbn [orb]. now rewrite Hamount.
    + destruct Hamount as [amount Hamount]. rewrite Hamount. cbn [bind orb].
      specialize (IH (fun m' Hm' => Hall m' (or_intror Hm'))).
      destruct (existsb _ ms).
      * now rewrite IH.
      * destruct IH as (fees & -> & Hfees). cbn [bind].
        eexists. split; [reflexivity|].
        constructor; [|exact Hfees].
        unfold fee_of, context_of. cbn [fee_amount fee_context fee_type].
        split; [exact Hamount|]. split; [now apply int_of_str_nonneg in Hamount|].
        split; [reflexivity|]. split; [reflexivity|apply classify_fee_types].
Qed.

(** *** Red flags and behaviors *)

Lemma detect_red_flags_in (text flag : string) :
  In flag (_detect_red_flags text)
  <-> In flag red_flags /\ contains flag (lower text) = true.
Proof. unfold _detect_red_flags. cbv zeta. rewrite filter_In. reflexivity. Qed.

Definition tag (b : bool) (name : string) : list string :=
  if b then [name] else [].

(** The behaviors, each with its test. *)
Lemma detect_behaviors_tags (text : string) :
  _detect_behaviors text
  = tag (negb (contains "interview" (lower text))) "no interview mentioned"
    ++ tag (any_in ["fee"; "deposit"; "payment"; "charge"] (lower text))
           "upfront payment required"
    ++ tag ((3 <? count "!" text)%nat || (3 <? count "?" text)%nat)
           "excessive punctuation"
    ++ tag (contains "kindly" (lower text)
            || contains "dear candidate" (lower text))
           "unprofessional language"
    ++ tag (any_in ["urgent"; "immediate"; "limited"; "act fast"; "hurry"]
                   (lower text))
           "pressure to act fast"
    ++ tag (String.length text <? 100)%nat "vague job description".
Proof.
  unfold _detect_behaviors. cbv zeta.
  destruct (negb (contains "interview" (lower text)));
  destruct (any_in ["fee"; "deposit"; "payment"; "charge"] (lower text));
  destruct ((3 <? count "!" text)%nat || (3 <? count "?" text)%nat);
  destruct (contains "kindly" (lower text)
            || contains "dear candidate" (lower text));
  destruct (any_in ["urgent"; "immediate"; "limited"; "act fast"; "hurry"]
                   (lower text));
  destruct (String.length text <? 100)%nat; reflexivity.
Qed.

Lemma in_tag (b : bool) (name x : string) :
  In x (tag b name) <-> b = true /\ name = x.
Proof. destruct b; cbn; intuition discriminate. Qed.

(** X3.  What the red flags found in a text tell about its behaviors.  The flag
    "no interview" and the behavior "no interview mentioned" exclude each
    other; a flag about a fee, a deposit or a payment comes with "upfront
    payment required"; the flags "kindly" and "dear candidate" come with
    "unprofessional language", and this behavior with one of them; a flag of
    urgency comes with "pressure to act fast". *)
Theorem red_flags_and_behaviors (text : string) :
  let flags := _detect_red_flags text in
  let behaviors := _detect_behaviors text in
  (In "no interview" flags -> ~ In "no interview mentioned" behaviors)
  /\ (forall flag,
        In flag flags ->
        any_in ["fee"; "deposit"; "payment"; "charge"] flag = true ->
        In "upfront payment required" behaviors)
  /\ (In "kindly" flags \/ In "dear candidate" flags
      <-> In "unprofessional language" behaviors)
  /\ (forall flag,
        In flag flags ->
        any_in ["urgent"; "immediate"; "limited"; "act fast"; "hurry"] flag
        = true ->
        In "pressure to act fast" behaviors).
Proof.
  cbv zeta.
  assert (Hword : forall words flag,
             contains flag (lower text) = true ->
             any_in words flag = true -> any_in words (lower text) = true).
  { intros words flag Hflag Hany. apply any_in_iff in Hany as (w & Hw & Hc).
    apply any_in_iff. exists w. split; [exact Hw|].
    now apply (contains_trans _ flag). }
  assert (Hin : forall x,
             In x (_detect_behaviors text)
             <-> (negb (contains "interview" (lower text)) = true
                  /\ "no interview mentioned" = x)
                 \/ (any_in ["fee"; "deposit"; "payment"; "charge"] (lower text)
                     = true /\ "upfront payment required" = x)
                 \/ ((3 <? count "!" text)%nat || (3 <? count "?" text)%nat
                     = true /\ "excessive punctuation" = x)
                 \/ (contains "kindly" (lower text)
                     || contains "dear candidate" (lower text) = true
                     /\ "unprofessional language" = x)
                 \/ (any_in ["urgent"; "immediate"; "limited"; "act fast"; "hurry"]
                            (lower text) = true
                     /\ "pressure to act fast" = x)
                 \/ ((String.length text <? 100)%nat = true
                     /\ "vague job description" = x)).
  { intros x. rewrite detect_behaviors_tags.
    repeat rewrite in_app_iff. repeat rewrite in_tag. reflexivity. }
  split; [|split; [|split]].
  - intros Hf H. apply detect_red_flags_in in Hf as [_ Hflag].
    apply Hin in H.
    assert (Hi : contains "interview" (lower text) = true)
      by (apply (contains_trans _ "no interview"); [reflexivity|exact Hflag]).
    rewrite Hi in H. cbn in H. intuition discriminate.
  - intros flag Hf Hany. apply detect_red_flags_in in Hf as [_ Hflag].
    apply Hin. right. left.
    split; [|reflexivity]. now apply (Hword _ flag).
  - rewrite Hin, !detect_red_flags_in. split.
    + intros H. do 3 right. left. split; [|reflexivity].
      apply orb_true_iff. destruct H as [[_ H]|[_ H]]; auto.
    + intros H.
      assert (Hk : contains "kindly" (lower text)
                   || contains "dear candidate" (lower text) = true)
        by (intuition discriminate).
      apply orb_true_iff in Hk as [Hk|Hk]; [left|right];
        (split; [cbn; tauto|exact Hk]).
  - intros flag Hf Hany. apply detect_red_flags_in in Hf as [_ Hflag].
    apply Hin. do 4 right. left.
    split; [|reflexivity]. now apply (Hword _ flag).
Qed.

End DetectionFacts.

(** ** The TOON manager *)

Module ManagerFacts.

Import toon_files toon_manager LoadSpec.

(** The invariant of the module state: [SCHEMA] has its five keys. *)
Definition well_formed (st : state) : Prop := map fst (SCHEMA st) = SCHEMA_keys.

(** The file a [file_type] names: the scam file for "scam", the positive
    file for every other string. *)
Definition path_of (file_type : string) (fs : files) : file :=
  if String.eqb file_type "scam" then scam_patterns_file fs
  else positive_patterns_file fs.

(** What a load of that file holds under a key, as its reader sees it,
    where the file can be examined. *)
Definition patterns (st : state) (file_type key : string) : list value :=
  match find (fun kv => String.eqb key (fst kv))
             (view (SCHEMA st) (read (path_of file_type (toon st)))) with
  | Some kv => snd kv
  | None => []
  end.

Definition cat (schema : list (string * list value)) (f : file) (key : string)
  : list value := spec_category (default_of schema key) f key.

(** The document with the list [c key] under every key of the schema. *)
Definition doc_of (c : string -> list value) : value :=
  VDict (map (fun key => (key, VList (c key))) SCHEMA_keys).

Ltac each_key H :=
  cbn in H;
  repeat match type of H with
         | _ \/ _ => destruct H as [H|H]
         end;
  [subst .. | contradiction].

Lemma patterns_cat (st : state) (file_type key : string) :
  In key SCHEMA_keys ->
  patterns st file_type key = cat (SCHEMA st) (path_of file_type (toon st)) key.
Proof.
  intros Hin. unfold patterns. rewrite view_load_toon.
  each_key Hin; reflexivity.
Qed.

Lemma cat_doc_of (schema : list (string * list value))
    (c : string -> list value) (key : string) :
  In key SCHEMA_keys -> cat schema (Json (doc_of c)) key = c key.
Proof. intros Hin. each_key Hin; reflexivity. Qed.

Lemma to_json_load (schema : list (string * list value)) (f : file) :
  to_json schema (read f) = doc_of (cat schema f).
Proof.
  unfold to_json, doc_of. rewrite view_load_toon, map_map. reflexivity.
Qed.

Lemma set_slot_load (f : file) (key : string) (l : list value) :
  In key SCHEMA_keys ->
  set_slot key (Loaded l) (read f)
  = map (fun k => (k, if String.eqb k key then Loaded l else expected_slot f k))
        SCHEMA_keys.
Proof.
  intros Hin. rewrite load_toon_by_key. each_key Hin; reflexivity.
Qed.

Lemma to_json_set (schema : list (string * list value)) (f : file)
    (key : string) (l : list value) :
  In key SCHEMA_keys ->
  to_json schema (set_slot key (Loaded l) (read f))
  = doc_of (fun k => if String.eqb k key then l else cat schema f k).
Proof.
  intros Hin. rewrite (set_slot_load f key l Hin).
  unfold to_json, doc_of, view. rewrite !map_map. f_equal.
  apply map_ext. intros k. cbn [fst snd]. f_equal. f_equal.
  destruct (String.eqb k key); [reflexivity|].
  unfold cat. now rewrite <- content_expected_slot.
Qed.

Lemma find_append_schema (key k : string) (v : value)
    (schema : list (string * list value)) :
  find (fun kv => String.eqb k (fst kv)) (append_schema key v schema)
  = option_map (fun kv => if String.eqb key (fst kv)
                          then (fst kv, snd kv ++ [v]) else kv)
               (find (fun kv => String.eqb k (fst kv)) schema).
Proof.
  unfold append_schema.
  induction schema as [|[k' l] schema IH]; cbn [map find fst snd];
    [reflexivity|].
  destruct (String.eqb key k') eqn:E; cbn [fst];
    (destruct (String.eqb k k'); [cbn; now rewrite ?E|exact IH]).
Qed.

Lemma find_fst (k : string) (schema : list (string * list value))
    (kv : string * list value) :
  find (fun kv => String.eqb k (fst kv)) schema = Some kv -> fst kv = k.
Proof.
  intros H. apply find_some in H as [_ H]. apply String.eqb_eq in H. now subst.
Qed.

Lemma default_append_other (key k : string) (v : value)
    (schema : list (string * list value)) :
  k <> key ->
  default_of (append_schema key v schema) k = default_of schema k.
Proof.
  intros Hne. unfold default_of, content. rewrite find_append_schema.
  destruct (find _ schema) as [kv|] eqn:E; [|reflexivity].
  cbn [option_map]. apply find_fst in E.
  destruct (String.eqb key (fst kv)) eqn:E'; [|reflexivity].
  apply String.eqb_eq in E'. congruence.
Qed.

Lemma default_append_same (key : string) (v : value)
    (schema : list (string * list value)) :
  In key (map fst schema) ->
  default_of (append_schema key v schema) key = default_of schema key ++ [v].
Proof.
  intros Hin. unfold default_of, content. rewrite find_append_schema.
  destruct (find _ schema) as [kv|] eqn:E.
  - cbn [option_map]. apply find_fst in E. rewrite E, String.eqb_refl.
    reflexivity.
  - exfalso. apply in_map_iff in Hin as ([k l] & Hk & Hin). cbn in Hk. subst k.
    apply (find_none _ _ E) in Hin. cbn in Hin.
    now rewrite String.eqb_refl in Hin.
Qed.

Lemma cat_append_other (key k : string) (v : value)
    (schema : list (string * list value)) (f : file) :
  k <> key -> cat (append_schema key v schema) f k = cat schema f k.
Proof. intros Hne. unfold cat. now rewrite default_append_other. Qed.


(** [file_type]'s file replaced. *)
Definition with_file (file_type : string) (f : file) (fs : files) : files :=
  if String.eqb file_type "scam"
  then {| scam_patterns_file := f;
          positive_patterns_file := positive_patterns_file fs |}
  else {| scam_patterns_file := scam_patterns_file fs;
          positive_patterns_file := f |}.

(** [value in l] *)
Definition holds (v : string) (l : list value) : bool :=
  existsb (fun x => eq_str x v) l.

(** Whether the file has a list of its own under the key. *)
Definition has_list (f : file) (key : string) : bool :=
  match expected_slot f key with
  | Loaded _ => true
  | Default _ => false
  end.

(** [update_pattern] at a key of the schema, on a file that can be
    examined: nothing when the list under the key holds the value; else the
    value goes to the end of that list, the file is written with all five
    lists, and [SCHEMA] itself grows when the list was its own.  On a file
    out of reach the load raises. *)
Lemma update_pattern_valid (file_type key v : string) (st : state) :
  well_formed st -> In key SCHEMA_keys ->
  let f := path_of file_type (toon st) in
  let old := cat (SCHEMA st) f key in
  update_pattern file_type key v st
  = if reachable f then
      Ok (if holds v old then st
          else {| SCHEMA := if has_list f key then SCHEMA st
                            else append_schema key (VStr v) (SCHEMA st);
                  toon := with_file file_type
                            (Json (doc_of (fun k => if String.eqb k key
                                                    then old ++ [VStr v]
                                                    else cat (SCHEMA st) f k)))
                            (toon st) |})
    else Raise PermissionError.
Proof.
  intros Hwf Hin f old. unfold update_pattern.
  assert (Hex : existsb (String.eqb key) SCHEMA_keys = true)
    by (apply existsb_exists; exists key; split;
        [exact Hin|apply String.eqb_refl]).
  rewrite Hex. cbn [negb]. cbv zeta.
  fold (path_of file_type (toon st)). fold f.
  rewrite load_toon_cases.
  destruct (reachable f) eqn:Hreach; [|now destruct f].
  assert (Hload : match f with
                  | Denied => Raise PermissionError
                  | _ => Ok (read f)
                  end = Ok (read f)) by (now destruct f).
  rewrite Hload. cbn [Py.bind].
  rewrite (load_toon_slot f key Hin).
  fold (holds v (content (SCHEMA st) (expected_slot f key))).
  rewrite content_expected_slot. fold (cat (SCHEMA st) f key). fold old.
  destruct (holds v old); cbn [negb]; [reflexivity|].
  unfold has_list, _save_toon.
  assert (Hdump : forall doc, dump doc f = Ok (Json doc))
    by (intros doc; now destruct f).
  destruct (expected_slot f key) as [k|l] eqn:E.
  - assert (k = key) as ->.
    { unfold expected_slot, loaded_slot in E.
      destruct f as [| |[]|]; try congruence.
      destruct (lookup key d) as [[]|]; congruence. }
    rewrite Hdump, to_json_load. unfold with_file.
    assert (Hdoc : doc_of (cat (append_schema key (VStr v) (SCHEMA st)) f)
                   = doc_of (fun k => if String.eqb k key
                                      then old ++ [VStr v]
                                      else cat (SCHEMA st) f k)).
    { unfold doc_of. f_equal. apply map_ext. intros k. f_equal. f_equal.
      destruct (String.eqb k key) eqn:Ek.
      - apply String.eqb_eq in Ek. subst k. unfold old, cat.
        rewrite <- !content_expected_slot, E. cbn [content].
        apply default_append_same. rewrite Hwf. exact Hin.
      - apply cat_append_other. intros ->. now rewrite String.eqb_refl in Ek. }
    rewrite Hdoc. now destruct (String.eqb file_type "scam").
  - rewrite Hdump, (to_json_set _ _ _ _ Hin). unfold with_file.
    assert (Hold : old = l).
    { unfold old, cat. now rewrite <- content_expected_slot, E. }
    rewrite Hold. now destruct (String.eqb file_type "scam").
Qed.

Lemma update_pattern_other_key (file_type key v : string) (st : state) :
  ~ In key SCHEMA_keys -> update_pattern file_type key v st = Ok st.
Proof.
  intros Hout. unfold update_pattern.
  destruct (existsb (String.eqb key) SCHEMA_keys) eqn:E; [|reflexivity].
  apply existsb_exists in E as (k & Hk & Ek).
  apply String.eqb_eq in Ek. subst k. contradiction.
Qed.




Lemma holds_In (v : string) (l : list value) :
  holds v l = true -> In (VStr v) l.
Proof.
  unfold holds. intros H. apply existsb_exists in H as (x & Hx & E).
  destruct x; try discriminate. cbn in E. apply String.eqb_eq in E. now subst.
Qed.

(** The state [update_pattern] leaves, at a key of the schema and on a file
    that can be examined. *)
Definition updated_state (file_type key v : string) (st : state) : state :=
  let f := path_of file_type (toon st) in
  let old := cat (SCHEMA st) f key in
  if holds v old then st
  else {| SCHEMA := if has_list f key then SCHEMA st
                    else append_schema key (VStr v) (SCHEMA st);
          toon := with_file file_type
                    (Json (doc_of (fun k => if String.eqb k key
                                            then old ++ [VStr v]
                                            else cat (SCHEMA st) f k)))
                    (toon st) |}.

Lemma update_pattern_reachable (file_type key v : string) (st : state) :
  well_formed st -> In key SCHEMA_keys ->
  reachable (path_of file_type (toon st)) = true ->
  update_pattern file_type key v st = Ok (updated_state file_type key v st).
Proof.
  intros Hwf Hin Hreach. rewrite (update_pattern_valid _ _ _ _ Hwf Hin).
  cbv zeta. now rewrite Hreach.
Qed.










(** X11.  What [_save_toon] writes, [_load_toon] reads back: a dict with the
    five keys of the schema gives, through a file that can be reached, the same
    five lists, whatever becomes of [SCHEMA] in between.  On a file out of
    reach nothing is written. *)
Theorem save_load_round_trip (schema schema' : list (string * list value))
    (d : data) (path : file) :
  map fst d = SCHEMA_keys ->
  if reachable path then
    exists d',
      _load_toon (_save_toon schema d path) = Ok d'
      /\ view schema' d' = view schema d
  else _save_toon schema d path = path.
Proof.
  intros Hkeys. destruct (reachable path) eqn:Hreach; [|now destruct path].
  assert (Hsave : _save_toon schema d path = Json (to_json schema d))
    by (now destruct path).
  rewrite Hsave, load_toon_cases. eexists. split; [reflexivity|].
  rewrite view_load_toon. unfold to_json.
  assert (Hview : map fst (view schema d) = SCHEMA_keys)
    by (unfold view; rewrite map_map; exact Hkeys).
  destruct (view schema d) as [|[k1 l1] [|[k2 l2] [|[k3 l3] [|[k4 l4]
             [|[k5 l5] [|]]]]]]; try discriminate.
  injection Hview as -> -> -> -> ->. reflexivity.
Qed.

Lemma save_load_witness :
  map fst (read Missing) = SCHEMA_keys
  /\ exists d',
       _load_toon (_save_toon SCHEMA_initial (read Missing) Missing) = Ok d'
       /\ view SCHEMA_initial d' = view SCHEMA_initial (read Missing).
Proof.
  assert (Hkeys : map fst (read Missing) = SCHEMA_keys) by reflexivity.
  split; [exact Hkeys|].
  exact (save_load_round_trip SCHEMA_initial SCHEMA_initial _ Missing Hkeys).
Defined.

End ManagerFacts.

(** ** The pattern agent *)

Module PatternFacts.

Import Text toon_files toon_manager LoadSpec ContainsFacts ManagerFacts
       DataModel pattern_agent.

(** *** The matches of a text *)

Definition is_str (v : value) : bool :=
  match v with
  | VStr _ => true
  | _ => false
  end.

Definition str_of (v : value) : string :=
  match v with
  | VStr s => s
  | _ => ""
  end.

(** Every keyword of every category is a string. *)
Definition all_strings (patterns : list (string * list value)) : bool :=
  forallb (fun kv => forallb is_str (snd kv)) patterns.

(** The keyword stands in the text, whatever the case of the letters. *)
Definition hit (text : string) (keyword : value) : bool :=
  contains (lower (str_of keyword)) (lower text).

Definition keywords_of (h : hits) : list string := fst (snd h) :: snd (snd h).

Definition hits_of (text : string) (patterns : list (string * list value))
  : list hits :=
  flat_map (fun kv => match filter (hit text) (snd kv) with
                      | [] => []
                      | k :: ks => [(fst kv, (str_of k, map str_of ks))]
                      end)
           patterns.

Lemma map_str_of (l : list value) :
  forallb is_str l = true -> map VStr (map str_of l) = l.
Proof.
  induction l as [|[] l IH]; cbn; try discriminate; [reflexivity|].
  intros H. now rewrite IH.
Qed.

Lemma forallb_filter {A : Type} (p q : A -> bool) (l : list A) :
  forallb p l = true -> forallb p (filter q l) = true.
Proof.
  rewrite !forallb_forall. intros H x Hx. apply filter_In in Hx as [Hx _].
  now apply H.
Qed.

Lemma found_in_cases (text : string) (keywords : list value) :
  found_in (lower text) keywords
  = if forallb is_str keywords then Ok (filter (hit text) keywords)
    else Raise AttributeError.
Proof.
  induction keywords as [|keyword keywords IH]; [reflexivity|].
  cbn [found_in forallb filter].
  destruct keyword; cbn [lower_of bind is_str andb]; try reflexivity.
  rewrite IH. destruct (forallb is_str keywords); reflexivity.
Qed.

Lemma check_matches_cases (text : string) (patterns : list (string * list value)) :
  _check_matches text patterns
  = if all_strings patterns
    then Ok (map (fun h => (fst h, strlist (keywords_of h))) (hits_of text patterns))
    else Raise AttributeError.
Proof.
  induction patterns as [|[category keywords] patterns IH]; [reflexivity|].
  cbn [_check_matches all_strings forallb hits_of flat_map fst snd].
  rewrite found_in_cases.
  destruct (forallb is_str keywords) eqn:E; cbn [bind andb]; [|reflexivity].
  rewrite IH. fold (all_strings patterns).
  destruct (all_strings patterns); cbn [bind]; [|reflexivity].
  pose proof (forallb_filter is_str (hit text) keywords E) as Hf.
  destruct (filter (hit text) keywords) as [|k ks]; [reflexivity|].
  cbn [app map fst snd]. unfold strlist, keywords_of. cbn [fst snd].
  change (str_of k :: map str_of ks) with (map str_of (k :: ks)).
  now rewrite (map_str_of _ Hf).
Qed.

(** The keywords a category is listed with are the keywords of the category
    that stand in the text. *)
Lemma hits_of_spec (text : string) (patterns : list (string * list value))
    (category keyword : string) :
  all_strings patterns = true ->
  (exists h, In h (hits_of text patterns)
             /\ fst h = category /\ In keyword (keywords_of h))
  <-> (exists keywords,
         In (category, keywords) patterns
         /\ In (VStr keyword) keywords
         /\ contains (lower keyword) (lower text) = true).
Proof.
  intros Hall. unfold all_strings in Hall. rewrite forallb_forall in Hall.
  unfold hits_of. split.
  - intros (h & Hh & Hc & Hk). apply in_flat_map in Hh as ([c keywords] & Hin & Hh).
    cbn [fst snd] in Hh. exists keywords.
    specialize (Hall _ Hin). cbn [snd] in Hall.
    pose proof (forallb_filter is_str (hit text) keywords Hall) as Hf.
    assert (Hsub : forall x, In x (filter (hit text) keywords) ->
                             In x keywords /\ hit text x = true)
      by (intros x; apply filter_In).
    destruct (filter (hit text) keywords) as [|k ks]; [contradiction|].
    destruct Hh as [<-|[]]. cbn [fst] in Hc. subst c.
    split; [exact Hin|].
    assert (Hx : exists x, In x (k :: ks) /\ str_of x = keyword).
    { unfold keywords_of in Hk. cbn [fst snd] in Hk.
      destruct Hk as [Hk|Hk]; [exists k; split; [now left|exact Hk]|].
      apply in_map_iff in Hk as (x & Hx & Hin'). exists x. split; [now right|].
      exact Hx. }
    destruct Hx as (x & Hx & <-).
    rewrite forallb_forall in Hf. specialize (Hf _ Hx).
    destruct (Hsub _ Hx) as [Hin' Hhit].
    destruct x; try discriminate. cbn [str_of] in *. split; assumption.
  - intros (keywords & Hin & Hk & Hc).
    assert (Hf : In (VStr keyword) (filter (hit text) keywords))
      by (apply filter_In; split; assumption).
    destruct (filter (hit text) keywords) as [|k ks] eqn:E; [contradiction|].
    exists (category, (str_of k, map str_of ks)). split.
    + apply in_flat_map. exists (category, keywords). split; [exact Hin|].
      cbn [fst snd]. rewrite E. now left.
    + split; [reflexivity|]. unfold keywords_of. cbn [fst snd].
      change (In keyword (map str_of (k :: ks))).
      apply in_map_iff. exists (VStr keyword). split; [reflexivity|exact Hf].
Qed.

(** *** The reasoning *)

Lemma all_keywords_from (m : list hits) (acc : list value) :
  fold_left
    (fun acc kv => all <- acc ;; k_list <- Py.iter (snd kv) ;; Ok (all ++ k_list))
    (map (fun h => (fst h, strlist (keywords_of h))) m) (Ok acc)
  = Ok (acc ++ map VStr (List.concat (map keywords_of m))).
Proof.
  revert acc. induction m as [|h m IH]; intros acc; cbn [map fold_left List.concat].
  - now rewrite app_nil_r.
  - cbn [bind snd Py.iter strlist]. rewrite IH, map_app, app_assoc. reflexivity.
Qed.

Lemma all_keywords_matches (m : list hits) :
  all_keywords (map (fun h => (fst h, strlist (keywords_of h))) m)
  = Ok (map VStr (List.concat (map keywords_of m))).
Proof. unfold all_keywords. now rewrite all_keywords_from. Qed.

Lemma examples_strings (keywords : list string) :
  examples (map VStr keywords) = Ok (join "', '" (firstn 3 keywords)).
Proof. unfold examples. now rewrite firstn_map, strs_map_VStr. Qed.

Definition nothing_found : string :=
  "I did not find any specific known patterns in this text.".

(** The sentence of [handle] for the two lists of matches. *)
Definition reasoning_of (scam positive : list hits) : string :=
  join " "
    ((match scam with
      | [] => []
      | _ => [("I found phrases that are commonly used in suspicious messages such as '"
               ++ join "', '" (firstn 3 (List.concat (map keywords_of scam)))
               ++ "'.")%string]
      end)
     ++ (match positive with
         | [] => []
         | _ => [("This message contains verified indicators from our trusted list, such as '"
                  ++ join "', '" (firstn 3 (List.concat (map keywords_of positive)))
                  ++ "'.")%string]
         end)
     ++ (match scam, positive with
         | [], [] => [nothing_found]
         | _, _ => []
         end)).

Lemma reasoning_nothing (scam positive : list hits) :
  reasoning_of scam positive = nothing_found <-> scam = [] /\ positive = [].
Proof.
  split.
  - unfold reasoning_of.
    destruct scam as [|h scam]; [destruct positive as [|h positive]|];
      [tauto| |].
    + cbn. discriminate.
    + destruct positive as [|h' positive]; cbn; discriminate.
  - intros [-> ->]. reflexivity.
Qed.

(** What [core] sends. *)
Definition pattern_payload (clean_text : string) : value :=
  VDict [("clean_text", VStr clean_text)].

(** The patterns of the two files as the agent reads them, where the files
    can be examined. *)
Definition scam_view (st : state) : list (string * list value) :=
  view (SCHEMA st) (read (scam_patterns_file (toon st))).

Definition positive_view (st : state) : list (string * list value) :=
  view (SCHEMA st) (read (positive_patterns_file (toon st))).

(** Both files can be examined. *)
Definition in_reach (st : state) : bool :=
  reachable (scam_patterns_file (toon st))
  && reachable (positive_patterns_file (toon st)).

Lemma load_toon_reachable (path : file) :
  _load_toon path
  = if reachable path then Ok (read path) else Raise PermissionError.
Proof. rewrite load_toon_cases. now destruct path. Qed.

Definition result_of (st : state) (text : string) : PatternMatchResult :=
  {| p_scam_matches := hits_of text (scam_view st);
     p_positive_matches := hits_of text (positive_view st);
     p_reasoning := reasoning_of (hits_of text (scam_view st))
                                 (hits_of text (positive_view st)) |}.

Lemma handle_cases (st : state) (text : string) :
  handle st (pattern_payload text)
  = if in_reach st then
      if all_strings (scam_view st) && all_strings (positive_view st)
      then Ok (VDict [("status", VStr "ok");
                      ("data", py_of_pattern (result_of st text))])
      else Raise AttributeError
    else Raise PermissionError.
Proof.
  unfold handle, pattern_payload, in_reach.
  change (Py.get (VDict [("clean_text", VStr text)]) "clean_text" (VStr ""))
    with (Ok (VStr text)).
  cbn [bind]. cbv zeta. unfold get_scam_patterns, get_positive_patterns.
  rewrite !load_toon_reachable.
  destruct (reachable (scam_patterns_file (toon st))); [|reflexivity].
  destruct (reachable (positive_patterns_file (toon st))); [|reflexivity].
  cbn [bind andb]. fold (scam_view st). fold (positive_view st).
  rewrite !check_matches_cases.
  destruct (all_strings (scam_view st)); cbn [bind andb]; [|reflexivity].
  destruct (all_strings (positive_view st)); cbn [bind]; [|reflexivity].
  unfold result_of, py_of_pattern, py_of_matches, reasoning_of.
  cbn [p_scam_matches p_positive_matches p_reasoning].
  pose proof (all_keywords_matches (hits_of text (scam_view st))) as Hs.
  pose proof (all_keywords_matches (hits_of text (positive_view st))) as Hp.
  destruct (hits_of text (scam_view st)) as [|h1 m1];
    destruct (hits_of text (positive_view st)) as [|h2 m2];
    cbn [map truthy bind app negb andb]; cbn [map] in Hs, Hp;
    rewrite ?Hs; cbn [bind]; rewrite ?examples_strings; cbn [bind app];
    rewrite ?Hp; cbn [bind]; rewrite ?examples_strings; reflexivity.
Qed.

(** *** What the agent answers *)

(** The knowledge base, as far as the agent reads it, holds strings only. *)
Definition strings_only (st : state) : Prop :=
  all_strings (scam_view st) = true /\ all_strings (positive_view st) = true.

(** The matches list the keyword under the category. *)
Definition listed (m : list hits) (category keyword : string) : Prop :=
  exists h, In h m /\ fst h = category /\ In keyword (keywords_of h).

(** The patterns hold the keyword under the category. *)
Definition known (patterns : list (string * list value))
    (category keyword : string) : Prop :=
  exists keywords, In (category, keywords) patterns /\ In (VStr keyword) keywords.

Definition found (text keyword : string) : Prop :=
  contains (lower keyword) (lower text) = true.

Lemma listed_hits_of (text : string) (patterns : list (string * list value))
    (category keyword : string) :
  all_strings patterns = true ->
  listed (hits_of text patterns) category keyword
  <-> known patterns category keyword /\ found text keyword.
Proof.
  intros Hall. unfold listed, known, found.
  rewrite (hits_of_spec text patterns category keyword Hall).
  split.
  - intros (keywords & H1 & H2 & H3). split; [now exists keywords|exact H3].
  - intros [(keywords & H1 & H2) H3]. now exists keywords.
Qed.

(** X14.  The pattern agent on the text [core] sends.  Over two files that can
    be examined, when the patterns of both files are strings it answers: a
    keyword is listed as a scam match, under its category, exactly when the
    scam patterns hold it under that category and it stands in the text,
    whatever the case of the letters; the same for the positive matches; and
    the reasoning is the sentence for "nothing found" exactly when both lists
    of matches are empty.  When a pattern of either file is no string, it
    raises [AttributeError] on every text.  When a file cannot be examined, it
    raises the [PermissionError] of the load. *)
Theorem pattern_handle_matches (st : state) (text : string) :
  if in_reach st then
    (strings_only st ->
     exists p,
       handle st (pattern_payload text)
       = Ok (VDict [("status", VStr "ok"); ("data", py_of_pattern p)])
       /\ (forall category keyword,
             listed (p_scam_matches p) category keyword
             <-> known (scam_view st) category keyword /\ found text keyword)
       /\ (forall category keyword,
             listed (p_positive_matches p) category keyword
             <-> known (positive_view st) category keyword
                 /\ found text keyword)
       /\ (p_reasoning p = nothing_found
           <-> p_scam_matches p = [] /\ p_positive_matches p = []))
    /\ (~ strings_only st ->
        handle st (pattern_payload text) = Raise AttributeError)
  else handle st (pattern_payload text) = Raise PermissionError.
Proof.
  rewrite handle_cases. destruct (in_reach st); [|reflexivity].
  unfold strings_only. split.
  - intros [Hs Hp]. rewrite Hs, Hp. cbn [andb].
    exists (result_of st text). split; [reflexivity|].
    cbn [result_of p_scam_matches p_positive_matches p_reasoning].
    split; [intros; now apply listed_hits_of|].
    split; [intros; now apply listed_hits_of|].
    apply reasoning_nothing.
  - intros Hno.
    destruct (all_strings (scam_view st)), (all_strings (positive_view st));
      cbn [andb]; try reflexivity.
    exfalso. apply Hno. now split.
Qed.

(** *** A pattern learned is a pattern matched *)

Lemma scam_view_patterns (st : state) :
  scam_view st = map (fun key => (key, patterns st "scam" key)) SCHEMA_keys.
Proof.
  unfold scam_view. rewrite view_load_toon.
  apply map_ext_in. intros key Hin. now rewrite (patterns_cat st "scam" key Hin).
Qed.

Lemma positive_view_patterns (st : state) :
  positive_view st
  = map (fun key => (key, patterns st "positive" key)) SCHEMA_keys.
Proof.
  unfold positive_view. rewrite view_load_toon.
  apply map_ext_in. intros key Hin.
  now rewrite (patterns_cat st "positive" key Hin).
Qed.

Lemma all_strings_by_key (c : string -> list value) :
  all_strings (map (fun key => (key, c key)) SCHEMA_keys) = true
  <-> forall key x, In key SCHEMA_keys -> In x (c key) -> is_str x = true.
Proof.
  unfold all_strings. rewrite forallb_forall. split.
  - intros H key x Hkey Hx.
    specialize (H (key, c key)). cbn [snd] in H. rewrite forallb_forall in H.
    apply H; [|exact Hx]. apply in_map_iff. now exists key.
  - intros H kv Hkv. apply in_map_iff in Hkv as (key & <- & Hkey).
    cbn [snd]. apply forallb_forall. intros x Hx. now apply (H key).
Qed.








End PatternFacts.

(** ** The end of the analysis *)

Module CoreFacts.

Import Text toon_files toon_manager DataModel core.

(** X19.  The automatic learning at the end of [run_full_analysis] never runs.
    The score stored with an analysis is 90, 60 or 10, which is neither above
    90 nor below 10, so [update_pattern] is called on no text and for no
    verdict.  And no category of the decision agent holds FAKE or SUSPICIOUS:
    for every outcome of the stages before it, the stored score is 10. *)
Theorem auto_learning_never_runs :
  (forall (text verdict : string) (st : state),
      auto_learning text (stored_risk_score verdict) st = Ok st)
  /\ (forall clean_text extraction research pattern_out salary_out
             toon_proposal,
        exists d,
          decision_agent.handle
            (decision_payload clean_text extraction research pattern_out
               salary_out toon_proposal) = Ok d
          /\ stored_risk_score (decision_agent.result d) = 10).
Proof.
  split.
  - intros text verdict st. unfold auto_learning, stored_risk_score. cbv zeta.
    destruct (contains "FAKE" verdict); [reflexivity|].
    destruct (contains "SUSPICIOUS" verdict); reflexivity.
  - intros clean_text extraction research pattern_out salary_out toon_proposal.
    destruct (DecisionSpec.handle_typed_payload clean_text extraction research
                pattern_out salary_out toon_proposal)
      as (d & Hd & _ & Hresult).
    exists d. split; [exact Hd|]. rewrite Hresult.
    unfold DecisionSpec.spec_category.
    destruct (10 <=? decision_agent.internal_risk_score d); [reflexivity|].
    destruct (decision_agent.internal_risk_score d <=? 2); reflexivity.
Qed.

End CoreFacts.

(** ** The research agent: emails and domains *)

Module ResearchFacts.

Import Text ContainsFacts DataModel extraction_agent OnlineResearchAgent.

(** *** Domain analysis *)

(** A trusted name stands in the domain. *)
Definition has_trusted_name (domain : string) : bool :=
  any_in trusted_domains (lower domain).

Definition has_suspicious_word (domain : string) : bool :=
  any_in ["job"; "hire"; "work"; "earn"; "cash"; "money"] (lower domain).

Lemma sort_domains_strings (domains : list string) (analysis : domain_analysis) :
  sort_domains (map VStr domains) analysis
  = Ok {| total_domains := total_domains analysis;
          trusted := trusted analysis
                     ++ map VStr (filter has_trusted_name domains);
          suspicious :=
            suspicious analysis
            ++ map VStr (filter (fun d => negb (has_trusted_name d)
                                          && has_suspicious_word d) domains);
          unknown :=
            unknown analysis
            ++ map VStr (filter (fun d => negb (has_trusted_name d)
                                          && negb (has_suspicious_word d))
                                domains) |}.
Proof.
  revert analysis.
  induction domains as [|d domains IH]; intros analysis; cbn [map filter].
  - rewrite !app_nil_r. now destruct analysis.
  - cbn [sort_domains pattern_agent.lower_of bind].
    fold (has_trusted_name d). fold (has_suspicious_word d).
    rewrite IH.
    destruct (has_trusted_name d); [|destruct (has_suspicious_word d)];
      cbn [negb andb total_domains trusted suspicious unknown map];
      rewrite <- ?app_assoc; reflexivity.
Qed.

Lemma sort_domains_raises (domains : list value) (analysis : domain_analysis) :
  forallb PatternFacts.is_str domains = false ->
  sort_domains domains analysis = Raise AttributeError.
Proof.
  revert analysis.
  induction domains as [|d domains IH]; intros analysis; [discriminate|].
  cbn [forallb sort_domains].
  destruct d; cbn [PatternFacts.is_str andb pattern_agent.lower_of bind];
    try reflexivity.
  intros H. now apply IH.
Qed.

Lemma length_filter_three {A : Type} (p q : A -> bool) (l : list A) :
  (List.length (filter p l)
   + List.length (filter (fun x => negb (p x) && q x) l)
   + List.length (filter (fun x => negb (p x) && negb (q x)) l))%nat
  = List.length l.
Proof.
  induction l as [|x l IH]; [reflexivity|]. cbn [filter].
  destruct (p x), (q x); cbn [negb andb List.length]; lia.
Qed.

Lemma analyze_domains_strings (domains : list string) :
  _analyze_domains (strlist domains)
  = Ok {| total_domains := Z.of_nat (List.length domains);
          trusted := map VStr (filter has_trusted_name domains);
          suspicious :=
            map VStr (filter (fun d => negb (has_trusted_name d)
                                       && has_suspicious_word d) domains);
          unknown :=
            map VStr (filter (fun d => negb (has_trusted_name d)
                                       && negb (has_suspicious_word d))
                             domains) |}.
Proof.
  unfold _analyze_domains.
  rewrite len_strlist. cbn [bind]. unfold strlist. cbn [Py.iter bind].
  now rewrite sort_domains_strings.
Qed.

(** X6.  [_analyze_domains] on a list of domain names: every domain goes to one
    of the three lists, in the order of the list: to [trusted] when a trusted
    name stands anywhere in it, whatever the case of the letters and whatever
    else the domain holds; else to [suspicious] when one of the six words
    stands in it; else to [unknown].  [total_domains] counts the three lists
    together.  On a list with an entry that is no string it raises
    [AttributeError]. *)
Theorem analyze_domains_sorts :
  (forall domains : list string,
      exists a,
        _analyze_domains (strlist domains) = Ok a
        /\ trusted a = map VStr (filter has_trusted_name domains)
        /\ suspicious a
           = map VStr (filter (fun d => negb (has_trusted_name d)
                                        && has_suspicious_word d) domains)
        /\ unknown a
           = map VStr (filter (fun d => negb (has_trusted_name d)
                                        && negb (has_suspicious_word d))
                              domains)
        /\ total_domains a
           = Z.of_nat (List.length (trusted a) + List.length (suspicious a)
                       + List.length (unknown a))
        /\ (forall d name before rest,
              In d domains -> In name trusted_domains ->
              lower d = (before ++ name ++ rest)%string ->
              In (VStr d) (trusted a)))
  /\ (forall domains : list value,
        forallb PatternFacts.is_str domains = false ->
        _analyze_domains (VList domains) = Raise AttributeError).
Proof.
  split.
  - intros domains. rewrite analyze_domains_strings.
    eexists. split; [reflexivity|].
    cbn [total_domains trusted suspicious unknown].
    split; [reflexivity|]. split; [reflexivity|]. split; [reflexivity|].
    split.
    + rewrite !length_map, length_filter_three. reflexivity.
    + intros d name before rest Hd Hname Hlower.
      apply in_map, filter_In. split; [exact Hd|].
      unfold has_trusted_name, any_in. apply existsb_exists.
      exists name. split; [exact Hname|].
      apply contains_substring. now exists before, rest.
  - intros domains Hno. unfold _analyze_domains. cbn [len bind Py.iter].
    now apply sort_domains_raises.
Qed.

(** *** Email verification *)

Definition has_at (email : string) : bool := contains "@" email.

(** What stands between the first "@" and the next. *)
Definition domain (email : string) : string := toon_learning_agent.after "@" email.

Definition is_personal (email : string) : bool :=
  existsb (String.eqb (domain email)) personal_domains.

Definition company_clean (company : string) : string :=
  remove " " (lower company).

Definition matches_company (company email : string) : bool :=
  contains (company_clean company) (lower (domain email)).

Definition has_hiring_word (domain : string) : bool :=
  any_in ["job"; "hire"; "work"; "earn"; "cash"] (lower domain).

Lemma check_emails_strings (company : string) (emails : list string)
    (v : email_verification) :
  check_emails (VStr company) (map VStr emails) v
  = Ok {| emails_found := emails_found v;
          domain_matches :=
            domain_matches v
            ++ map VStr (filter (fun e => has_at e && matches_company company e)
                                emails);
          suspicious_domains := suspicious_domains v;
          personal_emails :=
            personal_emails v
            ++ map VStr (filter (fun e => has_at e && is_personal e) emails);
          professional_emails :=
            professional_emails v
            ++ map VStr (filter (fun e => has_at e && negb (is_personal e))
                                emails) |}.
Proof.
  revert v. induction emails as [|e emails IH]; intros v; cbn [map filter].
  - rewrite !app_nil_r. now destruct v.
  - cbn [check_emails in_ bind]. fold (has_at e).
    destruct (has_at e); cbn [bind andb domain_of pattern_agent.lower_of].
    + fold (domain e). fold (is_personal e). fold (company_clean company).
      fold (matches_company company e).
      destruct (is_personal e), (matches_company company e);
        cbn [bind negb]; rewrite IH;
        cbn [append_personal_email append_professional_email
             append_domain_match emails_found domain_matches
             suspicious_domains personal_emails professional_emails map];
        rewrite <- ?app_assoc; reflexivity.
    + now rewrite IH.
Qed.

Lemma check_domains_strings (domains : list string) (v : email_verification) :
  check_domains (map VStr domains) v
  = Ok {| emails_found := emails_found v;
          domain_matches := domain_matches v;
          suspicious_domains :=
            suspicious_domains v ++ map VStr (filter has_hiring_word domains);
          personal_emails := personal_emails v;
          professional_emails := professional_emails v |}.
Proof.
  revert v. induction domains as [|d domains IH]; intros v; cbn [map filter].
  - rewrite app_nil_r. now destruct v.
  - cbn [check_domains pattern_agent.lower_of bind]. fold (has_hiring_word d).
    rewrite IH. destruct (has_hiring_word d);
      cbn [append_suspicious_domain emails_found domain_matches
           suspicious_domains personal_emails professional_emails map];
      rewrite <- ?app_assoc; reflexivity.
Qed.

Lemma verify_emails_strings (emails domains : list string) (company : string) :
  _verify_emails (strlist emails) (strlist domains) (VStr company)
  = Ok {| emails_found := Z.of_nat (List.length emails);
          domain_matches :=
            map VStr (filter (fun e => has_at e && matches_company company e)
                             emails);
          suspicious_domains := map VStr (filter has_hiring_word domains);
          personal_emails :=
            map VStr (filter (fun e => has_at e && is_personal e) emails);
          professional_emails :=
            map VStr (filter (fun e => has_at e && negb (is_personal e))
                             emails) |}.
Proof.
  unfold _verify_emails. rewrite len_strlist. cbn [bind].
  unfold strlist. cbn [Py.iter bind].
  rewrite check_emails_strings. cbn [bind]. rewrite check_domains_strings.
  reflexivity.
Qed.

Lemma any_in_incl (words words' : list string) (s : string) :
  incl words words' -> any_in words s = true -> any_in words' s = true.
Proof.
  unfold any_in. rewrite !existsb_exists. intros Hincl (w & Hw & Hc).
  exists w. split; [now apply Hincl|exact Hc].
Qed.

Lemma contains_nil (s : string) : contains "" s = true.
Proof. apply contains_substring. now exists "", s. Qed.

(** X7.  [_verify_emails] on lists of strings.  Every email is counted; an
    email with an "@" is listed as personal when what stands between its first
    "@" and the next is one of the five personal domains, letter for letter,
    and as professional when it is not, so never as both; an email without "@"
    is in no list.  An email is a domain match when the company name, lowered
    and without its spaces, stands in that domain, so with a company name of
    spaces only every email with an "@" is one.  And every domain listed as
    suspicious here is one [_analyze_domains] lists as trusted or as
    suspicious, never as unknown. *)
Theorem verify_emails_sorts (emails domains : list string) (company : string) :
  exists v a,
    _verify_emails (strlist emails) (strlist domains) (VStr company) = Ok v
    /\ _analyze_domains (strlist domains) = Ok a
    /\ emails_found v = Z.of_nat (List.length emails)
    /\ (forall e,
          (In (VStr e) (personal_emails v)
           <-> In e emails /\ has_at e = true /\ In (domain e) personal_domains)
          /\ (In (VStr e) (professional_emails v)
              <-> In e emails /\ has_at e = true
                  /\ ~ In (domain e) personal_domains)
          /\ (In (VStr e) (domain_matches v)
              <-> In e emails /\ has_at e = true
                  /\ contains (company_clean company) (lower (domain e)) = true))
    /\ (company_clean company = "" ->
        domain_matches v = map VStr (filter has_at emails))
    /\ (forall d, In d (suspicious_domains v) ->
                  In d (trusted a) \/ In d (suspicious a)).
Proof.
  rewrite verify_emails_strings, analyze_domains_strings.
  eexists. eexists. split; [reflexivity|]. split; [reflexivity|].
  cbn [emails_found domain_matches suspicious_domains personal_emails
       professional_emails trusted suspicious].
  split; [reflexivity|].
  assert (Hpers : forall e, is_personal e = true <-> In (domain e) personal_domains).
  { intros e. unfold is_personal. rewrite existsb_exists. split.
    - intros (x & Hx & E). apply String.eqb_eq in E. now subst.
    - intros H. exists (domain e). split; [exact H|apply String.eqb_refl]. }
  assert (Hin : forall (p : string -> bool) e,
             In (VStr e) (map VStr (filter p emails))
             <-> In e emails /\ p e = true).
  { intros p e. rewrite in_map_iff. split.
    - intros (x & [= ->] & Hx). now apply filter_In.
    - intros H. exists e. split; [reflexivity|now apply filter_In]. }
  split; [|split].
  - intros e. rewrite !Hin, !andb_true_iff, negb_true_iff, <- Hpers.
    rewrite <- not_true_iff_false. unfold matches_company. tauto.
  - intros Hclean. f_equal. apply filter_ext. intros e.
    unfold matches_company. rewrite Hclean, contains_nil. apply andb_true_r.
  - intros d Hd. apply in_map_iff in Hd as (x & <- & Hx).
    apply filter_In in Hx as [Hx Hword].
    destruct (has_trusted_name x) eqn:E.
    + left. apply in_map, filter_In. now split.
    + right. apply in_map, filter_In. split; [exact Hx|].
      rewrite E. cbn [negb andb]. unfold has_suspicious_word.
      apply (any_in_incl ["job"; "hire"; "work"; "earn"; "cash"]);
        [|exact Hword].
      intros w Hw. cbn in Hw |- *. tauto.
Qed.

End ResearchFacts.

(** ** The research agent: the company *)

Module CompanyFacts.

Import Text DataModel extraction_agent OnlineResearchAgent.

(** What every answer of [_verify_company] looks like. *)
Definition well_shaped (r : company_verification) : Prop :=
  (List.length (sources r) <= 5)%nat
  /\ In (online_presence r) ["none"; "weak"; "moderate"; "strong"; "unknown"]
  /\ (found r = false -> sources r = [])
  /\ (In (online_presence r) ["moderate"; "strong"] -> found r = true).

Definition sound (c : cache) : Prop := Forall (fun kr => well_shaped (snd kr)) c.

Lemma cached_In (cache_key : string) (c : cache) (r : company_verification) :
  cached cache_key c = Some r -> In (cache_key, r) c.
Proof.
  induction c as [|[k r'] c IH]; cbn [cached]; [discriminate|].
  destruct (String.eqb cache_key k) eqn:E.
  - apply String.eqb_eq in E. intros [= ->]. subst. now left.
  - intros H. right. now apply IH.
Qed.

Lemma cached_remember (cache_key : string) (r : company_verification) (c : cache) :
  cached cache_key c = None -> cached cache_key (remember cache_key r c) = Some r.
Proof.
  unfold remember. induction c as [|[k r'] c IH]; cbn [cached app].
  - now rewrite String.eqb_refl.
  - destruct (String.eqb cache_key k); [discriminate|exact IH].
Qed.

Lemma mapM_length {A B : Type} (f : A -> res B) (l : list A) (l' : list B) :
  mapM f l = Ok l' -> List.length l' = List.length l.
Proof.
  revert l'. induction l as [|a l IH]; intros l'; cbn [mapM].
  - now intros [= <-].
  - destruct (f a); [|discriminate]. cbn [Py.bind].
    destruct (mapM f l) as [r|]; [|discriminate]. cbn [Py.bind].
    intros [= <-]. cbn. now rewrite (IH r).
Qed.

Ltac shape := unfold well_shaped; cbn; intuition (discriminate || lia).

Lemma mock_well_shaped (company : string) :
  exists r,
    _mock_company_verification (VStr company) = Ok r /\ well_shaped r.
Proof.
  unfold _mock_company_verification. cbv zeta. cbn [pattern_agent.lower_of Py.bind].
  destruct (any_in _ (lower company)); eexists; (split; [reflexivity|]); shape.
Qed.

(** X8.  [_verify_company] always answers for a company name, whatever the
    search library does, and it looks a company up once: the answer is kept in
    the cache, and every later call for the same name returns it as it is,
    whether the search is still available or not and whatever it would answer
    now.  An answer lists at most five sources, and none when the company was
    not found. *)
Theorem verify_company_once (search search' : option DDGS) (c : cache)
    (company : string) :
  sound c ->
  exists r c',
    _verify_company search c (VStr company) = Ok (r, c')
    /\ well_shaped r
    /\ sound c'
    /\ _verify_company search' c' (VStr company) = Ok (r, c').
Proof.
  intros Hsound. unfold _verify_company. cbn [eq_str].
  destruct (String.eqb company "Unknown").
  { eexists. exists c. split; [reflexivity|]. split; [shape|]. now split. }
  cbv zeta.
  destruct (cached ("company_" ++ company) c) as [r|] eqn:Hc.
  { exists r, c. split; [reflexivity|]. split.
    - apply cached_In in Hc. unfold sound in Hsound.
      rewrite Forall_forall in Hsound. exact (Hsound _ Hc).
    - split; [exact Hsound|]. now rewrite Hc. }
  match goal with
  | |- context [Py.bind ?m _] =>
      assert (Hr : exists r, m = Ok r /\ well_shaped r)
  end.
  { destruct search as [ddgs|]; [|apply mock_well_shaped].
    destruct (session ddgs); [|eexists; split; [reflexivity|shape]].
    generalize (extend_results ddgs
                  (firstn 2 [(company ++ " official website")%string;
                             (company ++ " company reviews")%string;
                             (company ++ " careers")%string]) [])
      as all_results.
    intros all_results.
    destruct (truthy (VList all_results));
      [|eexists; split; [reflexivity|shape]].
    destruct (mapM _ (firstn 5 all_results)) as [links|e] eqn:E;
      [|eexists; split; [reflexivity|shape]].
    apply mapM_length in E. rewrite length_firstn in E.
    assert (Hlinks : (List.length links <= 5)%nat) by lia.
    destruct (match all_results with
              | r :: _ => Py.get r "body" (VStr "")
              | [] => Ok (VStr "")
              end);
      destruct (5 <=? Z.of_nat (List.length all_results));
      eexists; (split; [reflexivity|]);
      unfold well_shaped; cbn; intuition discriminate. }
  destruct Hr as (r & -> & Hshape). cbn [Py.bind].
  exists r, (remember ("company_" ++ company) r c).
  split; [reflexivity|]. split; [exact Hshape|]. split.
  - unfold sound, remember. apply Forall_app. split; [exact Hsound|].
    constructor; [exact Hshape|constructor].
  - now rewrite (cached_remember _ r c Hc).
Qed.

Lemma verify_company_witness :
  exists r c',
    _verify_company None [] (VStr "Google India") = Ok (r, c')
    /\ well_shaped r.
Proof.
  assert (Hsound : sound []) by constructor.
  destruct (verify_company_once None None [] "Google India" Hsound)
    as (r & c' & H & Hshape & _).
  exists r, c'. split; [exact H|exact Hshape].
Defined.

(** *** Scam reports *)

Definition no_reports : scam_reports :=
  {| reports_found := false;
     reports_sources := [];
     reports_summary_ := NoScamReportsFound |}.

Definition scam_words : list string :=
  ["scam"; "fraud"; "fake"; "beware"; "warning"; "complaint"].

(** The body of a search result, where [r.get('body', '').lower()] can be
    taken: the result is a dict, and its body, when it has one, a string. *)
Definition body_of (r : value) : option string :=
  match r with
  | VDict d =>
      match lookup "body" d with
      | None => Some ""
      | Some (VStr body) => Some body
      | Some _ => None
      end
  | _ => None
  end.

Definition readable (r : value) : bool :=
  match body_of r with Some _ => true | None => false end.

(** The result reads as a scam report: one of the six words stands in its
    lowered body. *)
Definition scam_report (r : value) : bool :=
  match body_of r with
  | Some body => any_in scam_words (lower body)
  | None => false
  end.

(** [r.get('link', '')] on a dict. *)
Definition link_of (r : value) : value :=
  match r with
  | VDict d => match lookup "link" d with Some link => link | None => VStr "" end
  | _ => VStr ""
  end.

Lemma mentions_scam_body (r : value) :
  mentions_scam r
  = match body_of r with
    | Some body => Ok (any_in scam_words (lower body))
    | None => Raise AttributeError
    end.
Proof.
  unfold mentions_scam, body_of. cbv zeta.
  destruct r; try reflexivity. cbn [Py.get Py.bind].
  destruct (lookup "body" d) as [[]|]; reflexivity.
Qed.

(** The filter of [_check_scam_reports] keeps the results that read as scam
    reports, in their order; it raises when a result cannot be read. *)
Lemma relevant_filter (scam_results : list value) :
  relevant scam_results
  = if forallb readable scam_results
    then Ok (filter scam_report scam_results)
    else Raise AttributeError.
Proof.
  induction scam_results as [|r rs IH]; [reflexivity|].
  cbn [relevant forallb filter]. rewrite mentions_scam_body.
  unfold readable at 1, scam_report. destruct (body_of r); [|reflexivity].
  cbn [Py.bind andb]. rewrite IH.
  destruct (forallb readable rs); reflexivity.
Qed.

Lemma links_of_readable (l : list value) :
  forallb readable l = true ->
  mapM (fun r => Py.get r "link" (VStr "")) l = Ok (map link_of l).
Proof.
  induction l as [|r l IH]; [reflexivity|].
  cbn [forallb mapM map]. rewrite andb_true_iff. intros [Hr Hl].
  rewrite (IH Hl). destruct r; try discriminate. reflexivity.
Qed.

Lemma In_firstn {A : Type} (n : nat) (l : list A) (x : A) :
  In x (firstn n l) -> In x l.
Proof.
  revert l. induction n as [|n IH]; intros [|a l]; cbn [firstn];
    try contradiction.
  intros [->|H]; [now left|]. right. now apply IH.
Qed.

Lemma forallb_firstn {A : Type} (p : A -> bool) (n : nat) (l : list A) :
  forallb p l = true -> forallb p (firstn n l) = true.
Proof.
  rewrite !forallb_forall. intros H x Hx. apply H. now apply (In_firstn n).
Qed.

Lemma forallb_filter_of {A : Type} (p q : A -> bool) (l : list A) :
  forallb p l = true -> forallb p (filter q l) = true.
Proof.
  rewrite !forallb_forall. intros H x Hx. apply filter_In in Hx as [Hx _].
  now apply H.
Qed.

(** The two searches of [_check_scam_reports], and what they return. *)
Definition scam_queries (company : string) : list string :=
  [(company ++ " scam")%string; (company ++ " fraud")%string].

Definition scam_results (ddgs : DDGS) (company : string) : list value :=
  extend_results ddgs (scam_queries company) [].

(** The reports among them: the results that read as scam reports, when
    every result can be read and the session of the library does not fail;
    none otherwise, an exception being logged and dropped. *)
Definition reported (ddgs : DDGS) (company : string) : list value :=
  match session ddgs with
  | Ok _ =>
      if forallb readable (scam_results ddgs company)
      then filter scam_report (scam_results ddgs company)
      else []
  | Raise _ => []
  end.

(** X20.  [_check_scam_reports] answers for every company name, whatever the
    search library returns or raises.  Without the library, and for the company
    Unknown, it finds no report.  With the library it makes two searches, for
    the name followed by scam and by fraud, and keeps, in their order, the
    results whose lowered body holds one of the six words.  It finds a report
    exactly when it keeps a result; the sources are then the links of the first
    three results kept, and the summary counts all of them.  When the session
    of the library fails, or one result is no dict or has a body that is no
    string, it finds no report at all. *)
Theorem check_scam_reports_found (search : option DDGS) (company : string)
    (domains : value) :
  exists reports,
    _check_scam_reports search (VStr company) domains = Ok reports
    /\ match search with
       | None => reports = no_reports
       | Some ddgs =>
           let kept :=
             if String.eqb company "Unknown" then [] else reported ddgs company in
           match kept with
           | [] => reports = no_reports
           | _ :: _ =>
               reports
               = {| reports_found := true;
                    reports_sources := map link_of (firstn 3 kept);
                    reports_summary_ :=
                      FoundPotentialScamReports (Z.of_nat (List.length kept)) |}
           end
       end.
Proof.
  unfold _check_scam_reports. cbv zeta. cbn [eq_str]. fold no_reports.
  destruct (String.eqb company "Unknown") eqn:Eu.
  { exists no_reports. split; [reflexivity|]. now destruct search. }
  destruct search as [ddgs|]; [|now exists no_reports].
  unfold reported, scam_results, scam_queries.
  change (firstn 2 [(company ++ " scam")%string; (company ++ " fraud")%string;
                    (company ++ " fake job")%string])
    with [(company ++ " scam")%string; (company ++ " fraud")%string].
  destruct (session ddgs); [|now exists no_reports].
  set (results := extend_results ddgs _ []).
  rewrite relevant_filter.
  destruct (truthy (VList results)) eqn:Hsome.
  2: { exists no_reports. split; [reflexivity|].
       destruct results; [reflexivity|discriminate]. }
  destruct (forallb readable results) eqn:Hread; [|now exists no_reports].
  destruct (filter scam_report results) as [|r kept] eqn:Hkept;
    [now exists no_reports|].
  cbn [truthy]. rewrite links_of_readable.
  - eexists. split; reflexivity.
  - apply forallb_firstn. rewrite <- Hkept. now apply forallb_filter_of.
Qed.

(** A library whose first search returns a complaint and a page that is
    none, and whose second search raises. *)
Definition sample_ddgs : DDGS :=
  {| session := Ok tt;
     text := fun query =>
       if contains "scam" query
       then Ok [VDict [("title", VStr "Acme reviews");
                       ("href", VStr "https://example.org/acme");
                       ("body", VStr "Beware: Acme asked me for a deposit")];
                VDict [("title", VStr "Acme"); ("link", VStr "https://acme.example");
                       ("body", VStr "Acme builds rockets")]]
       else Raise OSError |}.

Example check_scam_reports_sample :
  _check_scam_reports (Some sample_ddgs) (VStr "Acme") (VList [])
  = Ok {| reports_found := true;
          reports_sources := [VStr ""];
          reports_summary_ := FoundPotentialScamReports 1 |}.
Proof. vm_compute. reflexivity. Qed.

End CompanyFacts.

(** ** The learning agent: proposals *)

Module ProposeFacts.

Import Text DataModel toon_files toon_learning_agent ApplySpec ProposeSpec.

Set Warnings "-inexact-float".

(** *** The parts of [_propose_update] on typed results *)

Definition likely_scam (x : ExtractionResult) (r : ReputationResult) : bool :=
  (nonempty (x_fees x) && (2 <? Z.of_nat (List.length (x_red_flags x))))
  || r_scam_found r
  || String.eqb (r_trust_assessment r) "high_risk".

Definition likely_safe (r : ReputationResult) : bool :=
  (String.eqb (r_trust_assessment r) "high_trust"
   || String.eqb (r_trust_assessment r) "moderate_trust")
  && String.eqb (r_online_presence r) "strong".

Lemma positive_length {A : Type} (l : list A) :
  (0 <? Z.of_nat (List.length l)) = nonempty l.
Proof. now destruct l. Qed.

Lemma is_likely_scam_typed (x : ExtractionResult) (r : ReputationResult) :
  _is_likely_scam (py_of_extraction x) (py_of_reputation r)
  = Ok (likely_scam x r).
Proof.
  unfold _is_likely_scam, likely_scam.
  change (Py.get (py_of_extraction x) "fees" (VList []))
    with (Ok (VList (map py_of_fee (x_fees x)))).
  change (Py.get (py_of_extraction x) "red_flags" (VList []))
    with (Ok (strlist (x_red_flags x))).
  change (Py.get (py_of_reputation r) "scam_reports" (VDict []))
    with (Ok (py_of_scam_reports r)).
  change (Py.get (py_of_reputation r) "trust_assessment" (VStr "unknown"))
    with (Ok (VStr (r_trust_assessment r))).
  cbn [Py.bind Py.len]. rewrite len_strlist. cbn [Py.bind].
  change (Py.get (py_of_scam_reports r) "found" (VBool false))
    with (Ok (VBool (r_scam_found r))).
  cbn [Py.bind truthy eq_str].
  now rewrite length_map, positive_length.
Qed.

Lemma is_likely_safe_typed (r : ReputationResult) :
  _is_likely_safe (py_of_reputation r) = Ok (likely_safe r).
Proof.
  unfold _is_likely_safe, likely_safe.
  change (Py.get (py_of_reputation r) "trust_assessment" (VStr "unknown"))
    with (Ok (VStr (r_trust_assessment r))).
  change (Py.get (py_of_reputation r) "company_verification" (VDict []))
    with (Ok (py_of_company_verification r)).
  cbn [Py.bind].
  change (Py.get (py_of_company_verification r) "online_presence" (VStr "none"))
    with (Ok (VStr (r_online_presence r))).
  cbn [Py.bind in_strs existsb eq_str]. now rewrite orb_false_r.
Qed.

(** The keywords the agent takes for known: the list the scam document
    holds under suspicious_keywords, none when the files could not be
    loaded or the document has no such key. *)
Definition known_keywords (fs : files) : res (list value) :=
  suspicious_keywords <-
    Py.get (fst (starting_documents fs)) "suspicious_keywords" (VList []) ;;
  set_of suspicious_keywords.

Definition fresh_flags (current : list value) (x : ExtractionResult)
  : list string :=
  filter (fun flag => negb (str_in flag current)) (x_red_flags x).

Lemma extract_scam_patterns_typed (fs : files) (x : ExtractionResult)
    (r : ReputationResult) :
  _extract_scam_patterns fs (py_of_extraction x) (py_of_reputation r)
  = (current <- known_keywords fs ;;
     Ok [("new_scam_keywords", strlist (fresh_flags current x));
         ("new_scam_domains", strlist (r_suspicious_domains r));
         ("new_scam_behaviors", strlist (x_behaviors x))]).
Proof.
  unfold _extract_scam_patterns, known_keywords, fresh_flags.
  rewrite LoadSpec.learner_load. unfold starting_documents.
  assert (H : forall scam : value,
    (suspicious_keywords <- Py.get scam "suspicious_keywords" (VList []) ;;
     current_keywords <- set_of suspicious_keywords ;;
     red_flags <- Py.get (py_of_extraction x) "red_flags" (VList []) ;;
     red_flags <- str_items red_flags ;;
     email_ver <- Py.get (py_of_reputation r) "email_verification" (VDict []) ;;
     suspicious_domains <- Py.get email_ver "suspicious_domains" (VList []) ;;
     new_scam_domains <- str_items suspicious_domains ;;
     behaviors <- Py.get (py_of_extraction x) "behaviors" (VList []) ;;
     new_scam_behaviors <- str_items behaviors ;;
     Ok [("new_scam_keywords",
          strlist (filter (fun flag => negb (str_in flag current_keywords))
                          red_flags));
         ("new_scam_domains", strlist new_scam_domains);
         ("new_scam_behaviors", strlist new_scam_behaviors)])
    = (current <- (suspicious_keywords <-
                     Py.get scam "suspicious_keywords" (VList []) ;;
                   set_of suspicious_keywords) ;;
       Ok [("new_scam_keywords",
            strlist (filter (fun flag => negb (str_in flag current))
                            (x_red_flags x)));
           ("new_scam_domains", strlist (r_suspicious_domains r));
           ("new_scam_behaviors", strlist (x_behaviors x))])).
  { intros scam.
    destruct (Py.get scam "suspicious_keywords" (VList [])) as [kw|e];
      cbn [Py.bind]; [|reflexivity].
    destruct (set_of kw) as [current|e]; cbn [Py.bind]; [|reflexivity].
    change (Py.get (py_of_extraction x) "red_flags" (VList []))
      with (Ok (strlist (x_red_flags x))).
    change (Py.get (py_of_extraction x) "behaviors" (VList []))
      with (Ok (strlist (x_behaviors x))).
    change (Py.get (py_of_reputation r) "email_verification" (VDict []))
      with (Ok (py_of_email_verification r)).
    cbn [Py.bind]. rewrite !str_items_strlist. cbn [Py.bind].
    change (Py.get (py_of_email_verification r) "suspicious_domains" (VList []))
      with (Ok (strlist (r_suspicious_domains r))).
    cbn [Py.bind]. rewrite !str_items_strlist. reflexivity. }
  unfold LoadSpec.learner_response.
  destruct (load (scam_patterns_file fs)) as [scam|e];
    [destruct (load (positive_patterns_file fs)) as [positive|e]|];
    cbn [fst]; apply H.
Qed.

(** The domains of the emails: what stands between the first "@" and the
    next. *)
Definition safe_domains (r : ReputationResult) : list string :=
  map (after "@") (filter (contains "@") (r_professional_emails r))
  ++ r_trusted r.

Lemma extract_safe_patterns_typed (x : ExtractionResult) (r : ReputationResult) :
  _extract_safe_patterns (py_of_extraction x) (py_of_reputation r)
  = Ok [("new_safe_keywords", strlist []);
        ("new_safe_domains", strlist (safe_domains r))].
Proof.
  unfold _extract_safe_patterns, safe_domains.
  change (Py.get (py_of_reputation r) "email_verification" (VDict []))
    with (Ok (py_of_email_verification r)).
  change (Py.get (py_of_reputation r) "domain_analysis" (VDict []))
    with (Ok (py_of_domain_analysis r)).
  cbn [Py.bind].
  change (Py.get (py_of_email_verification r) "professional_emails" (VList []))
    with (Ok (strlist (r_professional_emails r))).
  change (Py.get (py_of_domain_analysis r) "trusted" (VList []))
    with (Ok (strlist (r_trusted r))).
  cbn [Py.bind]. rewrite !str_items_strlist. reflexivity.
Qed.

(** The confidence of an analysis. *)
Definition confidence_of (r : ReputationResult) : float :=
  code_confidence (r_online_presence r) (r_scam_found r)
    (Z.of_nat (List.length (r_sources r))) (r_trust_assessment r).

(** The proposal with the given candidates. *)
Definition proposal_of (scam_keywords scam_domains scam_behaviors
                          safe_domains : list string)
    (r : ReputationResult) : LearningProposal :=
  {| new_scam_keywords := scam_keywords;
     new_scam_domains := scam_domains;
     new_scam_behaviors := scam_behaviors;
     new_safe_keywords := [];
     new_safe_domains := safe_domains;
     confidence := confidence_of r;
     should_apply :=
       PrimFloat.leb CONFIDENCE_THRESHOLD (confidence_of r)
       && (nonempty scam_keywords || nonempty scam_domains
           || nonempty safe_domains) |}.

Definition response (p : LearningProposal) : value :=
  VDict [("status", VStr "success"); ("data", py_of_proposal p)].

Lemma finish_proposal (kw dom beh safe : list string) (r : ReputationResult) :
  let proposals :=
    [("new_scam_keywords", strlist kw);
     ("new_scam_domains", strlist dom);
     ("new_scam_behaviors", strlist beh);
     ("new_safe_keywords", strlist []);
     ("new_safe_domains", strlist safe);
     ("confidence", VFloat 0%float);
     ("should_apply", VBool false)] in
  (confidence <- _calculate_confidence proposals (py_of_reputation r) ;;
   let proposals := store "confidence" (VFloat confidence) proposals in
   should_apply <-
     (if PrimFloat.leb CONFIDENCE_THRESHOLD confidence
      then _has_sufficient_evidence proposals
      else Ok false) ;;
   let proposals := store "should_apply" (VBool should_apply) proposals in
   Ok (VDict [("status", VStr "success"); ("data", VDict proposals)]))
  = Ok (response (proposal_of kw dom beh safe r)).
Proof.
  cbv zeta. rewrite calculate_confidence_typed. cbn [Py.bind].
  fold (confidence_of r).
  unfold response, proposal_of, py_of_proposal.
  cbn [new_scam_keywords new_scam_domains new_scam_behaviors new_safe_keywords
       new_safe_domains confidence should_apply].
  destruct (PrimFloat.leb CONFIDENCE_THRESHOLD (confidence_of r));
    cbn [andb]; [|reflexivity].
  unfold _has_sufficient_evidence.
  change (store "confidence" (VFloat (confidence_of r))
            [("new_scam_keywords", strlist kw);
             ("new_scam_domains", strlist dom);
             ("new_scam_behaviors", strlist beh);
             ("new_safe_keywords", strlist []);
             ("new_safe_domains", strlist safe);
             ("confidence", VFloat 0%float);
             ("should_apply", VBool false)])
    with [("new_scam_keywords", strlist kw);
          ("new_scam_domains", strlist dom);
          ("new_scam_behaviors", strlist beh);
          ("new_safe_keywords", strlist []);
          ("new_safe_domains", strlist safe);
          ("confidence", VFloat (confidence_of r));
          ("should_apply", VBool false)].
  cbn [Py.get Py.lookup String.eqb Ascii.eqb Bool.eqb Py.bind].
  rewrite !len_strlist. cbn [Py.bind]. rewrite !positive_length.
  cbn [nonempty orb]. rewrite orb_false_r. reflexivity.
Qed.

(** [_propose_update] on the results of an analysis: the candidates of a
    likely scam, else those of a likely safe posting, else none. *)
Lemma propose_update_typed (fs : files) (x : ExtractionResult)
    (r : ReputationResult) :
  _propose_update fs
    (propose_update_payload (py_of_extraction x) (py_of_reputation r))
  = if likely_scam x r then
      current <- known_keywords fs ;;
      Ok (response (proposal_of (fresh_flags current x)
                      (r_suspicious_domains r) (x_behaviors x) [] r))
    else if likely_safe r then
      Ok (response (proposal_of [] [] [] (safe_domains r) r))
    else Ok (response (proposal_of [] [] [] [] r)).
Proof.
  unfold _propose_update.
  change (Py.get (propose_update_payload (py_of_extraction x) (py_of_reputation r))
            "extraction" (VDict []))
    with (Ok (py_of_extraction x)).
  change (Py.get (propose_update_payload (py_of_extraction x) (py_of_reputation r))
            "research" (VDict []))
    with (Ok (py_of_reputation r)).
  cbn [Py.bind]. cbv zeta.
  rewrite is_likely_scam_typed. cbn [Py.bind].
  destruct (likely_scam x r).
  - rewrite extract_scam_patterns_typed.
    destruct (known_keywords fs) as [current|e]; cbn [Py.bind]; [|reflexivity].
    apply (finish_proposal (fresh_flags current x) (r_suspicious_domains r)
             (x_behaviors x) [] r).
  - rewrite is_likely_safe_typed. cbn [Py.bind].
    destruct (likely_safe r).
    + rewrite extract_safe_patterns_typed. cbn [Py.bind].
      apply (finish_proposal [] [] [] (safe_domains r) r).
    + cbn [Py.bind]. apply (finish_proposal [] [] [] [] r).
Qed.

(** *** What a proposal holds *)


Definition known_files : files :=
  {| scam_patterns_file := Json (VDict [("suspicious_keywords", strlist ["kindly"])]);
     positive_patterns_file := Json (VDict []) |}.


(** *** Proposing again after the proposal was applied *)

Lemma map_VStr_inj (l l' : list string) : map VStr l = map VStr l' -> l = l'.
Proof.
  revert l'. induction l as [|s l IH]; intros [|s' l']; cbn; try discriminate;
    [reflexivity|].
  intros [= -> H]. f_equal. now apply IH.
Qed.

Lemma Ok_inj {A : Type} (a b : A) : Ok a = Ok b -> a = b.
Proof. intros H. now injection H. Qed.

Lemma response_inj (p q : LearningProposal) : response p = response q -> p = q.
Proof.
  destruct p, q. unfold response, py_of_proposal, strlist. cbn.
  intros [= H1 H2 H3 H4 H5 -> ->].
  apply map_VStr_inj in H1, H2, H3, H4, H5. now subst.
Qed.

Definition hashable (v : value) : bool :=
  match v with
  | VList _ | VDict _ => false
  | _ => true
  end.

Lemma set_of_cases (l : list value) :
  set_of (VList l) = if forallb hashable l then Ok l else Raise TypeError.
Proof.
  unfold set_of. induction l as [|v l IH]; [reflexivity|].
  cbn [mapM forallb].
  destruct v; cbn [hashable andb Py.bind]; try reflexivity;
    rewrite IH; destruct (forallb hashable l); reflexivity.
Qed.

Lemma known_keywords_list (fs : files) (current : list value) :
  known_keywords fs = Ok current ->
  exists d,
    fst (starting_documents fs) = VDict d
    /\ Py.get (VDict d) "suspicious_keywords" (VList []) = Ok (VList current)
    /\ forallb hashable current = true.
Proof.
  unfold known_keywords.
  destruct (fst (starting_documents fs)) as [| | | | | |d]; try discriminate.
  exists d. split; [reflexivity|].
  destruct (Py.get (VDict d) "suspicious_keywords" (VList [])) as [kw|e];
    [|discriminate].
  cbn [Py.bind] in H.
  destruct kw; try discriminate. rewrite set_of_cases in H.
  destruct (forallb hashable l) eqn:E; [|discriminate].
  injection H as <-. now split.
Qed.

(** The keywords block of [_apply_update]. *)
Lemma block_keywords (key : string) (candidates : list string)
    (d : dict) (l : list value) (doc' : value) :
  Py.get (VDict d) key (VList []) = Ok (VList l) ->
  block candidates key (VDict d) = Ok doc' ->
  exists d',
    doc' = VDict d'
    /\ Py.get (VDict d') key (VList []) = Ok (VList (append_new candidates l)).
Proof.
  intros Hget. unfold block.
  destruct candidates as [|c cs]; cbn [nonempty].
  - intros [= <-]. exists d. now split.
  - cbn [Py.get] in Hget. unfold merge_into.
    destruct (Py.lookup key d) as [v|] eqn:E.
    + injection Hget as ->. rewrite E. intros [= <-].
      eexists. split; [reflexivity|]. cbn [Py.get].
      now rewrite lookup_store_same.
    + injection Hget as <-. rewrite lookup_store_same. intros [= <-].
      eexists. split; [reflexivity|]. cbn [Py.get].
      now rewrite lookup_store_same.
Qed.

Lemma block_other_key (key key' : string) (candidates : list string)
    (d : dict) (doc' : value) :
  key <> key' ->
  block candidates key' (VDict d) = Ok doc' ->
  exists d', doc' = VDict d' /\ Py.lookup key d' = Py.lookup key d.
Proof.
  intros Hne. unfold block. destruct (nonempty candidates).
  - intros H. destruct (merge_into_dict _ _ _ _ H) as (d0 & d' & [= <-] & ->).
    exists d'. split; [reflexivity|].
    now apply (merge_into_frame key key' candidates).
  - intros [= <-]. now exists d.
Qed.

Lemma forallb_hashable_append (candidates : list string) (l : list value) :
  forallb hashable l = true ->
  forallb hashable (append_new candidates l) = true.
Proof.
  intros H. rewrite append_new_added, forallb_app, H. cbn [andb].
  apply forallb_forall. intros v Hv. apply in_map_iff in Hv as (s & <- & _).
  reflexivity.
Qed.

Lemma filter_none {A : Type} (f : A -> bool) (l : list A) :
  (forall x, In x l -> f x = false) -> filter f l = [].
Proof.
  induction l as [|x l IH]; intros H; [reflexivity|]. cbn [filter].
  rewrite (H x (or_introl eq_refl)). apply IH. intros y Hy. apply H. now right.
Qed.

(** Once the fresh flags are appended to the known keywords, no flag of the
    posting is fresh. *)
Lemma fresh_flags_settled (current : list value) (x : ExtractionResult) :
  fresh_flags (append_new (fresh_flags current x) current) x = [].
Proof.
  unfold fresh_flags at 1. apply filter_none. intros flag Hflag.
  apply negb_false_iff.
  destruct (str_in flag current) eqn:E.
  - rewrite append_new_added, str_in_app, E. reflexivity.
  - apply append_new_has. unfold fresh_flags. apply filter_In.
    split; [exact Hflag|]. now rewrite E.
Qed.

(** X18.  What was learned is not proposed again.  When a proposal was applied
    with success, the same analysis proposes no new scam keyword against the
    files written; its other candidates and its confidence are as they were. *)
Theorem applied_keywords_are_known (fs fs' : files) (x : ExtractionResult)
    (r : ReputationResult) (p : LearningProposal) :
  _propose_update fs
    (propose_update_payload (py_of_extraction x) (py_of_reputation r))
  = Ok (response p) ->
  _apply_update (apply_update_payload p) fs = Ok (success p, fs') ->
  exists p',
    _propose_update fs'
      (propose_update_payload (py_of_extraction x) (py_of_reputation r))
    = Ok (response p')
    /\ new_scam_keywords p' = []
    /\ new_scam_domains p' = new_scam_domains p
    /\ new_scam_behaviors p' = new_scam_behaviors p
    /\ new_safe_domains p' = new_safe_domains p
    /\ confidence p' = confidence p.
Proof.
  intros Hp Ha. rewrite apply_update_typed in Ha.
  destruct (should_apply p); [|discriminate Ha].
  destruct (merge_all p (starting_documents fs)) as [docs|e] eqn:Hm;
    [|discriminate Ha].
  rewrite saved_cases in Ha.
  destruct (LoadSpec.reachable (scam_patterns_file fs)); [|discriminate Ha].
  destruct (LoadSpec.reachable (positive_patterns_file fs));
    [|discriminate Ha].
  injection Ha as <-.
  rewrite propose_update_typed in Hp |- *.
  destruct (likely_scam x r).
  - destruct (known_keywords fs) as [current|e] eqn:Hk; [|discriminate Hp].
    cbn [Py.bind] in Hp. apply Ok_inj, response_inj in Hp. subst p.
    destruct (known_keywords_list fs current Hk) as (d & Hd & Hget & Hhash).
    unfold merge_all in Hm. rewrite Hd in Hm.
    cbn [proposal_of new_scam_keywords new_scam_domains new_scam_behaviors
         new_safe_domains] in Hm.
    destruct (block (fresh_flags current x) "suspicious_keywords" (VDict d))
      as [s1|e] eqn:E1; [|discriminate Hm].
    cbn [Py.bind] in Hm.
    destruct (block_keywords _ _ _ _ _ Hget E1) as (d1 & -> & Hget1).
    destruct (block (r_suspicious_domains r) "fake_domains" (VDict d1))
      as [s2|e] eqn:E2; [|discriminate Hm].
    cbn [Py.bind] in Hm.
    destruct (block_other_key "suspicious_keywords" "fake_domains" _ _ _
                ltac:(discriminate) E2) as (d2 & -> & Hl2).
    destruct (block (x_behaviors x) "behaviors" (VDict d2))
      as [s3|e] eqn:E3; [|discriminate Hm].
    cbn [Py.bind] in Hm.
    destruct (block_other_key "suspicious_keywords" "behaviors" _ _ _
                ltac:(discriminate) E3) as (d3 & -> & Hl3).
    cbn [block nonempty Py.bind] in Hm. injection Hm as <-.
    assert (Hknown : known_keywords
                       (written (VDict d3, snd (starting_documents fs)))
                     = Ok (append_new (fresh_flags current x) current)).
    { unfold known_keywords. rewrite starting_documents_written. cbn [fst].
      cbn [Py.get] in Hget1 |- *. rewrite Hl3, Hl2.
      injection Hget1 as ->. cbn [Py.bind]. rewrite set_of_cases.
      now rewrite forallb_hashable_append. }
    rewrite Hknown. cbn [Py.bind]. eexists. split; [reflexivity|].
    cbn [proposal_of new_scam_keywords new_scam_domains new_scam_behaviors
         new_safe_domains confidence].
    split; [apply fresh_flags_settled|]. repeat split.
  - exists p. split; [exact Hp|].
    assert (Hkw : new_scam_keywords p = []).
    { destruct (likely_safe r); apply Ok_inj, response_inj in Hp;
        now subst p. }
    rewrite Hkw. repeat split.
Qed.

Definition flagged_extraction : ExtractionResult :=
  {| x_company_name := "Acme"; x_emails := []; x_domains := []; x_phones := [];
     x_urls := []; x_salary := NotMentioned; x_fees := []; x_whatsapp := [];
     x_telegram := []; x_red_flags := ["kindly"; "act fast"];
     x_behaviors := ["unprofessional language"; "pressure to act fast"];
     x_raw_text := "Kindly act fast" |}.

Definition flagged_proposal : LearningProposal :=
  proposal_of ["act fast"] []
    ["unprofessional language"; "pressure to act fast"] [] reported_research.

Definition learned_files : files :=
  {| scam_patterns_file :=
       Json (VDict [("suspicious_keywords", strlist ["kindly"; "act fast"]);
                    ("behaviors",
                     strlist ["unprofessional language";
                              "pressure to act fast"])]);
     positive_patterns_file := Json (VDict []) |}.

Lemma applied_keywords_witness :
  exists p',
    _propose_update learned_files
      (propose_update_payload (py_of_extraction flagged_extraction)
         (py_of_reputation reported_research))
    = Ok (response p')
    /\ new_scam_keywords p' = [].
Proof.
  assert (Hp : _propose_update known_files
                 (propose_update_payload (py_of_extraction flagged_extraction)
                    (py_of_reputation reported_research))
               = Ok (response flagged_proposal))
    by (vm_compute; reflexivity).
  assert (Ha : _apply_update (apply_update_payload flagged_proposal) known_files
               = Ok (success flagged_proposal, learned_files))
    by (vm_compute; reflexivity).
  destruct (applied_keywords_are_known known_files learned_files
              flagged_extraction reported_research flagged_proposal Hp Ha)
    as (p' & Hp' & Hkw & _).
  exists p'. split; [exact Hp'|exact Hkw].
Defined.

End ProposeFacts.

(** ** The TOON manager once it is loaded *)

Module ImportFacts.

Import toon_files toon_manager LoadSpec ManagerFacts ApplySpec DataModel
       PatternFacts.

(** One call of [update_pattern]. *)
Record call : Type := {
  call_file_type : string;
  call_key : string;
  call_value : string
}.

Fixpoint run (calls : list call) (st : state) : res state :=
  match calls with
  | [] => Ok st
  | c :: calls' =>
      st' <- update_pattern (call_file_type c) (call_key c) (call_value c) st ;;
      run calls' st'
  end.

(** Two file types name the same file. *)
Definition same_file (file_type file_type' : string) : bool :=
  Bool.eqb (String.eqb file_type "scam") (String.eqb file_type' "scam").

(** The values of the calls for a file and a key, in their order. *)
Definition aimed_at (file_type key : string) (calls : list call) : list string :=
  map call_value
      (filter (fun c => same_file (call_file_type c) file_type
                        && String.eqb (call_key c) key)
              calls).

(** Both files hold a list of their own under every key of the schema. *)
Definition own_lists (st : state) : Prop :=
  forall file_type key,
    In key SCHEMA_keys -> has_list (path_of file_type (toon st)) key = true.

Lemma has_list_doc_of (c : string -> list value) (key : string) :
  In key SCHEMA_keys -> has_list (Json (doc_of c)) key = true.
Proof. intros Hin. each_key Hin; reflexivity. Qed.

Lemma path_of_same (file_type file_type' : string) (fs : files) :
  same_file file_type file_type' = true ->
  path_of file_type' fs = path_of file_type fs.
Proof.
  unfold same_file, path_of.
  destruct (String.eqb file_type "scam"), (String.eqb file_type' "scam");
    cbn; intros H; try discriminate; reflexivity.
Qed.

Lemma path_of_with_same (file_type file_type' : string) (f : file) (fs : files) :
  same_file file_type file_type' = true ->
  path_of file_type' (with_file file_type f fs) = f.
Proof.
  unfold same_file, path_of, with_file.
  destruct (String.eqb file_type "scam"), (String.eqb file_type' "scam");
    cbn; intros H; try discriminate; reflexivity.
Qed.

Lemma path_of_with_other (file_type file_type' : string) (f : file) (fs : files) :
  same_file file_type file_type' = false ->
  path_of file_type' (with_file file_type f fs) = path_of file_type' fs.
Proof.
  unfold same_file, path_of, with_file.
  destruct (String.eqb file_type "scam"), (String.eqb file_type' "scam");
    cbn; intros H; try discriminate; reflexivity.
Qed.

Lemma append_new_one (v : string) (l : list value) :
  append_new [v] l = if holds v l then l else l ++ [VStr v].
Proof. reflexivity. Qed.

Lemma append_new_cons (v : string) (values : list string) (l : list value) :
  append_new (v :: values) l = append_new values (append_new [v] l).
Proof. reflexivity. Qed.

Lemma own_lists_reachable (st : state) (file_type : string) :
  own_lists st -> reachable (path_of file_type (toon st)) = true.
Proof.
  intros Hown.
  pose proof (Hown file_type "behaviors" ltac:(cbn; tauto)) as H.
  unfold has_list, expected_slot in H.
  now destruct (path_of file_type (toon st)).
Qed.

(** One call on a state whose files have their own lists: [SCHEMA] stays as
    it is, and only the list of the file and the key named changes. *)
Lemma update_pattern_own_lists (file_type key v : string) (st : state) :
  well_formed st -> own_lists st ->
  exists st',
    update_pattern file_type key v st = Ok st'
    /\ well_formed st' /\ own_lists st' /\ SCHEMA st' = SCHEMA st
    /\ forall file_type' key',
         In key' SCHEMA_keys ->
         patterns st' file_type' key'
         = if same_file file_type file_type' && String.eqb key key'
           then append_new [v] (patterns st file_type' key')
           else patterns st file_type' key'.
Proof.
  intros Hwf Hown.
  destruct (in_dec string_dec key SCHEMA_keys) as [Hin|Hout].
  - exists (updated_state file_type key v st).
    split; [apply (update_pattern_reachable _ _ _ _ Hwf Hin);
            now apply own_lists_reachable|].
    unfold updated_state. cbv zeta.
    set (f := path_of file_type (toon st)).
    set (old := cat (SCHEMA st) f key).
    assert (Hsame : forall file_type',
               same_file file_type file_type' = true ->
               patterns st file_type' key = old).
    { intros file_type' H. rewrite (patterns_cat st file_type' key Hin).
      now rewrite (path_of_same _ _ _ H). }
    destruct (holds v old) eqn:Hold.
    + split; [exact Hwf|]. split; [exact Hown|]. split; [reflexivity|].
      intros file_type' key' Hin'.
      destruct (same_file file_type file_type') eqn:Ef; [|reflexivity].
      destruct (String.eqb key key') eqn:Ek; [|reflexivity].
      apply String.eqb_eq in Ek. subst key'. cbn [andb].
      now rewrite append_new_one, (Hsame _ Ef), Hold.
    + assert (Hlist : has_list f key = true) by apply (Hown file_type key Hin).
      rewrite Hlist.
      set (doc := Json (doc_of (fun k => if String.eqb k key
                                          then old ++ [VStr v]
                                          else cat (SCHEMA st) f k))).
      split; [exact Hwf|]. split; [|split; [reflexivity|]].
      * intros file_type' key' Hin'. cbn [toon].
        destruct (same_file file_type file_type') eqn:Ef.
        -- rewrite (path_of_with_same _ _ _ _ Ef). now apply has_list_doc_of.
        -- rewrite (path_of_with_other _ _ _ _ Ef). now apply Hown.
      * intros file_type' key' Hin'.
        rewrite !(patterns_cat _ file_type' key' Hin'). cbn [SCHEMA toon].
        destruct (same_file file_type file_type') eqn:Ef; cbn [andb].
        -- rewrite (path_of_with_same _ _ _ _ Ef), (path_of_same _ _ _ Ef).
           fold f. unfold doc. rewrite (cat_doc_of _ _ key' Hin').
           rewrite (String.eqb_sym key' key).
           destruct (String.eqb key key') eqn:Ek; [|reflexivity].
           apply String.eqb_eq in Ek. subst key'. fold old.
           now rewrite append_new_one, Hold.
        -- now rewrite (path_of_with_other _ _ _ _ Ef).
  - exists st. split; [now apply update_pattern_other_key|].
    split; [exact Hwf|]. split; [exact Hown|]. split; [reflexivity|].
    intros file_type' key' Hin'.
    destruct (String.eqb key key') eqn:Ek; [|now rewrite andb_false_r].
    apply String.eqb_eq in Ek. subst key'. contradiction.
Qed.

Lemma aimed_at_cons (file_type key : string) (c : call) (calls : list call) :
  aimed_at file_type key (c :: calls)
  = if same_file (call_file_type c) file_type && String.eqb (call_key c) key
    then call_value c :: aimed_at file_type key calls
    else aimed_at file_type key calls.
Proof.
  unfold aimed_at. cbn [filter].
  now destruct (same_file (call_file_type c) file_type
                && String.eqb (call_key c) key).
Qed.

Lemma run_cons (c : call) (calls : list call) (st : state) :
  run (c :: calls) st
  = (st' <- update_pattern (call_file_type c) (call_key c) (call_value c) st ;;
     run calls st').
Proof. reflexivity. Qed.

Lemma run_own_lists (calls : list call) (st : state) :
  well_formed st -> own_lists st ->
  exists st',
    run calls st = Ok st'
    /\ well_formed st' /\ own_lists st'
    /\ SCHEMA st' = SCHEMA st
    /\ forall file_type key,
         In key SCHEMA_keys ->
         patterns st' file_type key
         = append_new (aimed_at file_type key calls) (patterns st file_type key).
Proof.
  revert st. induction calls as [|c calls IH]; intros st Hwf Hown.
  - exists st. split; [reflexivity|]. split; [exact Hwf|]. split; [exact Hown|].
    split; [reflexivity|]. intros. reflexivity.
  - rewrite run_cons.
    destruct (update_pattern_own_lists (call_file_type c) (call_key c)
                (call_value c) st Hwf Hown)
      as (st1 & -> & Hwf' & Hown' & Hschema & Hone).
    cbn [Py.bind].
    destruct (IH _ Hwf' Hown') as (st' & Hrun & Hwf'' & Hown'' & Hs & Hp).
    exists st'. split; [exact Hrun|]. split; [exact Hwf''|].
    split; [exact Hown''|]. split; [now rewrite Hs, Hschema|].
    intros file_type key Hin. rewrite (Hp _ _ Hin), (Hone _ _ Hin).
    rewrite aimed_at_cons.
    destruct (same_file (call_file_type c) file_type
              && String.eqb (call_key c) key); [|reflexivity].
    now rewrite append_new_cons.
Qed.

(** Both files of the knowledge base can be reached. *)
Definition within_reach (fs : files) : bool :=
  reachable (scam_patterns_file fs) && reachable (positive_patterns_file fs).

Lemma loaded_own_lists (fs : files) :
  within_reach fs = true ->
  well_formed (loaded fs) /\ own_lists (loaded fs).
Proof.
  unfold within_reach. rewrite andb_true_iff. intros [Hs Hp].
  split; [reflexivity|].
  intros file_type key Hin. unfold path_of, loaded, init_defaults.
  cbn [toon scam_patterns_file positive_patterns_file].
  destruct (scam_patterns_file fs); try discriminate;
    destruct (positive_patterns_file fs); try discriminate;
    destruct (String.eqb file_type "scam"); each_key Hin; reflexivity.
Qed.

Lemma holds_append_new (v : string) (values : list string) (l : list value) :
  holds v (append_new values l) = true <-> holds v l = true \/ In v values.
Proof.
  change (holds v) with (toon_learning_agent.str_in v).
  rewrite append_new_added, str_in_app, orb_true_iff, str_in_map_VStr,
    added_spec.
  destruct (toon_learning_agent.str_in v l); intuition discriminate.
Qed.

Definition sample_calls : list call :=
  [{| call_file_type := "scam"; call_key := "fake_domains";
      call_value := "evil.example" |};
   {| call_file_type := "positive"; call_key := "fake_domains";
      call_value := "good.example" |};
   {| call_file_type := "scam"; call_key := "fake_domains";
      call_value := "evil.example" |}].

Definition found_files : files :=
  {| scam_patterns_file := Missing; positive_patterns_file := Unreadable |}.

(** X13.  Once the module is loaded over two files it can reach, the knowledge
    base is ten lists that do not interfere.  Every call of [update_pattern]
    returns; after any calls, the lists of [SCHEMA] are as empty as before, and
    the list a file holds under a key is the default list followed by the
    values of the calls for this file and this key, each once, in the order
    they first came: a pattern is there exactly when it is a default or some
    call brought it to this file and key. *)
Theorem updates_after_import (fs : files) (calls : list call)
    (file_type key : string) :
  within_reach fs = true -> In key SCHEMA_keys ->
  exists st,
    run calls (loaded fs) = Ok st
    /\ SCHEMA st = SCHEMA_initial
    /\ patterns st file_type key
       = append_new (aimed_at file_type key calls)
                    (patterns (loaded fs) file_type key)
    /\ forall v,
         holds v (patterns st file_type key) = true
         <-> holds v (patterns (loaded fs) file_type key) = true
             \/ In v (aimed_at file_type key calls).
Proof.
  intros Hreach Hin.
  destruct (loaded_own_lists fs Hreach) as [Hwf Hown].
  destruct (run_own_lists calls (loaded fs) Hwf Hown)
    as (st & Hrun & _ & _ & Hs & Hp).
  exists st. split; [exact Hrun|]. split; [exact Hs|]. split; [now apply Hp|].
  intros v. rewrite (Hp _ _ Hin). apply holds_append_new.
Qed.

Lemma updates_after_import_witness :
  exists st,
    run sample_calls (loaded found_files) = Ok st
    /\ patterns st "scam" "fake_domains"
       = map VStr ["@gmail.com jobs"; "@workfromhome.cash";
                   "@yahoo.com careers"; "@hotmail.com hr";
                   "@outlook.com hiring"; "evil.example"].
Proof.
  assert (Hreach : within_reach found_files = true) by reflexivity.
  assert (Hin : In "fake_domains" SCHEMA_keys) by (cbn; tauto).
  destruct (updates_after_import found_files sample_calls "scam" "fake_domains"
              Hreach Hin) as (st & Hrun & _ & Hp & _).
  exists st. split; [exact Hrun|]. rewrite Hp. reflexivity.
Defined.

(** *** The pattern agent on the knowledge base *)

Lemma holds_iff_In (v : string) (l : list value) :
  holds v l = true <-> In (VStr v) l.
Proof.
  split; [apply holds_In|]. intros H. unfold holds. apply existsb_exists.
  exists (VStr v). split; [exact H|]. cbn. apply String.eqb_refl.
Qed.

Lemma known_scam_view (st : state) (category keyword : string) :
  known (scam_view st) category keyword
  <-> In category SCHEMA_keys
      /\ holds keyword (patterns st "scam" category) = true.
Proof.
  unfold known. rewrite scam_view_patterns. setoid_rewrite in_map_iff.
  rewrite holds_iff_In. split.
  - intros (keywords & (k & [= <- <-] & Hk) & Hin). now split.
  - intros [Hk Hin]. exists (patterns st "scam" category).
    split; [now exists category|exact Hin].
Qed.

(** A state all of whose lists are lists of strings holds strings only. *)
Lemma strings_only_patterns (st : state) :
  (forall file_type key x,
      In key SCHEMA_keys -> In x (patterns st file_type key) ->
      is_str x = true) ->
  strings_only st.
Proof.
  intros H. unfold strings_only.
  rewrite scam_view_patterns, positive_view_patterns, !all_strings_by_key.
  split; intros key x Hkey Hx; now apply (H _ key x Hkey Hx).
Qed.

Lemma in_append_new (values : list string) (l : list value) (x : value) :
  In x (append_new values l) -> In x l \/ is_str x = true.
Proof.
  rewrite append_new_added, in_app_iff, in_map_iff.
  intros [H|(s & <- & _)]; [now left|now right].
Qed.

(** X16.  Once the module is loaded over files it can reach, and whatever calls
    of [update_pattern] followed, the pattern agent answers on every text; and
    it lists a keyword as a scam match, under its category, exactly when the
    keyword is a default of the scam file under that category or a call brought
    it there, and it stands in the text, whatever the case of the letters. *)
Theorem pattern_agent_after_import (fs : files) (calls : list call)
    (text : string) :
  within_reach fs = true ->
  exists st p,
    run calls (loaded fs) = Ok st
    /\ pattern_agent.handle st (pattern_payload text)
       = Ok (VDict [("status", VStr "ok"); ("data", py_of_pattern p)])
    /\ forall category keyword,
         listed (p_scam_matches p) category keyword
         <-> In category SCHEMA_keys
             /\ (holds keyword (patterns (loaded fs) "scam" category) = true
                 \/ In keyword (aimed_at "scam" category calls))
             /\ found text keyword.
Proof.
  intros Hreach.
  destruct (loaded_own_lists fs Hreach) as [Hwf Hown].
  destruct (run_own_lists calls (loaded fs) Hwf Hown)
    as (st & Hrun & Hwf' & Hown' & _ & Hp).
  assert (Hloaded : strings_only (loaded fs)).
  { unfold within_reach in Hreach. apply andb_true_iff in Hreach as [Hs Hq].
    unfold strings_only, scam_view, positive_view, loaded, init_defaults.
    cbn [toon scam_patterns_file positive_patterns_file SCHEMA].
    destruct (scam_patterns_file fs); try discriminate;
      destruct (positive_patterns_file fs); try discriminate;
      split; reflexivity. }
  assert (Hstr : strings_only st).
  { apply strings_only_patterns. intros file_type key x Hkey Hx.
    rewrite (Hp _ _ Hkey) in Hx. apply in_append_new in Hx as [Hx|Hx];
      [|exact Hx].
    unfold strings_only in Hloaded.
    rewrite scam_view_patterns, positive_view_patterns,
      !all_strings_by_key in Hloaded.
    destruct Hloaded as [Hs Hq].
    rewrite (patterns_cat _ file_type key Hkey) in Hx.
    unfold path_of in Hx.
    destruct (String.eqb file_type "scam") eqn:E.
    - apply (Hs key x Hkey). rewrite (patterns_cat _ "scam" key Hkey).
      exact Hx.
    - apply (Hq key x Hkey). rewrite (patterns_cat _ "positive" key Hkey).
      exact Hx. }
  assert (Hin_reach : in_reach st = true).
  { pose proof (own_lists_reachable st "scam" Hown') as Hs.
    pose proof (own_lists_reachable st "positive" Hown') as Hq.
    unfold path_of in Hs, Hq. cbn in Hs, Hq.
    unfold in_reach. now rewrite Hs, Hq. }
  exists st, (result_of st text). split; [exact Hrun|]. split.
  - rewrite handle_cases, Hin_reach. destruct Hstr as [-> ->]. reflexivity.
  - intros category keyword. cbn [result_of p_scam_matches].
    rewrite (listed_hits_of _ _ _ _ (proj1 Hstr)), known_scam_view.
    split.
    + intros [[Hk Hh] Hf]. rewrite (Hp _ _ Hk) in Hh.
      apply holds_append_new in Hh. auto.
    + intros (Hk & Hh & Hf). rewrite (Hp _ _ Hk).
      split; [|exact Hf]. split; [exact Hk|]. now apply holds_append_new.
Qed.

Lemma pattern_agent_witness :
  exists st p,
    run sample_calls (loaded found_files) = Ok st
    /\ pattern_agent.handle st (pattern_payload "Write to hr@EVIL.example")
       = Ok (VDict [("status", VStr "ok"); ("data", py_of_pattern p)])
    /\ listed (p_scam_matches p) "fake_domains" "evil.example".
Proof.
  assert (Hreach : within_reach found_files = true) by reflexivity.
  destruct (pattern_agent_after_import found_files sample_calls
              "Write to hr@EVIL.example" Hreach)
    as (st & p & Hrun & Hp & Hl).
  exists st, p. split; [exact Hrun|]. split; [exact Hp|].
  apply Hl. split; [cbn; tauto|]. split; [right; cbn; tauto|reflexivity].
Defined.

End ImportFacts.
